(** * Tracker backend: a shallow embedding of [backend/app.py]

    The Flask application keeps two module-level globals, the list
    [transactions] and the dictionary [cache], and serves seven routes over
    them.  This development embeds the handlers as functions over an explicit
    store, with Python's exceptions as an error monad, and proves the
    properties the specification states about them.

    Conventions of the embedding:
    - a Python [float] is a binary64 number, here Rocq's primitive [float];
    - a Python [str] is a [string] of ASCII text: the digits and the white
      space that [strptime], [str.strip] and [float] look for are the ASCII
      ones (the digits and spaces of other scripts, which Python reads as
      well, are outside the model);
    - a value decoded by [request.get_json()] is a [json];
    - a dictionary whose iteration order matters ([defaultdict]s that are
      iterated, JSON objects) is an association list in insertion order; the
      [cache] dictionary, which is only probed by key, is a [gmap];
    - built-in conversions of the interpreter that are not part of the
      repository ([round], [float] on text, [repr], number formatting, the
      year of [strftime], [list.sort] on float keys) are the methods of the
      class [PyRuntime]. *)

From stdpp Require Import gmap strings.
From Stdlib Require Import ZArith List String Ascii Bool Lia Floats.
From Stdlib Require Import Permutation Sorted DecimalString.
Import ListNotations.

Set Warnings "-register-all".

Local Open Scope string_scope.
Local Open Scope list_scope.

(* ===================================================================== *)
(** * Exceptions *)
(* ===================================================================== *)

(** The exception classes the handlers can meet. *)
Inductive exn : Type :=
| TypeError
| ValueError
| KeyError
| OverflowError
| ZeroDivisionError.

(** A computation that returns a value or raises. *)
Inductive result (A : Type) : Type :=
| Ok (a : A)
| Raise (e : exn).

Arguments Ok {A} a.
Arguments Raise {A} e.

Definition bind {A B : Type} (m : result A) (k : A -> result B) : result B :=
  match m with
  | Ok a => k a
  | Raise e => Raise e
  end.

Notation "'let*' x ':=' m 'in' k" := (bind m (fun x => k))
  (at level 10, x name, m at level 100, k at level 200).

(* ===================================================================== *)
(** * Python floats *)
(* ===================================================================== *)

Module PyFloat.

Local Open Scope float_scope.

(** [x < y], [x > y], [x == y] on floats are the IEEE comparisons: each is
    false as soon as one side is NaN. *)
Definition lt (x y : float) : bool := x <? y.
Definition gt (x y : float) : bool := y <? x.
Definition ge (x y : float) : bool := y <=? x.
Definition eq (x y : float) : bool := x =? y.

Definition is_nan (x : float) : bool := PrimFloat.is_nan x.

(** [float(n)] for a length or a counter: such integers are below [2^63]
    ([sys.maxsize]), where the primitive conversion is the correctly rounded
    one. *)
Definition of_nat (n : nat) : float :=
  PrimFloat.of_uint63 (Uint63.of_Z (Z.of_nat n)).

(** [float(z)] for an arbitrary integer: rounded to nearest, ties to even;
    [None] stands for [OverflowError] (the rounded value is not finite). *)
Definition of_Z (z : Z) : option float :=
  match binary_normalize prec emax z 0 false with
  | S754_infinity _ => None
  | sf => Some (SF2Prim sf)
  end.

(** [x / y] on two floats raises on a zero divisor, of either sign, whatever
    the dividend. *)
Definition div (x y : float) : result float :=
  if y =? 0 then Raise ZeroDivisionError else Ok (x / y).

(** [x / n] with [n] an [int]: the integer is converted first; the converted
    value is zero exactly when [n] is. *)
Definition div_nat (x : float) (n : nat) : result float :=
  match n with
  | O => Raise ZeroDivisionError
  | S _ => Ok (x / of_nat n)
  end.

Lemma div_nat_pos x n : (0 < n)%nat -> div_nat x n = Ok (x / of_nat n).
Proof. destruct n; [lia | reflexivity]. Qed.

(** ** The order on floats that are not NaN

    Every float that is not NaN gets a rank in [Z * Z * Z], ordered
    lexicographically, that the IEEE comparison follows. *)

Definition sf_rank (f : spec_float) : option (Z * Z * Z) :=
  match f with
  | S754_nan => None
  | S754_infinity true => Some (-2, 0, 0)%Z
  | S754_infinity false => Some (2, 0, 0)%Z
  | S754_zero _ => Some (0, 0, 0)%Z
  | S754_finite false m e => Some (1, e, Zpos m)%Z
  | S754_finite true m e => Some (-1, - e, Zneg m)%Z
  end.

Definition rank (x : float) : option (Z * Z * Z) := sf_rank (Prim2SF x).

Definition lex3 (a b : Z * Z * Z) : comparison :=
  let '(a1, a2, a3) := a in
  let '(b1, b2, b3) := b in
  match (a1 ?= b1)%Z with
  | Eq => match (a2 ?= b2)%Z with
          | Eq => (a3 ?= b3)%Z
          | c => c
          end
  | c => c
  end.

Definition lex_lt (a b : Z * Z * Z) : Prop :=
  let '(a1, a2, a3) := a in
  let '(b1, b2, b3) := b in
  (a1 < b1 \/ (a1 = b1 /\ (a2 < b2 \/ (a2 = b2 /\ a3 < b3))))%Z.

Lemma lex3_Lt a b : lex3 a b = Lt <-> lex_lt a b.
Proof.
  destruct a as [[a1 a2] a3], b as [[b1 b2] b3]; unfold lex3, lex_lt.
  destruct (Z.compare_spec a1 b1), (Z.compare_spec a2 b2),
    (Z.compare_spec a3 b3); split; intros; try discriminate; try lia;
    reflexivity.
Qed.

Lemma lex3_Gt a b : lex3 a b = Gt <-> lex_lt b a.
Proof.
  destruct a as [[a1 a2] a3], b as [[b1 b2] b3]; unfold lex3, lex_lt.
  destruct (Z.compare_spec a1 b1), (Z.compare_spec a2 b2),
    (Z.compare_spec a3 b3); split; intros; try discriminate; try lia;
    reflexivity.
Qed.

Lemma lex_lt_trans a b c : lex_lt a b -> lex_lt b c -> lex_lt a c.
Proof.
  destruct a as [[a1 a2] a3], b as [[b1 b2] b3], c as [[c1 c2] c3].
  unfold lex_lt; lia.
Qed.

Lemma lex_lt_asym a b : lex_lt a b -> ~ lex_lt b a.
Proof.
  destruct a as [[a1 a2] a3], b as [[b1 b2] b3]; unfold lex_lt; lia.
Qed.

(** Not smaller is transitive: the order on ranks is total. *)
Lemma lex_ge_trans a b c : ~ lex_lt a b -> ~ lex_lt b c -> ~ lex_lt a c.
Proof.
  destruct a as [[a1 a2] a3], b as [[b1 b2] b3], c as [[c1 c2] c3].
  unfold lex_lt; lia.
Qed.

Lemma SFcompare_rank f g :
  SFcompare f g =
  match sf_rank f, sf_rank g with
  | Some a, Some b => Some (lex3 a b)
  | _, _ => None
  end.
Proof.
  destruct f as [sf | sf | | sf mf ef], g as [sg | sg | | sg mg eg];
    try destruct sf; try destruct sg; try reflexivity; cbn.
  rewrite (Z.compare_opp ef eg), (Z.compare_antisym eg ef).
  change (PosDef.Pos.compare_cont Eq mf mg) with (mf ?= mg)%positive.
  destruct (eg ?= ef)%Z; reflexivity.
Qed.

Lemma is_nan_rank x : is_nan x = false <-> rank x <> None.
Proof.
  unfold is_nan, PrimFloat.is_nan, rank. rewrite eqb_spec. unfold SFeqb.
  rewrite SFcompare_rank. destruct (sf_rank (Prim2SF x)) as [r |]; cbn.
  - destruct r as [[a b] c]. cbn. rewrite !Z.compare_refl. cbn. split; congruence.
  - split; congruence.
Qed.

Lemma lt_rank x y :
  lt x y = true <-> exists a b, rank x = Some a /\ rank y = Some b /\ lex_lt a b.
Proof.
  unfold lt, rank. rewrite ltb_spec. unfold SFltb. rewrite SFcompare_rank.
  destruct (sf_rank (Prim2SF x)) as [a |], (sf_rank (Prim2SF y)) as [b |];
    try (split; [discriminate | intros (? & ? & ? & ? & _); discriminate]).
  split.
  - intros H. exists a, b. repeat split. apply lex3_Lt.
    destruct (lex3 a b); congruence.
  - intros (a' & b' & Ha & Hb & Hlt). inversion Ha; inversion Hb; subst.
    apply lex3_Lt in Hlt. rewrite Hlt. reflexivity.
Qed.

(** [<] is asymmetric on all floats. *)
Lemma lt_asym x y : lt x y = true -> lt y x = false.
Proof.
  intros H. destruct (lt y x) eqn:E; [| reflexivity].
  apply lt_rank in H. apply lt_rank in E.
  destruct H as (a & b & Ha & Hb & Hab), E as (b' & a' & Hb' & Ha' & Hba).
  rewrite Ha in Ha'. rewrite Hb in Hb'. inversion Ha'; inversion Hb'; subst.
  exfalso. eapply lex_lt_asym; eassumption.
Qed.

Lemma lt_irrefl x : lt x x = false.
Proof.
  destruct (lt x x) eqn:E; [| reflexivity].
  pose proof (lt_asym _ _ E). congruence.
Qed.

(** [<] is transitive on all floats. *)
Lemma lt_trans x y z : lt x y = true -> lt y z = true -> lt x z = true.
Proof.
  intros H1 H2. apply lt_rank in H1. apply lt_rank in H2. apply lt_rank.
  destruct H1 as (a & b & Ha & Hb & Hab), H2 as (b' & c & Hb' & Hc & Hbc).
  rewrite Hb in Hb'. inversion Hb'; subst.
  exists a, c. repeat split; try assumption. eapply lex_lt_trans; eassumption.
Qed.

(** "Not smaller" is transitive as soon as the middle value is a number. *)
Lemma ge_trans x y z :
  is_nan y = false -> lt x y = false -> lt y z = false -> lt x z = false.
Proof.
  intros Hy H1 H2. destruct (lt x z) eqn:E; [| reflexivity]. exfalso.
  apply lt_rank in E. destruct E as (a & c & Ha & Hc & Hac).
  apply is_nan_rank in Hy. destruct (rank y) as [b |] eqn:Hb; [| congruence].
  assert (N1 : ~ lex_lt a b).
  { intros L. assert (lt x y = true) by (apply lt_rank; eauto 6). congruence. }
  assert (N2 : ~ lex_lt b c).
  { intros L. assert (lt y z = true) by (apply lt_rank; eauto 6). congruence. }
  exact (lex_ge_trans _ _ _ N1 N2 Hac).
Qed.

Lemma lex3_Eq a b : lex3 a b = Eq <-> ~ lex_lt a b /\ ~ lex_lt b a.
Proof.
  destruct a as [[a1 a2] a3], b as [[b1 b2] b3]; unfold lex3, lex_lt.
  destruct (Z.compare_spec a1 b1), (Z.compare_spec a2 b2),
    (Z.compare_spec a3 b3); split; intros; try discriminate; try lia;
    reflexivity.
Qed.

(** On numbers, [==] holds exactly when neither side is smaller. *)
Lemma eq_lt x y :
  is_nan x = false -> is_nan y = false ->
  eq x y = negb (lt x y) && negb (lt y x).
Proof.
  intros Hx Hy. apply is_nan_rank in Hx. apply is_nan_rank in Hy.
  unfold eq, lt. rewrite eqb_spec, !ltb_spec. unfold SFeqb, SFltb.
  rewrite !SFcompare_rank. unfold rank in *.
  destruct (sf_rank (Prim2SF x)) as [a |]; [| congruence].
  destruct (sf_rank (Prim2SF y)) as [b |]; [| congruence].
  pose proof (lex3_Lt a b) as L1. pose proof (lex3_Gt a b) as G1.
  pose proof (lex3_Lt b a) as L2. pose proof (lex3_Eq a b) as E1.
  destruct (lex3 a b) eqn:C1; destruct (lex3 b a) eqn:C2; cbn; try reflexivity;
    exfalso; intuition congruence.
Qed.

(** Both sides of a true comparison are numbers. *)
Lemma lt_is_number x y : lt x y = true -> is_nan x = false /\ is_nan y = false.
Proof.
  intros H. apply lt_rank in H. destruct H as (a & b & Ha & Hb & _).
  split; apply is_nan_rank; congruence.
Qed.

Lemma lt_not_eq x y : lt x y = true -> eq y x = false.
Proof.
  intros H. destruct (lt_is_number _ _ H) as [Hx Hy].
  rewrite (eq_lt y x Hy Hx), H, andb_false_r. reflexivity.
Qed.

Lemma eq_is_number x y : eq x y = true -> is_nan x = false /\ is_nan y = false.
Proof.
  unfold eq. rewrite eqb_spec. unfold SFeqb. rewrite SFcompare_rank.
  intros H. split; apply is_nan_rank; unfold rank;
    destruct (sf_rank (Prim2SF x)), (sf_rank (Prim2SF y)); congruence.
Qed.

Lemma ge_is_number x y : ge x y = true -> is_nan x = false /\ is_nan y = false.
Proof.
  unfold ge. rewrite leb_spec. unfold SFleb. rewrite SFcompare_rank.
  intros H. split; apply is_nan_rank; unfold rank;
    destruct (sf_rank (Prim2SF x)), (sf_rank (Prim2SF y)); congruence.
Qed.

(** On numbers, [y <= x] holds exactly when [x < y] does not. *)
Lemma ge_lt x y :
  is_nan x = false -> is_nan y = false -> ge x y = negb (lt x y).
Proof.
  intros Hx Hy. apply is_nan_rank in Hx. apply is_nan_rank in Hy.
  unfold ge, lt. rewrite leb_spec, !ltb_spec. unfold SFleb, SFltb.
  rewrite !SFcompare_rank. unfold rank in *.
  destruct (sf_rank (Prim2SF x)) as [a |]; [| congruence].
  destruct (sf_rank (Prim2SF y)) as [b |]; [| congruence].
  pose proof (lex3_Lt a b) as L1. pose proof (lex3_Gt a b) as G1.
  pose proof (lex3_Lt b a) as L2. pose proof (lex3_Gt b a) as G2.
  pose proof (lex3_Eq a b) as E1. pose proof (lex3_Eq b a) as E2.
  destruct (lex3 a b) eqn:C1; destruct (lex3 b a) eqn:C2; cbn; try reflexivity;
    exfalso; intuition congruence.
Qed.

(** ** Sums of amounts that are not negative

    [x >= 0] holds for the zeros, the positive numbers and [+inf]; the sum
    of two such floats is one of them again, never NaN. *)

Definition sf_nonneg (f : spec_float) : bool :=
  match f with
  | S754_zero _ | S754_finite false _ _ | S754_infinity false => true
  | _ => false
  end.

Lemma ge_zero_spec x : ge x 0 = sf_nonneg (Prim2SF x).
Proof.
  unfold ge. rewrite leb_spec. change (Prim2SF 0) with (S754_zero false).
  destruct (Prim2SF x) as [[] | [] | | [] m e]; reflexivity.
Qed.

Lemma ge_zero_number x : ge x 0 = true -> is_nan x = false.
Proof.
  rewrite ge_zero_spec. intros Hx. apply is_nan_rank. unfold rank.
  destruct (Prim2SF x) as [[] | [] | | [] m e]; cbn in *; congruence.
Qed.

Lemma shr_1_nonneg mrs : (0 <= shr_m mrs)%Z -> (0 <= shr_m (shr_1 mrs))%Z.
Proof.
  destruct mrs as [m r s]. destruct m as [| [p | p |] | p]; cbn; lia.
Qed.

Lemma iter_shr_1_nonneg p mrs :
  (0 <= shr_m mrs)%Z -> (0 <= shr_m (iter_pos shr_1 p mrs))%Z.
Proof.
  revert mrs. induction p as [p IH | p IH |]; intros mrs Hm; cbn.
  - apply IH, IH, shr_1_nonneg, Hm.
  - apply IH, IH, Hm.
  - apply shr_1_nonneg, Hm.
Qed.

Lemma shr_fexp_nonneg m e l :
  (0 <= m)%Z -> (0 <= shr_m (fst (shr_fexp prec emax m e l)))%Z.
Proof.
  intros Hm. unfold shr_fexp, shr.
  assert (H0 : (0 <= shr_m (shr_record_of_loc m l))%Z)
    by (destruct l as [| []]; exact Hm).
  destruct (fexp prec emax (Zdigits2 m + e) - e)%Z; cbn; try exact H0.
  apply iter_shr_1_nonneg, H0.
Qed.

Lemma round_nearest_even_nonneg m l :
  (0 <= m)%Z -> (0 <= round_nearest_even m l)%Z.
Proof.
  intros Hm. destruct l as [| []]; cbn; try lia. destruct (Z.even m); lia.
Qed.

Definition sf_number (f : spec_float) : bool :=
  match f with
  | S754_nan => false
  | _ => true
  end.

Definition sf_sign (s : bool) (f : spec_float) : bool :=
  match f with
  | S754_zero s' | S754_finite s' _ _ | S754_infinity s' => Bool.eqb s' s
  | S754_nan => false
  end.

(** Rounding a mantissa that is not negative gives a number of the sign
    it is asked for. *)
Lemma binary_round_aux_sign s mx ex lx :
  (0 <= mx)%Z -> sf_sign s (binary_round_aux prec emax s mx ex lx) = true.
Proof.
  intros Hm. unfold binary_round_aux.
  pose proof (shr_fexp_nonneg mx ex lx Hm) as H1.
  destruct (shr_fexp prec emax mx ex lx) as [mrs' e']. cbn [fst] in H1.
  pose proof (shr_fexp_nonneg _ e' loc_Exact
                (round_nearest_even_nonneg _ (loc_of_shr_record mrs') H1)) as H2.
  destruct (shr_fexp prec emax _ e' loc_Exact) as [mrs'' e'']. cbn [fst] in H2.
  destruct (shr_m mrs'') as [| m | m]; [apply eqb_reflx | | lia].
  destruct (e'' <=? emax - prec)%Z; apply eqb_reflx.
Qed.

Lemma binary_round_sign s m e : sf_sign s (binary_round prec emax s m e) = true.
Proof.
  unfold binary_round. destruct (shl_align m _ _) as [mz ez].
  apply binary_round_aux_sign. lia.
Qed.

Lemma sf_sign_number s f : sf_sign s f = true -> sf_number f = true.
Proof. destruct f; cbn; congruence. Qed.

Lemma sf_sign_nonneg f : sf_sign false f = true -> sf_nonneg f = true.
Proof. destruct f as [[] | [] | | [] m e]; cbn; congruence. Qed.

Lemma SFadd_nonneg a b :
  sf_nonneg a = true -> sf_nonneg b = true -> sf_nonneg (SFadd prec emax a b) = true.
Proof.
  destruct a as [[] | [] | | [] ma ea], b as [[] | [] | | [] mb eb];
    cbn [sf_nonneg]; try discriminate; try reflexivity.
  intros _ _. unfold SFadd, binary_normalize, cond_Zopp.
  destruct (_ + _)%Z as [| p | p] eqn:E; [reflexivity | | lia].
  apply sf_sign_nonneg, binary_round_sign.
Qed.

(** ** Conversions never make a NaN out of a number *)

Lemma is_nan_spec x : is_nan x = false <-> sf_number (Prim2SF x) = true.
Proof.
  rewrite is_nan_rank. unfold rank.
  destruct (Prim2SF x) as [[] | [] | | [] m e]; cbn; split; congruence.
Qed.

Lemma binary_normalize_number z e :
  sf_number (binary_normalize prec emax z e false) = true.
Proof.
  destruct z as [| p | p]; cbn [binary_normalize]; [reflexivity | |];
    eapply sf_sign_number, binary_round_sign.
Qed.

Lemma SFldexp_number f e :
  sf_number f = true -> sf_number (SFldexp prec emax f e) = true.
Proof.
  destruct f as [s | s | | s m e']; cbn [SFldexp]; try (intros H; exact H).
  intros _. eapply sf_sign_number, binary_round_sign.
Qed.

Lemma SFopp_number f : sf_number f = true -> sf_number (SFopp f) = true.
Proof. destruct f; cbn; congruence. Qed.

Lemma SF2Prim_number f : sf_number f = true -> is_nan (SF2Prim f) = false.
Proof.
  destruct f as [[] | [] | | s m e]; try reflexivity; [discriminate |].
  intros _. unfold SF2Prim.
  assert (Hl : forall n, sf_number (Prim2SF (Z.ldexp (of_uint63 n) e)) = true).
  { intros n. rewrite FloatLemmas.Z_ldexp_spec, of_uint63_spec.
    apply SFldexp_number, binary_normalize_number. }
  destruct s; apply is_nan_spec; [rewrite opp_spec; apply SFopp_number |]; apply Hl.
Qed.

Lemma SFdiv_finite_number s1 m1 e1 s2 m2 e2 :
  sf_number (SFdiv prec emax (S754_finite s1 m1 e1) (S754_finite s2 m2 e2)) = true.
Proof.
  unfold SFdiv, SFdiv_core_binary.
  match goal with
  | |- context [Z.div_eucl ?a ?b] =>
      pose proof (Z.div_pos a b) as Hq;
      unfold Z.div in Hq; destruct (Z.div_eucl a b) as [q r];
      assert (Hq' : (0 <= q)%Z)
  end.
  { apply Hq; [| lia].
    destruct (e1 - e2 - _)%Z; try lia. apply Z.shiftl_nonneg. lia. }
  eapply sf_sign_number, binary_round_aux_sign, Hq'.
Qed.

Lemma add_nonneg x y : ge x 0 = true -> ge y 0 = true -> ge (x + y) 0 = true.
Proof.
  rewrite !ge_zero_spec, add_spec. apply SFadd_nonneg.
Qed.

End PyFloat.

(* ===================================================================== *)
(** * Python strings *)
(* ===================================================================== *)

Module PyStr.

(** White space as [str.strip()] sees it, on ASCII: tab, line feed, vertical
    tab, form feed, carriage return, the four separators 28-31 and space. *)
Definition isspace (c : ascii) : bool :=
  let n := nat_of_ascii c in
  (Nat.leb 9 n && Nat.leb n 13) || (Nat.leb 28 n && Nat.leb n 32).

Fixpoint lstrip (s : string) : string :=
  match s with
  | String c s' => if isspace c then lstrip s' else s
  | EmptyString => EmptyString
  end.

Definition rstrip (s : string) : string :=
  String.rev (lstrip (String.rev s)).

Definition strip (s : string) : string := rstrip (lstrip s).

(** [needle in hay] on two strings: a substring test. *)
Fixpoint contains (needle hay : string) : bool :=
  String.prefix needle hay ||
  match hay with
  | String _ hay' => contains needle hay'
  | EmptyString => false
  end.

(** Decimal text of an integer, as [str(n)] and [f"{n}"] give it. *)
Definition of_nat (n : nat) : string := NilZero.string_of_uint (Nat.to_uint n).
Definition of_Z (z : Z) : string := NilZero.string_of_int (Z.to_int z).

(** [sep.join(parts)]. *)
Fixpoint join (sep : string) (parts : list string) : string :=
  match parts with
  | [] => ""
  | [p] => p
  | p :: ps => (p ++ sep ++ join sep ps)%string
  end.

(** [s1 < s2]: the lexicographic order of the characters. *)
Definition lt (s1 s2 : string) : bool := String.ltb s1 s2.

Lemma str_lt_leb s1 s2 : lt s1 s2 = negb (String.leb s2 s1).
Proof.
  unfold lt, String.ltb, String.leb. rewrite (String.compare_antisym s1 s2).
  destruct (String.compare s2 s1); reflexivity.
Qed.

Lemma str_lt_asym s1 s2 : lt s1 s2 = true -> lt s2 s1 = false.
Proof.
  unfold lt, String.ltb. rewrite (String.compare_antisym s1 s2).
  destruct (String.compare s2 s1); cbn; congruence.
Qed.

Lemma str_ge_trans s1 s2 s3 :
  lt s1 s2 = false -> lt s2 s3 = false -> lt s1 s3 = false.
Proof.
  rewrite !str_lt_leb, !negb_false_iff. intros H1 H2.
  apply Is_true_true. apply Is_true_true in H1, H2.
  change (String.le s3 s1). change (String.le s2 s1) in H1.
  change (String.le s3 s2) in H2. etransitivity; eassumption.
Qed.

Lemma str_lt_total s1 s2 : lt s1 s2 = false -> lt s2 s1 = false -> s1 = s2.
Proof.
  unfold lt, String.ltb. rewrite (String.compare_antisym s1 s2).
  destruct (String.compare s2 s1) eqn:E; cbn; try discriminate.
  intros _ _. symmetry. apply String.compare_eq_iff, E.
Qed.

Lemma str_lt_irrefl s : lt s s = false.
Proof. destruct (lt s s) eqn:E; [pose proof (str_lt_asym _ _ E); congruence | reflexivity]. Qed.

End PyStr.

(* ===================================================================== *)
(** * Dates: [datetime.strptime(s, '%Y-%m-%d')] *)
(* ===================================================================== *)

Module PyDate.

Record date : Type := { year : nat; month : nat; day : nat }.

Definition digit (c : ascii) : option nat :=
  let n := nat_of_ascii c in
  if Nat.leb 48 n && Nat.leb n 57 then Some (n - 48) else None.

Definition digit_char (n : nat) : ascii := ascii_of_nat (48 + n).

(** One alternative of a regular expression: the number it reads and the
    text left after it, when it matches a prefix of the input. *)
Definition alt : Type := string -> option (nat * string).

(** The shapes the directives are built from: one digit in a range, two
    digits each in a range, and a space followed by a digit. *)
Definition one_digit (lo hi : nat) : alt := fun s =>
  match s with
  | String c rest =>
      match digit c with
      | Some n => if Nat.leb lo n && Nat.leb n hi then Some (n, rest) else None
      | None => None
      end
  | EmptyString => None
  end.

Definition two_digits (lo1 hi1 lo2 hi2 : nat) : alt := fun s =>
  match one_digit lo1 hi1 s with
  | Some (a, rest) =>
      match one_digit lo2 hi2 rest with
      | Some (b, rest') => Some (10 * a + b, rest')
      | None => None
      end
  | None => None
  end.

Definition space_digit (lo hi : nat) : alt := fun s =>
  match s with
  | String " " rest => one_digit lo hi rest
  | _ => None
  end.

(** [%Y] is [\d\d\d\d]. *)
Definition year_re : alt := fun s =>
  match two_digits 0 9 0 9 s with
  | Some (hi, rest) =>
      match two_digits 0 9 0 9 rest with
      | Some (lo, rest') => Some (100 * hi + lo, rest')
      | None => None
      end
  | None => None
  end.

(** [%m] is [1[0-2]|0[1-9]|[1-9]]. *)
Definition month_re : list alt :=
  [two_digits 1 1 0 2; two_digits 0 0 1 9; one_digit 1 9].

(** [%d] is [3[0-1]|[1-2]\d|0[1-9]|[1-9]| [1-9]]. *)
Definition day_re : list alt :=
  [two_digits 3 3 0 1; two_digits 1 2 0 9; two_digits 0 0 1 9; one_digit 1 9;
   space_digit 1 9].

Definition dash {A : Type} (k : string -> option A) (s : string) : option A :=
  match s with
  | String "-" rest => k rest
  | _ => None
  end.

(** Alternation with backtracking: the alternatives are tried from left to
    right, and one is kept only if the rest of the pattern matches after it. *)
Fixpoint first_match {A : Type} (alts : list alt) (k : nat -> string -> option A)
  (s : string) : option A :=
  match alts with
  | [] => None
  | a :: alts' =>
      match a s with
      | Some (n, rest) =>
          match k n rest with
          | Some r => Some r
          | None => first_match alts' k s
          end
      | None => first_match alts' k s
      end
  end.

(** The match of the compiled format at the start of [s]: the three numbers
    and the text after the match. *)
Definition match_format (s : string) : option (nat * nat * nat * string) :=
  match year_re s with
  | Some (y, s1) =>
      dash (first_match month_re (fun m s2 =>
        dash (first_match day_re (fun d s3 => Some (y, m, d, s3))) s2)) s1
  | None => None
  end.

Definition is_leap (y : nat) : bool :=
  Nat.eqb (y mod 4) 0 && (negb (Nat.eqb (y mod 100) 0) || Nat.eqb (y mod 400) 0).

Definition days_in_month (y m : nat) : nat :=
  match m with
  | 2 => if is_leap y then 29 else 28
  | 4 | 6 | 9 | 11 => 30
  | _ => 31
  end.

(** [datetime.strptime(s, '%Y-%m-%d')]: [ValueError] when the format does
    not match, when text remains after the match, and when the numbers are
    not a date of the calendar (years start at 1). *)
Definition strptime (s : string) : result date :=
  match match_format s with
  | Some (y, m, d, EmptyString) =>
      if Nat.leb 1 y && Nat.leb 1 d && Nat.leb d (days_in_month y m)
      then Ok {| year := y; month := m; day := d |}
      else Raise ValueError
  | _ => Raise ValueError
  end.

(** [%m] of [strftime] prints the month on two digits. *)
Definition pad2 (n : nat) : string :=
  String (digit_char (n / 10 mod 10)) (String (digit_char (n mod 10)) "").

(** The year zero-padded to four digits. *)
Definition pad4 (n : nat) : string :=
  (pad2 (n / 100) ++ pad2 n)%string.

(** The text has the fixed shape [YYYY-MM-DD]: ten characters, digits
    around two dashes. *)
Definition is_digit (c : ascii) : bool :=
  match digit c with Some _ => true | None => false end.

Definition fixed_width (s : string) : bool :=
  match s with
  | String y1 (String y2 (String y3 (String y4 (String c1
      (String m1 (String m2 (String c2 (String d1 (String d2 "")))))))))  =>
      is_digit y1 && is_digit y2 && is_digit y3 && is_digit y4 &&
      Ascii.eqb c1 "-" && is_digit m1 && is_digit m2 && Ascii.eqb c2 "-" &&
      is_digit d1 && is_digit d2
  | _ => false
  end.

End PyDate.

(* ===================================================================== *)
(** * [list.sort] and [sorted] *)
(* ===================================================================== *)

(** Python's sort is stable and compares with [<] only.  Where [<] orders
    the keys (a strict weak order: strings, floats without NaN) the result
    is the one stable sorted arrangement, which the insertion sort below
    computes.  Where it does not (a NaN among float keys) the arrangement
    is whatever the steps of the interpreter's algorithm leave, and the
    insertion sort does not tell it: such a sort is the method [py_sort] of
    the runtime.  [before y x] says that [y] must come strictly before [x]:
    [key y < key x] for an ascending sort, [key x < key y] with
    [reverse=True]. *)
Section StableSort.
Context {A : Type} (before : A -> A -> bool).

Fixpoint insert (x : A) (l : list A) : list A :=
  match l with
  | [] => [x]
  | y :: l' => if before y x then y :: insert x l' else x :: l
  end.

Definition stable_sort (l : list A) : list A := fold_right insert [] l.

(** [a] occurs in the list with [b] somewhere after it. *)
Inductive precedes (a b : A) : list A -> Prop :=
| precedes_here l : In b l -> precedes a b (a :: l)
| precedes_later x l : precedes a b l -> precedes a b (x :: l).

Lemma insert_perm x l : Permutation (x :: l) (insert x l).
Proof.
  induction l as [| y l IH]; cbn; [reflexivity |].
  destruct (before y x); [| reflexivity].
  rewrite perm_swap. apply perm_skip, IH.
Qed.

Lemma stable_sort_perm l : Permutation l (stable_sort l).
Proof.
  induction l as [| x l IH]; cbn; [constructor |].
  rewrite <- insert_perm. apply perm_skip, IH.
Qed.

Lemma insert_In x y l : In y (insert x l) <-> y = x \/ In y l.
Proof.
  split; intros Hin.
  - apply (Permutation_in _ (Permutation_sym (insert_perm x l))) in Hin.
    destruct Hin; auto.
  - apply (Permutation_in _ (insert_perm x l)). destruct Hin; subst; cbn; auto.
Qed.

Lemma stable_sort_In y l : In y (stable_sort l) <-> In y l.
Proof.
  split; apply Permutation_in;
    [apply Permutation_sym |]; apply stable_sort_perm.
Qed.

Lemma stable_sort_length l : List.length (stable_sort l) = List.length l.
Proof. symmetry. apply Permutation_length, stable_sort_perm. Qed.

(** *** Stability *)

Lemma precedes_insert a b x l : precedes a b l -> precedes a b (insert x l).
Proof.
  induction 1 as [l Hin | y l Hp IH]; cbn.
  - destruct (before a x).
    + apply precedes_here. apply insert_In. auto.
    + apply precedes_later, precedes_here. exact Hin.
  - destruct (before y x).
    + apply precedes_later, IH.
    + apply precedes_later, precedes_later, Hp.
Qed.

Lemma precedes_insert_new x b l :
  In b l -> before b x = false -> precedes x b (insert x l).
Proof.
  induction l as [| y l IH]; cbn; [tauto |]. intros Hin Hb.
  destruct (before y x) eqn:E.
  - apply precedes_later, IH; [| exact Hb].
    destruct Hin as [-> | Hin]; [congruence | exact Hin].
  - apply precedes_here. exact Hin.
Qed.

(** The sort never swaps two items unless the later one must come
    strictly before the earlier one. *)
Lemma stable_sort_stable a b l :
  precedes a b l -> before b a = false -> precedes a b (stable_sort l).
Proof.
  induction 1 as [l Hin | y l Hp IH]; cbn; intros Hb.
  - apply precedes_insert_new; [apply stable_sort_In, Hin | exact Hb].
  - apply precedes_insert, IH, Hb.
Qed.

(** *** Sortedness, where [before] orders the items of the list *)

Definition ordered_on (l : list A) : Prop :=
  (forall a b, In a l -> In b l -> before a b = true -> before b a = false) /\
  (forall a b c, In a l -> In b l -> In c l ->
     before a b = false -> before b c = false -> before a c = false).

Lemma ordered_on_tail x l : ordered_on (x :: l) -> ordered_on l.
Proof.
  intros [Hasym Htrans]. split.
  - intros a b Ha Hb. apply Hasym; cbn; auto.
  - intros a b c Ha Hb Hc. apply Htrans; cbn; auto.
Qed.

Lemma ordered_on_perm l l' : Permutation l l' -> ordered_on l -> ordered_on l'.
Proof.
  intros Hp [Hasym Htrans]. apply Permutation_sym in Hp. split.
  - intros a b Ha Hb. apply Hasym; eapply Permutation_in; eassumption.
  - intros a b c Ha Hb Hc. apply Htrans; eapply Permutation_in; eassumption.
Qed.

Lemma insert_sorted x l :
  ordered_on (x :: l) ->
  StronglySorted (fun a b => before b a = false) l ->
  StronglySorted (fun a b => before b a = false) (insert x l).
Proof.
  intros Ho Hs. induction Hs as [| y l Hs IH Hy]; cbn.
  - repeat constructor.
  - pose proof Ho as [Hasym Htrans]. destruct (before y x) eqn:E.
    + constructor.
      * apply IH. eapply ordered_on_tail, ordered_on_perm; [| exact Ho].
        apply perm_swap.
      * apply Forall_forall. intros z Hz. apply insert_In in Hz.
        destruct Hz as [-> | Hz].
        -- apply Hasym; cbn; auto.
        -- rewrite Forall_forall in Hy. apply Hy, Hz.
    + constructor; [constructor; assumption |].
      constructor; [exact E |].
      apply Forall_forall. intros z Hz. rewrite Forall_forall in Hy.
      apply (Htrans z y x); cbn; auto.
Qed.

Lemma stable_sort_sorted l :
  ordered_on l -> StronglySorted (fun a b => before b a = false) (stable_sort l).
Proof.
  induction l as [| x l IH]; cbn; intros Ho; [constructor |].
  apply insert_sorted.
  - eapply ordered_on_perm; [| exact Ho]. apply perm_skip, stable_sort_perm.
  - apply IH. eapply ordered_on_tail, Ho.
Qed.
End StableSort.

(* ===================================================================== *)
(** * Decoded JSON values *)
(* ===================================================================== *)

(** What [request.get_json()] hands to a handler, and what [jsonify] takes:
    [None], booleans, integers, floats, strings, lists and dictionaries.  A
    [JDict] lists the items of the dictionary in insertion order, each key
    once. *)
Inductive json : Type :=
| JNull
| JBool (b : bool)
| JInt (z : Z)
| JFloat (f : float)
| JStr (s : string)
| JList (l : list json)
| JDict (d : list (string * json)).

(** A number that is an [int] or a [float]; [round(0, 2)] stays the integer
    [0] where a handler falls back on the literal [0]. *)
Inductive num : Type :=
| NInt (z : Z)
| NFloat (f : float).

Definition json_of_num (n : num) : json :=
  match n with
  | NInt z => JInt z
  | NFloat f => JFloat f
  end.

(** ** Association lists in insertion order *)

Section Assoc.
Context {V : Type}.

Fixpoint assoc (k : string) (d : list (string * V)) : option V :=
  match d with
  | [] => None
  | (k', v) :: d' => if String.eqb k k' then Some v else assoc k d'
  end.

(** [d[k] = f(d[k])] on a [defaultdict] whose factory gives [dflt]: an
    existing key keeps its place, a new key goes last. *)
Fixpoint update (k : string) (f : V -> V) (dflt : V) (d : list (string * V))
  : list (string * V) :=
  match d with
  | [] => [(k, f dflt)]
  | (k', v) :: d' =>
      if String.eqb k k' then (k', f v) :: d' else (k', v) :: update k f dflt d'
  end.

Definition keys (d : list (string * V)) : list string := map fst d.
Definition values (d : list (string * V)) : list V := map snd d.
End Assoc.

(** ** The interpreter's conversions *)

(** Built-ins whose results the handlers pass on without inspecting them.
    [round2 x] is [round(x, 2)] on a float, which never turns a number into
    NaN; [py_sum l] is [sum(l)] on a non-empty list of floats (a left fold
    of [+] from [0] before Python 3.12, a compensated sum since);
    [float_of_str s] is [float(s)], [None] for [ValueError]; [repr_float]
    and [repr_str] are [repr]; [fmt_2f x] and [fmt_1f x] are [f"{x:.2f}"]
    and [f"{x:.1f}"]; [exn_msg e] is [str(e)].  [strftime_year y] is the
    text of [%Y] for the year [y]: the C library decides whether a year
    below 1000 is zero-padded, a year of four digits is printed as it
    is.  [py_sort before l] is [list.sort] on keys that [<] may fail to
    order: it always rearranges the list, and where [<] orders the keys it
    gives the stable sorted arrangement. *)
Class PyRuntime : Type := {
  py_sort : forall A : Type, (A -> A -> bool) -> list A -> list A;
  py_sort_perm : forall A before l, Permutation l (py_sort A before l);
  py_sort_ordered :
    forall A before l, ordered_on before l -> py_sort A before l = stable_sort before l;
  round2 : float -> float;
  round2_number : forall x, PyFloat.is_nan x = false -> PyFloat.is_nan (round2 x) = false;
  strftime_year : nat -> string;
  strftime_year_four_digits :
    forall y, 1000 <= y -> y < 10 * 1000 -> strftime_year y = PyDate.pad4 y;
  py_sum : list float -> float;
  float_of_str : string -> option float;
  repr_float : float -> string;
  repr_str : string -> string;
  fmt_2f : float -> string;
  fmt_1f : float -> string;
  exn_msg : exn -> string
}.

Section Builtins.
Context `{PyRuntime}.

(** [repr(v)]. *)
Fixpoint py_repr (v : json) : string :=
  match v with
  | JNull => "None"
  | JBool true => "True"
  | JBool false => "False"
  | JInt z => PyStr.of_Z z
  | JFloat f => repr_float f
  | JStr s => repr_str s
  | JList l => ("[" ++ PyStr.join ", " (map py_repr l) ++ "]")%string
  | JDict d =>
      ("{" ++ PyStr.join ", "
                (map (fun kv => repr_str (fst kv) ++ ": " ++ py_repr (snd kv)) d)
           ++ "}")%string
  end.

(** [str(v)]: a string is itself, anything else its [repr]. *)
Definition py_str (v : json) : string :=
  match v with
  | JStr s => s
  | _ => py_repr v
  end.

(** [bool(v)]. *)
Definition truthy (v : json) : bool :=
  match v with
  | JNull => false
  | JBool b => b
  | JInt z => negb (z =? 0)%Z
  | JFloat f => negb (PyFloat.eq f 0)
  | JStr s => negb (String.eqb s "")
  | JList l => match l with [] => false | _ => true end
  | JDict d => match d with [] => false | _ => true end
  end.

(** [key in v]: a key of a dictionary, an element of a list, a substring
    of a string; other values are not containers. *)
Definition py_in (key : string) (v : json) : result bool :=
  match v with
  | JDict d => Ok (existsb (fun kv => String.eqb key (fst kv)) d)
  | JList l =>
      Ok (existsb (fun x => match x with
                            | JStr s => String.eqb s key
                            | _ => false
                            end) l)
  | JStr s => Ok (PyStr.contains key s)
  | _ => Raise TypeError
  end.

(** [v[key]] with a string key: only a dictionary accepts it. *)
Definition py_getitem (v : json) (key : string) : result json :=
  match v with
  | JDict d =>
      match assoc key d with
      | Some x => Ok x
      | None => Raise KeyError
      end
  | _ => Raise TypeError
  end.

(** [float(v)]. *)
Definition py_float (v : json) : result float :=
  match v with
  | JFloat f => Ok f
  | JInt z =>
      match PyFloat.of_Z z with
      | Some f => Ok f
      | None => Raise OverflowError
      end
  | JBool b => Ok (if b then 1%float else 0%float)
  | JStr s =>
      match float_of_str s with
      | Some f => Ok f
      | None => Raise ValueError
      end
  | _ => Raise TypeError
  end.

(** [all(key in v for key in ks)]: stops at the first absent key. *)
Fixpoint py_all_in (ks : list string) (v : json) : result bool :=
  match ks with
  | [] => Ok true
  | k :: ks' =>
      let* b := py_in k v in
      if b then py_all_in ks' v else Ok false
  end.

(** [round(n, 2)]: an integer is returned as it is. *)
Definition round2_num (n : num) : num :=
  match n with
  | NInt z => NInt z
  | NFloat f => NFloat (round2 f)
  end.

(** [max(l, key=...)] and [min(l, key=...)]: the first item whose key no
    later key beats; [ValueError] on an empty list. *)
Fixpoint max_from {A : Type} (lt : A -> A -> bool) (best : A) (l : list A) : A :=
  match l with
  | [] => best
  | x :: l' => max_from lt (if lt best x then x else best) l'
  end.

Definition py_max {A : Type} (lt : A -> A -> bool) (l : list A) : result A :=
  match l with
  | [] => Raise ValueError
  | x :: l' => Ok (max_from lt x l')
  end.

Definition py_min {A : Type} (lt : A -> A -> bool) (l : list A) : result A :=
  py_max (fun a b => lt b a) l.

(** [d.strftime('%Y-%m')]. *)
Definition strftime (d : PyDate.date) : string :=
  (strftime_year (PyDate.year d) ++ "-" ++ PyDate.pad2 (PyDate.month d))%string.

(** The bucket key of a stored date: parsed, then printed as [%Y-%m]. *)
Definition month_key (date : string) : result string :=
  let* d := PyDate.strptime date in Ok (strftime d).
End Builtins.

(* ===================================================================== *)
(** * The store and the HTTP responses *)
(* ===================================================================== *)

(** A validated transaction: the dictionary with the keys [id], [amount],
    [category] and [date] that the upload handler builds. *)
Record txn : Type := {
  txn_id : json;
  txn_amount : float;
  txn_category : string;
  txn_date : string
}.

Definition txn_json (t : txn) : json :=
  JDict [("id", txn_id t); ("amount", JFloat (txn_amount t));
         ("category", JStr (txn_category t)); ("date", JStr (txn_date t))].

(** The two globals of the module. *)
Record store : Type := {
  transactions : list txn;
  cache : gmap string json
}.

Definition initial : store := {| transactions := []; cache := ∅ |}.

Definition clear_cache (st : store) : store :=
  {| transactions := transactions st; cache := ∅ |}.

(** What a view returns: [jsonify(body), status]. *)
Record response : Type := {
  body : json;
  status : nat
}.

Definition reply (b : json) (code : nat) : response :=
  {| body := b; status := code |}.

Definition error (msg : string) (code : nat) : response :=
  reply (JDict [("error", JStr msg)]) code.

Definition JNat (n : nat) : json := JInt (Z.of_nat n).

(** Monadic traversals over lists. *)
Fixpoint mapM {A B : Type} (f : A -> result B) (l : list A) : result (list B) :=
  match l with
  | [] => Ok []
  | x :: l' =>
      let* y := f x in
      let* ys := mapM f l' in
      Ok (y :: ys)
  end.

Fixpoint foldM {A B : Type} (f : B -> A -> result B) (l : list A) (b : B)
  : result B :=
  match l with
  | [] => Ok b
  | x :: l' => let* b' := f b x in foldM f l' b'
  end.

(** The keys of a JSON object. *)
Definition has_key (k : string) (v : json) : bool :=
  match v with
  | JDict d => existsb (String.eqb k) (keys d)
  | _ => false
  end.

Definition field (k : string) (v : json) : option json :=
  match v with
  | JDict d => assoc k d
  | _ => None
  end.

(* ===================================================================== *)
(** * POST /upload *)
(* ===================================================================== *)

(** The course of one pass through the body of a loop: go on with a value,
    leave the handler with a response, or raise. *)
Inductive flow (A : Type) : Type :=
| Next (a : A)
| Return (r : response)
| Throw (e : exn).

Arguments Next {A} a.
Arguments Return {A} r.
Arguments Throw {A} e.

Section Upload.
Context `{PyRuntime}.

Definition required_fields : list string := ["id"; "amount"; "category"; "date"].

Definition missing_fields (idx : nat) : response :=
  error ("Transaction at index " ++ PyStr.of_nat idx ++
         " is missing required fields: id, amount, category, date") 400.

Definition negative_amount (idx : nat) : response :=
  error ("Transaction at index " ++ PyStr.of_nat idx ++ " has negative amount") 400.

Definition invalid_amount (idx : nat) (v : json) : response :=
  error ("Transaction at index " ++ PyStr.of_nat idx ++
         " has invalid amount: " ++ py_str v) 400.

Definition server_error (e : exn) : response :=
  error ("Server error: " ++ exn_msg e) 500.

(** The body of the validation loop for the record [record] at [idx]. *)
Definition validate (idx : nat) (record : json) : flow txn :=
  match py_all_in required_fields record with
  | Raise e => Throw e
  | Ok false => Return (missing_fields idx)
  | Ok true =>
      match (let* v := py_getitem record "amount" in py_float v) with
      | Ok amount =>
          if PyFloat.lt amount 0 then Return (negative_amount idx)
          else
            match (let* i := py_getitem record "id" in
                   let* c := py_getitem record "category" in
                   let* d := py_getitem record "date" in
                   Ok {| txn_id := i;
                         txn_amount := amount;
                         txn_category := PyStr.strip (py_str c);
                         txn_date := PyStr.strip (py_str d) |}) with
            | Ok t => Next t
            | Raise e => Throw e
            end
      | Raise ValueError | Raise TypeError =>
          (* the handler formats [txn['amount']] again *)
          match py_getitem record "amount" with
          | Ok v => Return (invalid_amount idx v)
          | Raise e => Throw e
          end
      | Raise e => Throw e
      end
  end.

(** The loop [for idx, txn in enumerate(data)], from index [idx] on, with
    [validated] appended so far. *)
Fixpoint validate_from (idx : nat) (data : list json) (validated : list txn)
  : flow (list txn) :=
  match data with
  | [] => Next validated
  | record :: rest =>
      match validate idx record with
      | Next t => validate_from (S idx) rest (validated ++ [t])
      | Return r => Return r
      | Throw e => Throw e
      end
  end.

(** [list(set(...))]: each category once; the order of a set is not
    specified, the embedding lists first occurrences. *)
Definition distinct (l : list string) : list string :=
  fold_left (fun seen c => if existsb (String.eqb c) seen then seen else seen ++ [c])
            l [].

Definition uploaded (validated : list txn) : response :=
  reply (JDict [("message", JStr "Transactions uploaded successfully");
                ("count", JNat (List.length validated));
                ("categories",
                 JList (map JStr (distinct (map txn_category validated))))])
        200.

(** The handler.  A value that is falsy or is not a list is refused first;
    on a list, [not data] is the test for the empty list. *)
Definition upload_transactions (data : json) (st : store) : response * store :=
  match data with
  | JList l =>
      if negb (truthy data) then
        (error "Invalid data format. Expected JSON array of transactions" 400, st)
      else if Nat.eqb (List.length l) 0 then
        (error "Empty transaction list. Please provide at least one transaction" 400,
         st)
      else
        match validate_from 0 l [] with
        | Next validated =>
            (uploaded validated,
             clear_cache {| transactions := validated; cache := cache st |})
        | Return r => (r, st)
        | Throw e => (server_error e, st)
        end
  | _ => (error "Invalid data format. Expected JSON array of transactions" 400, st)
  end.
End Upload.

(* ===================================================================== *)
(** * GET /summary *)
(* ===================================================================== *)

(** A value of [category_data]: the running total (the integer [0] it starts
    from becomes a float with the first amount added), the count, and the
    amounts and dates seen. *)
Record category_acc : Type := {
  acc_total : float;
  acc_count : nat;
  acc_transactions : list (float * string)
}.

Definition new_category : category_acc :=
  {| acc_total := 0; acc_count := 0; acc_transactions := [] |}.

(** One entry of the [summary] list. *)
Record category_summary : Type := {
  cs_category : string;
  cs_total : float;
  cs_count : nat;
  cs_average : num;
  cs_percentage : num;
  cs_highest : num;
  cs_lowest : num
}.

Definition category_summary_json (e : category_summary) : json :=
  JDict [("category", JStr (cs_category e)); ("total", JFloat (cs_total e));
         ("count", JNat (cs_count e)); ("average", json_of_num (cs_average e));
         ("percentage", json_of_num (cs_percentage e));
         ("highest", json_of_num (cs_highest e));
         ("lowest", json_of_num (cs_lowest e))].

Section Summary.
Context `{PyRuntime}.

(** The loop that fills [category_data]. *)
Definition add_to_category (d : list (string * category_acc)) (t : txn)
  : list (string * category_acc) :=
  let amount := txn_amount t in
  update (txn_category t)
    (fun a => {| acc_total := acc_total a + amount;
                 acc_count := S (acc_count a);
                 acc_transactions := acc_transactions a ++ [(amount, txn_date t)] |})
    new_category d.

Definition category_data (txns : list txn) : list (string * category_acc) :=
  fold_left add_to_category txns [].

Definition grand_total (txns : list txn) : float :=
  py_sum (map acc_total (values (category_data txns))).

(** The entry built for one category. *)
Definition summarize_category (grand : float) (item : string * category_acc)
  : result category_summary :=
  let '(category, data) := item in
  let* avg_transaction :=
    if Nat.ltb 0 (acc_count data)
    then let* q := PyFloat.div_nat (acc_total data) (acc_count data) in Ok (NFloat q)
    else Ok (NInt 0) in
  let* percentage :=
    if PyFloat.gt grand 0
    then let* q := PyFloat.div (acc_total data) grand in Ok (NFloat (q * 100))
    else Ok (NInt 0) in
  let amounts := map fst (acc_transactions data) in
  let* highest :=
    match amounts with
    | [] => Ok (NInt 0)
    | _ => let* m := py_max PyFloat.lt amounts in Ok (NFloat (round2 m))
    end in
  let* lowest :=
    match amounts with
    | [] => Ok (NInt 0)
    | _ => let* m := py_min PyFloat.lt amounts in Ok (NFloat (round2 m))
    end in
  Ok {| cs_category := category;
        cs_total := round2 (acc_total data);
        cs_count := acc_count data;
        cs_average := round2_num avg_transaction;
        cs_percentage := round2_num percentage;
        cs_highest := highest;
        cs_lowest := lowest |}.

(** The entries in the iteration order of [category_data], before the
    sort. *)
Definition summary_entries (txns : list txn) : result (list category_summary) :=
  mapM (summarize_category (grand_total txns)) (category_data txns).

(** [summary.sort(key=lambda x: x['total'], reverse=True)]: the keys are
    floats, and a total can be NaN. *)
Definition by_total_desc (y x : category_summary) : bool :=
  PyFloat.lt (cs_total x) (cs_total y).

Definition sorted_summary (txns : list txn) : result (list category_summary) :=
  let* summary := summary_entries txns in
  Ok (py_sort _ by_total_desc summary).

(** The [result] dictionary of a store that holds [txns]. *)
Definition summarize (txns : list txn) : result json :=
  let* summary := sorted_summary txns in
  let grand := grand_total txns in
  let* overall_average :=
    if Nat.ltb 0 (List.length txns)
    then let* q := PyFloat.div_nat grand (List.length txns) in Ok (NFloat q)
    else Ok (NInt 0) in
  Ok (JDict [("summary", JList (map category_summary_json summary));
             ("grand_total", JFloat (round2 grand));
             ("categories_count", JNat (List.length summary));
             ("total_transactions", JNat (List.length txns));
             ("overall_average", json_of_num (round2_num overall_average))]).

Definition no_summary : json :=
  JDict [("message", JStr "No transactions found. Please upload data first.");
         ("summary", JList []);
         ("grand_total", JInt 0);
         ("categories_count", JInt 0);
         ("total_transactions", JInt 0);
         ("overall_average", JInt 0)].

Definition get_summary (st : store) : result (response * store) :=
  match cache st !! "summary" with
  | Some cached => Ok (reply cached 200, st)
  | None =>
      match transactions st with
      | [] => Ok (reply no_summary 200, st)
      | _ =>
          let* result := summarize (transactions st) in
          Ok (reply result 200,
              {| transactions := transactions st;
                 cache := <["summary" := result]> (cache st) |})
      end
  end.
End Summary.

(* ===================================================================== *)
(** * GET /trends *)
(* ===================================================================== *)

(** A value of [monthly_data]. *)
Record month_acc : Type := {
  m_total : float;
  m_count : nat;
  m_categories : list (string * float)
}.

Definition new_month : month_acc :=
  {| m_total := 0; m_count := 0; m_categories := [] |}.

Section Trends.
Context `{PyRuntime}.

(** The three updates of the loop body on the bucket of the month. *)
Definition add_to_bucket (t : txn) (a : month_acc) : month_acc :=
  {| m_total := m_total a + txn_amount t;
     m_count := S (m_count a);
     m_categories :=
       update (txn_category t) (fun x => x + txn_amount t)%float 0%float
              (m_categories a) |}.

Definition add_to_month (d : list (string * month_acc)) (t : txn)
  : result (list (string * month_acc)) :=
  let* key := month_key (txn_date t) in
  Ok (update key (add_to_bucket t) new_month d).

Definition monthly_data (txns : list txn) : result (list (string * month_acc)) :=
  foldM add_to_month txns [].

(** [sorted(monthly_data.items())]: the items are pairs, compared on the
    month first; two items never share their month, so the order is the
    order of the months. *)
Definition by_month (y x : string * month_acc) : bool :=
  PyStr.lt (fst y) (fst x).

Definition sorted_months (txns : list txn) : result (list (string * month_acc)) :=
  let* d := monthly_data txns in Ok (stable_sort by_month d).

Definition by_amount (a b : string * float) : bool := PyFloat.lt (snd a) (snd b).

Definition trend_entry (item : string * month_acc) : result json :=
  let '(month, data) := item in
  let* average := PyFloat.div_nat (m_total data) (m_count data) in
  let* top := py_max by_amount (m_categories data) in
  Ok (JDict [("month", JStr month);
             ("total", JFloat (round2 (m_total data)));
             ("count", JNat (m_count data));
             ("average", JFloat (round2 average));
             ("top_category", JStr (fst top));
             ("categories",
              JDict (map (fun ca => (fst ca, JFloat (round2 (snd ca))))
                         (m_categories data)))]).

Definition get_trends (st : store) : result response :=
  match transactions st with
  | [] =>
      Ok (reply (JDict [("message",
                         JStr "No transactions found. Please upload data first.");
                        ("trends", JList [])]) 200)
  | txns =>
      let* months := sorted_months txns in
      let* monthly_trends := mapM trend_entry months in
      Ok (reply (JDict [("monthly_trends", JList monthly_trends);
                        ("months_count", JNat (List.length monthly_trends))]) 200)
  end.
End Trends.

(* ===================================================================== *)
(** * GET /category-details/<category> *)
(* ===================================================================== *)

Section CategoryDetails.
Context `{PyRuntime}.

Definition in_category (category : string) (t : txn) : bool :=
  String.eqb (txn_category t) category.

(** [category_txns.sort(key=lambda x: x['date'])]. *)
Definition by_date (y x : txn) : bool := PyStr.lt (txn_date y) (txn_date x).

Definition get_category_details (category : string) (st : store) : result response :=
  match transactions st with
  | [] => Ok (error "No transactions found" 404)
  | txns =>
      let category_txns := filter (in_category category) txns in
      match category_txns with
      | [] => Ok (error ("No transactions found for category: " ++ category) 404)
      | _ =>
          let total := py_sum (map txn_amount category_txns) in
          let amounts := map txn_amount category_txns in
          let sorted_txns := stable_sort by_date category_txns in
          let* average := PyFloat.div_nat total (List.length sorted_txns) in
          let* highest := py_max PyFloat.lt amounts in
          let* lowest := py_min PyFloat.lt amounts in
          Ok (reply (JDict [("category", JStr category);
                            ("total", JFloat (round2 total));
                            ("count", JNat (List.length sorted_txns));
                            ("average", JFloat (round2 average));
                            ("highest", JFloat highest);
                            ("lowest", JFloat lowest);
                            ("transactions", JList (map txn_json sorted_txns))])
                    200)
      end
  end.
End CategoryDetails.

(* ===================================================================== *)
(** * GET /insight *)
(* ===================================================================== *)

(** The sentences of the handler, by kind, with the values they embed. *)
Inductive insight : Type :=
| HighestSpend (category : string) (total percentage : float)
| AverageValue (average : float) (count : nat)
| MostFrequent (category : string) (count : nat)
| LowestSpend (category : string) (total : float)
| HighValue (count : nat) (threshold : float).

Section Insights.
Context `{PyRuntime}.

Definition rupee : string := "₹".

Definition render (i : insight) : string :=
  match i with
  | HighestSpend c t p =>
      "Your highest spend is on " ++ c ++ " (" ++ rupee ++ fmt_2f t ++
      "), which is " ++ fmt_1f p ++ "% of your total spending"
  | AverageValue a n =>
      "Your average transaction value is " ++ rupee ++ fmt_2f a ++ " across " ++
      PyStr.of_nat n ++ " transactions"
  | MostFrequent c n =>
      "You make the most transactions in " ++ c ++ " (" ++ PyStr.of_nat n ++
      " transactions)"
  | LowestSpend c t =>
      "You spend the least on " ++ c ++ " with only " ++ rupee ++ fmt_2f t
  | HighValue n t =>
      "You have " ++ PyStr.of_nat n ++ " high-value transactions (over " ++
      rupee ++ fmt_2f t ++ ")"
  end%string.

(** [category_totals] and [category_counts]. *)
Definition category_totals (txns : list txn) : list (string * float) :=
  fold_left (fun d t => update (txn_category t) (fun x => x + txn_amount t)%float
                               0%float d) txns [].

Definition category_counts (txns : list txn) : list (string * nat) :=
  fold_left (fun d t => update (txn_category t) S 0 d) txns [].

Definition by_count (a b : string * nat) : bool := Nat.ltb (snd a) (snd b).

Definition is_high_value (avg_transaction : float) (t : txn) : bool :=
  PyFloat.gt (txn_amount t) (avg_transaction * 2).

(** The list [insights] the handler builds for a non-empty store. *)
Definition insights_of (txns : list txn) : result (list insight) :=
  let totals := category_totals txns in
  let counts := category_counts txns in
  (* Insight 1 *)
  let* insights1 :=
    match totals with
    | [] => Ok []
    | _ =>
        let* max_category := py_max by_amount totals in
        let* ratio := PyFloat.div (snd max_category) (py_sum (values totals)) in
        Ok [HighestSpend (fst max_category) (snd max_category) (ratio * 100)]
    end in
  (* Insight 2 *)
  let total_amount := py_sum (map txn_amount txns) in
  let* avg_transaction := PyFloat.div_nat total_amount (List.length txns) in
  let insights2 := [AverageValue avg_transaction (List.length txns)] in
  (* Insight 3 *)
  let* most_frequent := py_max by_count counts in
  let insights3 := [MostFrequent (fst most_frequent) (snd most_frequent)] in
  (* Insight 4 *)
  let* insights4 :=
    if Nat.ltb 1 (List.length totals)
    then let* min_category := py_min by_amount totals in
         Ok [LowestSpend (fst min_category) (snd min_category)]
    else Ok [] in
  (* Insight 5 *)
  let high_value_txns := filter (is_high_value avg_transaction) txns in
  let insights5 :=
    match high_value_txns with
    | [] => []
    | _ => [HighValue (List.length high_value_txns) (avg_transaction * 2)]
    end in
  Ok (insights1 ++ insights2 ++ insights3 ++ insights4 ++ insights5).

Definition no_insights : string :=
  "No transactions available. Upload data to see insights.".

Definition get_insights (st : store) : result response :=
  match transactions st with
  | [] => Ok (reply (JDict [("insights", JList [JStr no_insights])]) 200)
  | txns =>
      let* insights := insights_of txns in
      Ok (reply (JDict [("insights", JList (map (fun i => JStr (render i)) insights))])
                200)
  end.
End Insights.

(* ===================================================================== *)
(** * GET /transactions, GET /health and the application *)
(* ===================================================================== *)

Definition get_transactions (st : store) : response :=
  reply (JDict [("transactions", JList (map txn_json (transactions st)));
                ("count", JNat (List.length (transactions st)))]) 200.

Definition health_check (st : store) : response :=
  reply (JDict [("status", JStr "healthy");
                ("transactions_count", JNat (List.length (transactions st)))]) 200.

Inductive request : Type :=
| Upload (data : json)
| Summary
| Trends
| CategoryDetails (category : string)
| Insight
| Transactions
| Health.

Section App.
Context `{PyRuntime}.

(** One request served: what the view did, and the store after it.  A
    view that raises leaves the store as it was. *)
Definition handle (rq : request) (st : store) : result response * store :=
  match rq with
  | Upload data =>
      let '(r, st') := upload_transactions data st in (Ok r, st')
  | Summary =>
      match get_summary st with
      | Ok (r, st') => (Ok r, st')
      | Raise e => (Raise e, st)
      end
  | Trends => (get_trends st, st)
  | CategoryDetails category => (get_category_details category st, st)
  | Insight => (get_insights st, st)
  | Transactions => (Ok (get_transactions st), st)
  | Health => (Ok (health_check st), st)
  end.

(** The status the client sees: Flask answers an uncaught exception with
    500. *)
Definition http_status (r : result response) : nat :=
  match r with
  | Ok resp => status resp
  | Raise _ => 500
  end.

Definition serve (st : store) (rq : request) : store := snd (handle rq st).

Definition run (st : store) (rqs : list request) : store := fold_left serve rqs st.

(** The stores the application can be in. *)
Inductive reachable : store -> Prop :=
| reachable_initial : reachable initial
| reachable_serve st rq : reachable st -> reachable (serve st rq).
End App.

(* ===================================================================== *)
(** * A reference runtime *)
(* ===================================================================== *)

(** An instance of [PyRuntime] to evaluate the handlers on concrete
    requests.  Rounding, formatting and [float] on text are the correctly
    rounded conversions of CPython ([round] and [format] round the exact
    binary value half to even; [float] rounds the decimal to the nearest
    float).  [py_sum] is the left fold, [%Y] pads every year to four
    digits, as documented, and [py_sort] is the insertion sort, whatever
    the keys.  [repr] of a float or of a string
    and the text of an exception are only carried through the handlers; the
    instance gives them a plain rendering. *)
Module Reference.

(** [a / b] rounded to an integer, halves to even; [b] positive. *)
Definition div_half_even (a b : Z) : Z :=
  let q := (a / b)%Z in
  match (2 * (a mod b) ?= b)%Z with
  | Lt => q
  | Gt => (q + 1)%Z
  | Eq => if Z.even q then q else (q + 1)%Z
  end.

(** [m * 2^e * k] rounded to an integer. *)
Definition scaled (m : positive) (e : Z) (k : Z) : Z :=
  if (0 <=? e)%Z then (Zpos m * 2 ^ e * k)%Z
  else div_half_even (Zpos m * k) (2 ^ (- e)).

(** The float nearest to [(-1)^s * n / d], for [d] positive. *)
Definition nearest (s : bool) (n : Z) (d : positive) : float :=
  match n with
  | Zpos p => SF2Prim (SFdiv prec emax (S754_finite s p 0) (S754_finite false d 0))
  | _ => if s then (-0)%float else 0%float
  end.

Definition round_digits (k : positive) (x : float) : float :=
  match Prim2SF x with
  | S754_finite s m e => nearest s (scaled m e (Zpos k)) k
  | _ => x
  end.

Definition round_2 : float -> float := round_digits 100.

Lemma round_digits_number k x :
  PyFloat.is_nan x = false -> PyFloat.is_nan (round_digits k x) = false.
Proof.
  intros Hx. unfold round_digits.
  destruct (Prim2SF x) as [s | s | | s m e]; try exact Hx.
  unfold nearest. destruct (scaled m e (Zpos k)) as [| p | p];
    try (destruct s; reflexivity).
  apply PyFloat.SF2Prim_number, PyFloat.SFdiv_finite_number.
Qed.

Definition sum_left (l : list float) : float := fold_left PrimFloat.add l 0%float.

(** Fixed-point text with [w] decimals, [k = 10^w]. *)
Definition pad (w : nat) (n : Z) : string :=
  let s := PyStr.of_Z n in
  (String.concat "" (repeat "0" (w - String.length s)) ++ s)%string.

Definition fixed (w : nat) (k : positive) (x : float) : string :=
  match Prim2SF x with
  | S754_nan => "nan"
  | S754_infinity s => if s then "-inf" else "inf"
  | S754_zero s => ((if s then "-" else "") ++ "0." ++ pad w 0)%string
  | S754_finite s m e =>
      let n := scaled m e (Zpos k) in
      ((if s then "-" else "") ++ PyStr.of_Z (n / Zpos k) ++ "." ++
       pad w (n mod Zpos k))%string
  end.

Definition format_2f : float -> string := fixed 2 100.
Definition format_1f : float -> string := fixed 1 10.

(** ** [float] on text *)

Definition lower (c : ascii) : ascii :=
  let n := nat_of_ascii c in
  if Nat.leb 65 n && Nat.leb n 90 then ascii_of_nat (n + 32) else c.

Fixpoint lowercase (s : string) : string :=
  match s with
  | String c s' => String (lower c) (lowercase s')
  | EmptyString => EmptyString
  end.

(** A run of digits, single underscores allowed between two digits: the
    number read so far, how many digits, and the rest. *)
Fixpoint digits_from (fuel : nat) (acc : Z) (count : nat) (s : string)
  : Z * nat * string :=
  match fuel with
  | O => (acc, count, s)
  | S fuel' =>
      match s with
      | String c rest =>
          match PyDate.digit c with
          | Some n => digits_from fuel' (10 * acc + Z.of_nat n)%Z (S count) rest
          | None =>
              match c, rest with
              | "_"%char, String c' _ =>
                  match count, PyDate.digit c' with
                  | S _, Some _ => digits_from fuel' acc count rest
                  | _, _ => (acc, count, s)
                  end
              | _, _ => (acc, count, s)
              end
          end
      | EmptyString => (acc, count, s)
      end
  end.

Definition digits (acc : Z) (s : string) : Z * nat * string :=
  digits_from (String.length s) acc 0 s.

Definition sign_of (s : string) : bool * string :=
  match s with
  | String "-" rest => (true, rest)
  | String "+" rest => (false, rest)
  | _ => (false, s)
  end.

(** The optional exponent part; [None] when it is malformed. *)
Definition exponent (s : string) : option Z :=
  match s with
  | EmptyString => Some 0%Z
  | String c rest =>
      if Ascii.eqb (lower c) "e" then
        let '(neg, rest') := sign_of rest in
        match digits 0 rest' with
        | (n, S _, EmptyString) => Some (if neg then (- n)%Z else n)
        | _ => None
        end
      else None
  end.

Definition decimal (neg : bool) (s : string) : option float :=
  let '(ip, ni, s1) := digits 0 s in
  let '(m, nf, s2) :=
    match s1 with
    | String "." rest => digits ip rest
    | _ => (ip, 0, s1)
    end in
  match ni + nf with
  | O => None
  | S _ =>
      match exponent s2 with
      | None => None
      | Some e =>
          let e10 := (e - Z.of_nat nf)%Z in
          Some (if (0 <=? e10)%Z
                then match m with
                     | Z0 => if neg then (-0)%float else 0%float
                     | _ => SF2Prim (binary_normalize prec emax
                                       (if neg then - (m * 10 ^ e10) else m * 10 ^ e10)
                                       0 false)
                     end
                else nearest neg m (Z.to_pos (10 ^ (- e10))))
      end
  end.

Definition float_of_text (text : string) : option float :=
  let '(neg, s) := sign_of (PyStr.strip text) in
  let l := lowercase s in
  if String.eqb l "nan" then Some nan
  else if String.eqb l "inf" || String.eqb l "infinity"
       then Some (if neg then neg_infinity else infinity)
       else decimal neg s.

Definition message (e : exn) : string :=
  match e with
  | TypeError => "TypeError"
  | ValueError => "ValueError"
  | KeyError => "KeyError"
  | OverflowError => "OverflowError"
  | ZeroDivisionError => "float division by zero"
  end.

#[export] Instance runtime : PyRuntime := {|
  round2 := round_2;
  round2_number := round_digits_number 100;
  py_sort := fun A => @stable_sort A;
  py_sort_perm := fun A => @stable_sort_perm A;
  py_sort_ordered := fun A before l _ => eq_refl;
  strftime_year := PyDate.pad4;
  strftime_year_four_digits := fun y _ _ => eq_refl;
  py_sum := sum_left;
  float_of_str := float_of_text;
  repr_float := format_2f;
  repr_str := fun s => ("'" ++ s ++ "'")%string;
  fmt_2f := format_2f;
  fmt_1f := format_1f;
  exn_msg := message
|}.

End Reference.


(* ===================================================================== *)
(** * Properties of POST /upload *)
(* ===================================================================== *)

Section UploadFacts.
Context `{PyRuntime}.

(** The amount invariant the data model asks of a stored transaction. *)
Definition amount_ok (t : txn) : Prop := PyFloat.ge (txn_amount t) 0 = true.

(** A record fails validation: its pass through the loop body does not go
    on to the next record. *)
Definition fails (idx : nat) (record : json) : Prop :=
  forall t, validate idx record <> Next t.

Lemma validate_from_app idx l1 l2 acc :
  validate_from idx (l1 ++ l2) acc =
  match validate_from idx l1 acc with
  | Next v => validate_from (idx + List.length l1) l2 v
  | other => other
  end.
Proof.
  revert idx acc. induction l1 as [| r l1 IH]; intros idx acc; cbn.
  - rewrite Nat.add_0_r. reflexivity.
  - destruct (validate idx r); try reflexivity.
    rewrite IH. rewrite Nat.add_succ_r. reflexivity.
Qed.

(** A response returned from inside the loop is an error 400. *)
Lemma validate_return_400 idx record r :
  validate idx record = Return r -> status r = 400.
Proof.
  unfold validate. intros Hv.
  destruct (py_all_in required_fields record) as [[|] | e]; try discriminate.
  - destruct (let* v := py_getitem record "amount" in py_float v) as [a | e].
    + destruct (PyFloat.lt a 0).
      * inversion Hv. reflexivity.
      * destruct (let* i := py_getitem record "id" in _); discriminate.
    + destruct e; try discriminate;
        destruct (py_getitem record "amount"); try discriminate;
        inversion Hv; reflexivity.
  - inversion Hv. reflexivity.
Qed.

Lemma validate_from_return_400 l idx acc r :
  validate_from idx l acc = Return r -> status r = 400.
Proof.
  revert idx acc. induction l as [| x l IH]; intros idx acc; cbn; [discriminate |].
  destruct (validate idx x) eqn:E; try discriminate.
  - apply IH.
  - intros Hr. inversion Hr; subst. eapply validate_return_400, E.
Qed.

(** Only the success path writes the store. *)
Lemma upload_refused_keeps_store data st :
  status (fst (upload_transactions data st)) <> 200 ->
  snd (upload_transactions data st) = st.
Proof.
  unfold upload_transactions.
  destruct data as [| b | z | f | s | l | d]; try reflexivity.
  destruct (negb (truthy (JList l))); [reflexivity |].
  destruct (Nat.eqb (List.length l) 0); [reflexivity |].
  destruct (validate_from 0 l []); cbn; try reflexivity.
  intros Hs. exfalso. apply Hs. reflexivity.
Qed.

(** What an accepted upload stores. *)
Lemma upload_accepted data st :
  status (fst (upload_transactions data st)) = 200 ->
  exists l validated,
    data = JList l /\ l <> [] /\ validate_from 0 l [] = Next validated /\
    upload_transactions data st =
      (uploaded validated, {| transactions := validated; cache := ∅ |}).
Proof.
  unfold upload_transactions.
  destruct data as [| b | z | f | s | l | d]; try (cbn; discriminate).
  destruct l as [| x l]; [cbn; discriminate |].
  cbn [truthy negb List.length Nat.eqb].
  destruct (validate_from 0 (x :: l) []) as [v | r | e] eqn:E.
  - intros _. exists (x :: l), v. repeat split; congruence.
  - cbn. intros Hs. apply validate_from_return_400 in E. congruence.
  - cbn. discriminate.
Qed.

(** The validated list grows by one transaction per record. *)
Lemma validate_from_length l idx acc v :
  validate_from idx l acc = Next v ->
  List.length v = List.length acc + List.length l.
Proof.
  revert idx acc. induction l as [| x l IH]; intros idx acc; cbn.
  - intros Hv. inversion Hv. lia.
  - destruct (validate idx x); try discriminate.
    intros Hv. apply IH in Hv. rewrite Hv, length_app. cbn. lia.
Qed.

(** An accepted amount is not below zero. *)
Lemma validate_not_negative idx record t :
  validate idx record = Next t -> PyFloat.lt (txn_amount t) 0 = false.
Proof.
  unfold validate.
  destruct (py_all_in required_fields record) as [[|] | e]; try discriminate.
  destruct (let* v := py_getitem record "amount" in py_float v) as [a | e].
  - destruct (PyFloat.lt a 0) eqn:E; [discriminate |].
    destruct (py_getitem record "id") as [i |]; cbn; [| discriminate].
    destruct (py_getitem record "category") as [c |]; cbn; [| discriminate].
    destruct (py_getitem record "date") as [d |]; cbn; [| discriminate].
    intros Hv. inversion Hv. exact E.
  - destruct e; try discriminate; destruct (py_getitem record "amount"); discriminate.
Qed.

Lemma validate_from_not_negative l idx acc v :
  Forall (fun t => PyFloat.lt (txn_amount t) 0 = false) acc ->
  validate_from idx l acc = Next v ->
  Forall (fun t => PyFloat.lt (txn_amount t) 0 = false) v.
Proof.
  revert idx acc. induction l as [| x l IH]; intros idx acc Hacc; cbn.
  - intros Hv. inversion Hv; subst. exact Hacc.
  - destruct (validate idx x) eqn:E; try discriminate.
    apply IH. apply Forall_app. split; [exact Hacc |].
    constructor; [| constructor]. eapply validate_not_negative, E.
Qed.

(** In every store the application can reach, no amount is below zero:
    this is what the test [amount < 0] of the handler establishes. *)
Lemma reachable_not_negative st :
  reachable st -> Forall (fun t => PyFloat.lt (txn_amount t) 0 = false) (transactions st).
Proof.
  induction 1 as [| st rq Hr IH]; [constructor |].
  unfold serve. destruct rq; cbn; try exact IH.
  - destruct (upload_transactions data st) as [r st'] eqn:E. cbn.
    destruct (Nat.eq_dec (status r) 200) as [Hs | Hs].
    + assert (Hs' : status (fst (upload_transactions data st)) = 200)
        by (rewrite E; exact Hs).
      destruct (upload_accepted _ _ Hs') as (l & v & _ & _ & Hv & Hu).
      rewrite Hu in E. inversion E; subst. cbn.
      eapply validate_from_not_negative; [| exact Hv]. constructor.
    + assert (Hs' : status (fst (upload_transactions data st)) <> 200)
        by (rewrite E; exact Hs).
      apply upload_refused_keeps_store in Hs'. rewrite E in Hs'. cbn in Hs'.
      subst. exact IH.
  - destruct (get_summary st) as [[r st'] | e] eqn:E; cbn; [| exact IH].
    unfold get_summary in E.
    destruct (cache st !! "summary"); [inversion E; subst; exact IH |].
    destruct (transactions st) eqn:Et; [inversion E; subst; rewrite Et; constructor |].
    destruct (summarize (t :: l)); cbn in E; [| discriminate].
    inversion E; subst. exact IH.
Qed.

(** Every stored transaction is served with exactly the four keys. *)
Lemma txn_json_keys t :
  exists i a c d,
    txn_json t = JDict [("id", i); ("amount", JFloat a); ("category", JStr c);
                        ("date", JStr d)].
Proof. unfold txn_json. eauto. Qed.

(** The upload of a batch whose first failing record is [record], after the
    records [before] that all pass: the answer is the one of that record,
    and the store is not written. *)
Lemma upload_first_failure st before after record validated :
  validate_from 0 before [] = Next validated ->
  (forall r, validate (List.length before) record = Return r ->
             upload_transactions (JList (before ++ record :: after)) st = (r, st)) /\
  (forall e, validate (List.length before) record = Throw e ->
             upload_transactions (JList (before ++ record :: after)) st =
             (server_error e, st)).
Proof.
  intros Hb.
  assert (Hne : negb (truthy (JList (before ++ record :: after))) = false)
    by (destruct before; reflexivity).
  assert (Hlen : Nat.eqb (List.length (before ++ record :: after)) 0 = false)
    by (destruct before; reflexivity).
  split; intros x E; unfold upload_transactions; rewrite Hne, Hlen;
    rewrite validate_from_app, Hb; cbn; rewrite E; reflexivity.
Qed.

(** A container that lacks one of the four keys fails the membership
    test of the loop. *)
Lemma lacks_field_all_in record :
  (exists k, In k required_fields /\ py_in k record = Ok false) ->
  py_all_in required_fields record = Ok false.
Proof.
  intros (k & Hk & Hin).
  assert (Hc : forall k', exists b, py_in k' record = Ok b).
  { intros k'. destruct record; cbn in *; try discriminate; eauto. }
  cbn. destruct (Hc "id") as [b1 E1], (Hc "amount") as [b2 E2],
    (Hc "category") as [b3 E3], (Hc "date") as [b4 E4].
  rewrite E1, E2, E3, E4. cbn.
  destruct Hk as [<- | [<- | [<- | [<- | []]]]];
    destruct b1, b2, b3, b4; cbn; congruence.
Qed.

(** Whenever the loop does not run to its end, there is a first failing
    record. *)
Lemma first_failure_exists l idx acc :
  (forall v, validate_from idx l acc <> Next v) ->
  exists before record after validated,
    l = before ++ record :: after /\
    validate_from idx before acc = Next validated /\
    fails (idx + List.length before) record.
Proof.
  revert idx acc. induction l as [| x l IH]; intros idx acc Hn; cbn in Hn.
  - exfalso. exact (Hn acc eq_refl).
  - destruct (validate idx x) as [t | r | e] eqn:E.
    + destruct (IH (S idx) (acc ++ [t]) Hn) as (b & rc & a & v & -> & Hb & Hf).
      exists (x :: b), rc, a, v. repeat split.
      * cbn. rewrite E. exact Hb.
      * cbn. rewrite Nat.add_succ_r. exact Hf.
    + exists [], x, l, acc. repeat split. cbn. rewrite Nat.add_0_r.
      intros t. congruence.
    + exists [], x, l, acc. repeat split. cbn. rewrite Nat.add_0_r.
      intros t. congruence.
Qed.

(** C3: validation is all-or-nothing.  When the records [before] pass and
    [record] is the first that fails, the answer of the upload is the one
    this record causes, whatever follows it in the batch; the answer is not
    a 200, and neither the stored list nor the cache changes. *)
Theorem upload_all_or_nothing st before after record validated :
  validate_from 0 before [] = Next validated ->
  fails (List.length before) record ->
  let answer := upload_transactions (JList (before ++ record :: after)) st in
  match validate (List.length before) record with
  | Return r => fst answer = r
  | Throw e => fst answer = server_error e
  | Next _ => False
  end /\
  status (fst answer) <> 200 /\
  transactions (snd answer) = transactions st /\
  cache (snd answer) = cache st.
Proof.
  intros Hb Hf answer. subst answer.
  destruct (upload_first_failure st before after record validated Hb) as [Hr He].
  destruct (validate (List.length before) record) as [t | r | e] eqn:E.
  - exfalso. exact (Hf t E).
  - rewrite (Hr r eq_refl). cbn. repeat split.
    apply validate_return_400 in E. rewrite E. discriminate.
  - rewrite (He e eq_refl). cbn. repeat split. discriminate.
Qed.

(** C4, amended: when the first failing record is a dictionary, a list or a
    string in which one of the four keys is not found, the upload answers
    400 with the missing-fields message for the index of that record; when
    it is a number, a boolean or [None], the membership test raises and the
    upload answers 500. *)
Theorem upload_missing_fields st before after record validated :
  validate_from 0 before [] = Next validated ->
  let answer := upload_transactions (JList (before ++ record :: after)) st in
  ((exists k, In k required_fields /\ py_in k record = Ok false) ->
   answer = (missing_fields (List.length before), st) /\ status (fst answer) = 400) /\
  (py_in "id" record = Raise TypeError ->
   answer = (server_error TypeError, st) /\ status (fst answer) = 500).
Proof.
  intros Hb answer. subst answer.
  destruct (upload_first_failure st before after record validated Hb) as [Hr He].
  split.
  - intros Hk. apply lacks_field_all_in in Hk.
    rewrite (Hr (missing_fields (List.length before))); [split; reflexivity |].
    unfold validate. rewrite Hk. reflexivity.
  - intros Hi. rewrite (He TypeError); [split; reflexivity |].
    unfold validate. cbn. rewrite Hi. reflexivity.
Qed.

End UploadFacts.

(** ** Concrete uploads *)

Module UploadExamples.
Import Reference.

Definition record (i : Z) (amount : json) (category date : string) : json :=
  JDict [("id", JInt i); ("amount", amount); ("category", JStr category);
         ("date", JStr date)].

Definition food : json := record 1 (JInt 100) "Food" "2025-01-05".
Definition travel : json := record 2 (JInt 50) "Travel" "2025-02-10".
Definition refund : json := record 3 (JInt (-5)) "Food" "2025-01-01".
Definition incomplete : json := JDict [("id", JInt 4); ("amount", JInt 7)].

(** The scenario of the specification: two accepted transactions. *)
Definition two_months : store := snd (upload_transactions (JList [food; travel]) initial).

(** The same store after its summary was read once, so that the cache is
    filled. *)
Definition two_months_cached : store := serve two_months Summary.

Example upload_scenario :
  upload_transactions (JList [food; travel]) initial =
  (reply (JDict [("message", JStr "Transactions uploaded successfully");
                 ("count", JInt 2);
                 ("categories", JList [JStr "Food"; JStr "Travel"])]) 200,
   {| transactions :=
        [{| txn_id := JInt 1; txn_amount := 100; txn_category := "Food";
            txn_date := "2025-01-05" |};
         {| txn_id := JInt 2; txn_amount := 50; txn_category := "Travel";
            txn_date := "2025-02-10" |}];
      cache := ∅ |}).
Proof. vm_compute. reflexivity. Qed.

Example upload_negative :
  fst (upload_transactions (JList [refund]) initial) =
  error "Transaction at index 0 has negative amount" 400.
Proof. vm_compute. reflexivity. Qed.

End UploadExamples.

(** C3 at a batch whose second record has a negative amount, sent to a
    store that holds data and a cached summary. *)
Lemma upload_all_or_nothing_witness :
  let st := UploadExamples.two_months_cached in
  let answer :=
    upload_transactions
      (H := Reference.runtime)
      (JList ([UploadExamples.food] ++ UploadExamples.refund :: [UploadExamples.travel]))
      st in
  fst answer = negative_amount 1 /\
  status (fst answer) <> 200 /\
  transactions (snd answer) = transactions st /\
  cache (snd answer) = cache st.
Proof.
  exact (upload_all_or_nothing (H := Reference.runtime)
           UploadExamples.two_months_cached [UploadExamples.food]
           [UploadExamples.travel] UploadExamples.refund
           [{| txn_id := JInt 1; txn_amount := 100; txn_category := "Food";
               txn_date := "2025-01-05" |}]
           eq_refl
           (fun t (E : validate 1 UploadExamples.refund = Next t) =>
              eq_ind (Return (negative_amount 1))
                     (fun f => match f with Return _ => True | _ => False end)
                     I (Next t) E)).
Defined.

(** C4, amended, at a batch whose second record is a dictionary without
    [category] and [date]. *)
Lemma upload_missing_fields_witness :
  let answer :=
    upload_transactions
      (H := Reference.runtime)
      (JList ([UploadExamples.food] ++ UploadExamples.incomplete :: [])) initial in
  answer = (missing_fields 1, initial) /\ status (fst answer) = 400.
Proof.
  refine (proj1 (upload_missing_fields (H := Reference.runtime) initial
                   [UploadExamples.food] [] UploadExamples.incomplete
                   [{| txn_id := JInt 1; txn_amount := 100; txn_category := "Food";
                       txn_date := "2025-01-05" |}] eq_refl) _).
  exists "category". split; [cbn; tauto | reflexivity].
Defined.

(** C4 as stated fails on a record that is not a container: the number [5]
    has none of the four keys, and the upload of [[5]] answers 500, not 400
    with the index of the record. *)
Lemma upload_missing_fields_counterexample :
  (forall k, has_key k (JInt 5) = false) /\
  fst (upload_transactions (H := Reference.runtime) (JList [JInt 5]) initial) =
  server_error (H := Reference.runtime) TypeError /\
  status (fst (upload_transactions (H := Reference.runtime) (JList [JInt 5]) initial))
  = 500.
Proof. split; [reflexivity | split; reflexivity]. Qed.

(** C2 fails on the code: the handler rejects an amount only when
    [amount < 0], which is false for NaN.  The record
    [{"id": 1, "amount": "nan", "category": "Food", "date": "2025-01-01"}] is
    accepted with status 200, and the amount it stores does not satisfy
    [amount >= 0]. *)
Theorem upload_stores_nan :
  let data := JList [UploadExamples.record 1 (JStr "nan") "Food" "2025-01-01"] in
  let answer := upload_transactions (H := Reference.runtime) data initial in
  status (fst answer) = 200 /\
  reachable (H := Reference.runtime) (snd answer) /\
  exists t, transactions (snd answer) = [t] /\
            PyFloat.is_nan (txn_amount t) = true /\
            PyFloat.lt (txn_amount t) 0 = false /\
            ~ amount_ok t.
Proof.
  cbv zeta. split; [reflexivity |]. split.
  - exact (reachable_serve _
             (Upload (JList [UploadExamples.record 1 (JStr "nan") "Food" "2025-01-01"]))
             reachable_initial).
  - exists {| txn_id := JInt 1; txn_amount := nan; txn_category := "Food";
              txn_date := "2025-01-01" |}.
    repeat split. unfold amount_ok. cbn. discriminate.
Qed.

(** The same with the bare token [NaN], which [json.loads] decodes to the
    float NaN: whatever the runtime, the record is stored. *)
Lemma upload_stores_nan_number `{PyRuntime} :
  snd (upload_transactions
         (JList [UploadExamples.record 1 (JFloat nan) "Food" "2025-01-01"]) initial) =
  {| transactions := [{| txn_id := JInt 1; txn_amount := nan; txn_category := "Food";
                         txn_date := "2025-01-01" |}];
     cache := ∅ |}.
Proof. reflexivity. Qed.

(* ===================================================================== *)
(** * Properties of GET /summary and of the cache *)
(* ===================================================================== *)

Section MonadFacts.
Context {A B : Type}.

Lemma mapM_ok (f : A -> result B) (P : A -> B -> Prop) (l : list A) :
  (forall x, In x l -> exists y, f x = Ok y /\ P x y) ->
  exists ys, mapM f l = Ok ys /\ Forall2 P l ys.
Proof.
  induction l as [| x l IH]; intros Hf; cbn.
  - exists []. split; [reflexivity | constructor].
  - destruct (Hf x (or_introl eq_refl)) as (y & Ey & Py).
    destruct IH as (ys & Eys & Pys); [intros z Hz; apply Hf; right; exact Hz |].
    rewrite Ey, Eys. cbn. exists (y :: ys). split; [reflexivity |].
    constructor; assumption.
Qed.

End MonadFacts.

Section SummaryFacts.
Context `{PyRuntime}.

(** The guards of the handler make every division safe: the entry of a
    category is always built. *)
Lemma summarize_category_ok grand item :
  exists e, summarize_category grand item = Ok e /\
            cs_category e = fst item /\
            cs_total e = round2 (acc_total (snd item)) /\
            cs_count e = acc_count (snd item).
Proof.
  destruct item as [c d]. unfold summarize_category.
  assert (Havg : exists a,
             (if Nat.ltb 0 (acc_count d)
              then let* q := PyFloat.div_nat (acc_total d) (acc_count d) in Ok (NFloat q)
              else Ok (NInt 0)) = Ok a).
  { destruct (acc_count d); cbn; eauto. }
  destruct Havg as [a ->].
  assert (Hpct : exists p,
             (if PyFloat.gt grand 0
              then let* q := PyFloat.div (acc_total d) grand in Ok (NFloat (q * 100))
              else Ok (NInt 0)) = Ok p).
  { destruct (PyFloat.gt grand 0) eqn:G; [| eauto].
    unfold PyFloat.div. apply PyFloat.lt_not_eq in G. unfold PyFloat.eq in G.
    rewrite G. cbn. eauto. }
  destruct Hpct as [p ->]. cbn.
  destruct (map fst (acc_transactions d)) as [| x l]; cbn; eauto.
Qed.

Lemma summary_entries_ok txns :
  exists es, summary_entries txns = Ok es /\
             Forall2 (fun item e => cs_category e = fst item /\
                                    cs_total e = round2 (acc_total (snd item)) /\
                                    cs_count e = acc_count (snd item))
                     (category_data txns) es.
Proof.
  unfold summary_entries. apply mapM_ok. intros x _. apply summarize_category_ok.
Qed.

(** The result dictionary is always computed: no division in it can
    raise. *)
Lemma summarize_ok txns : exists r, summarize txns = Ok r.
Proof.
  unfold summarize, sorted_summary.
  destruct (summary_entries_ok txns) as (es & -> & _). cbn.
  destruct (List.length txns); cbn; eauto.
Qed.

Lemma get_summary_ok st : exists r st', get_summary st = Ok (r, st').
Proof.
  unfold get_summary. destruct (cache st !! "summary"); [eauto |].
  destruct (transactions st) as [| t l]; [eauto |].
  destruct (summarize_ok (t :: l)) as [r ->]. cbn. eauto.
Qed.

Definition not_upload (rq : request) : Prop :=
  match rq with
  | Upload _ => False
  | _ => True
  end.

(** The cache, when filled, holds the summary of the stored list. *)
Definition cache_fresh (st : store) : Prop :=
  forall r, cache st !! "summary" = Some r -> summarize (transactions st) = Ok r.

Lemma serve_keeps_fresh st rq : cache_fresh st -> cache_fresh (serve st rq).
Proof.
  intros Hc. unfold serve. destruct rq; cbn; try exact Hc.
  - destruct (upload_transactions data st) as [r st'] eqn:E. cbn.
    destruct (Nat.eq_dec (status r) 200) as [Hs | Hs].
    + assert (Hs' : status (fst (upload_transactions data st)) = 200)
        by (rewrite E; exact Hs).
      destruct (upload_accepted _ _ Hs') as (l & v & _ & _ & _ & Hu).
      rewrite Hu in E. inversion E; subst. intros r0. cbn.
      rewrite lookup_empty. discriminate.
    + assert (Hs' : status (fst (upload_transactions data st)) <> 200)
        by (rewrite E; exact Hs).
      apply upload_refused_keeps_store in Hs'. rewrite E in Hs'. cbn in Hs'.
      subst. exact Hc.
  - unfold get_summary. destruct (cache st !! "summary") eqn:Ec; [exact Hc |].
    destruct (transactions st) as [| t l] eqn:Et; [exact Hc |].
    destruct (summarize_ok (t :: l)) as [r Er]. rewrite Er. cbn.
    intros r0. cbn. rewrite lookup_insert_eq. intros E. inversion E; subst.
    exact Er.
Qed.

Lemma reachable_fresh st : reachable st -> cache_fresh st.
Proof.
  induction 1 as [| st rq _ IH].
  - intros r. cbn. rewrite lookup_empty. discriminate.
  - apply serve_keeps_fresh, IH.
Qed.

(** Reading the summary once makes every later reading return the same
    answer, as long as nothing is uploaded. *)
Lemma summary_stable st rq :
  not_upload rq ->
  fst (handle Summary (serve (serve st Summary) rq)) = fst (handle Summary st) /\
  serve (serve (serve st Summary) rq) Summary = serve (serve st Summary) rq /\
  serve (serve st Summary) rq = serve st Summary.
Proof.
  intros Hn.
  assert (Hs : fst (handle Summary (serve st Summary)) = fst (handle Summary st) /\
               serve (serve st Summary) Summary = serve st Summary).
  { unfold serve. cbn. unfold get_summary.
    destruct (cache st !! "summary") eqn:Ec; cbn; [rewrite Ec; cbn; auto |].
    destruct (transactions st) as [| t l] eqn:Et; cbn; [rewrite Ec, Et; cbn; auto |].
    destruct (summarize_ok (t :: l)) as [r Er]. rewrite Er. cbn.
    rewrite lookup_insert_eq. cbn. auto. }
  destruct rq; cbn in Hn; try contradiction;
    try (unfold serve at 1 3 5 6; cbn [handle snd]; tauto).
  destruct Hs as [Hs1 Hs2]. rewrite !Hs2. auto.
Qed.

Lemma summary_repeatable st rqs :
  Forall not_upload rqs ->
  run (serve st Summary) rqs = serve st Summary.
Proof.
  induction 1 as [| rq rqs Hrq _ IH]; [reflexivity |].
  cbn. destruct (summary_stable st rq Hrq) as (_ & _ & ->). exact IH.
Qed.

(** The views other than the upload and the summary leave the store as it
    is. *)
Definition reads_only (rq : request) : Prop :=
  match rq with
  | Upload _ | Summary => False
  | _ => True
  end.

Lemma run_reads_only st rqs : Forall reads_only rqs -> run st rqs = st.
Proof.
  induction 1 as [| rq rqs Hrq _ IH]; [reflexivity |].
  cbn. destruct rq; cbn in Hrq; try contradiction; exact IH.
Qed.

(** C5: cache consistency.  In every reachable store a cached [summary] is
    the summary of the stored list.  An accepted upload empties the cache,
    and the first GET /summary after it, whatever was read in between,
    computes its answer from the list just stored and caches it.  After one
    GET /summary, any further GET /summary with no upload in between returns
    the same answer. *)
Theorem cache_consistency st :
  reachable st ->
  (forall r, cache st !! "summary" = Some r -> summarize (transactions st) = Ok r) /\
  (forall data rqs,
      status (fst (upload_transactions data st)) = 200 ->
      Forall reads_only rqs ->
      let st' := snd (upload_transactions data st) in
      cache st' = ∅ /\
      exists r,
        summarize (transactions st') = Ok r /\
        handle Summary (run st' rqs) =
          (Ok (reply r 200),
           {| transactions := transactions st'; cache := <["summary" := r]> ∅ |})) /\
  (forall rqs,
      Forall not_upload rqs ->
      fst (handle Summary (run (serve st Summary) rqs)) = fst (handle Summary st)).
Proof.
  intros Hr. split; [exact (reachable_fresh st Hr) | split].
  - intros data rqs Hs Hrqs st'. subst st'. rewrite (run_reads_only _ rqs Hrqs).
    destruct (upload_accepted _ _ Hs) as (l & v & _ & Hl & Hv & Hu).
    rewrite Hu. cbn. split; [reflexivity |].
    destruct (summarize_ok v) as [r Er]. exists r. split; [exact Er |].
    unfold get_summary. cbn. rewrite lookup_empty.
    apply validate_from_length in Hv.
    destruct v as [| t v]; [destruct l; [congruence | discriminate] |].
    rewrite Er. reflexivity.
  - intros rqs Hn. rewrite (summary_repeatable st rqs Hn).
    unfold serve. cbn. unfold get_summary.
    destruct (cache st !! "summary") eqn:Ec; cbn; [rewrite Ec; reflexivity |].
    destruct (transactions st) as [| t l] eqn:Et; cbn; [rewrite Ec, Et; reflexivity |].
    destruct (summarize_ok (t :: l)) as [r Er]. rewrite Er. cbn.
    rewrite lookup_insert_eq. reflexivity.
Qed.

End SummaryFacts.

(** C5 at the store of the two-transaction scenario after one reading of
    its summary. *)
Lemma cache_consistency_witness :
  let st := UploadExamples.two_months_cached in
  reachable (H := Reference.runtime) st /\
  (forall r, cache st !! "summary" = Some r ->
             summarize (H := Reference.runtime) (transactions st) = Ok r) /\
  (forall rqs,
      Forall not_upload rqs ->
      fst (handle (H := Reference.runtime) Summary
             (run (H := Reference.runtime) (serve (H := Reference.runtime) st Summary) rqs))
      = fst (handle (H := Reference.runtime) Summary st)).
Proof.
  intros st.
  assert (Hr : reachable (H := Reference.runtime) st).
  { exact (reachable_serve _ Summary
             (reachable_serve _ (Upload (JList [UploadExamples.food; UploadExamples.travel]))
                reachable_initial)). }
  split; [exact Hr |].
  pose proof (cache_consistency (H := Reference.runtime) st Hr) as (H1 & _ & H3).
  split; [exact H1 | exact H3].
Defined.

(* ===================================================================== *)
(** * The order of the summary *)
(* ===================================================================== *)

(** The categories of a list of transactions, each once, in the order of
    their first occurrence. *)
Definition first_seen (txns : list txn) : list string :=
  distinct (map txn_category txns).

Section AssocFacts.
Context {V : Type}.

Lemma keys_update k (f : V -> V) dflt (d : list (string * V)) :
  keys (update k f dflt d) =
  if existsb (String.eqb k) (keys d) then keys d else keys d ++ [k].
Proof.
  unfold keys. induction d as [| [k' v] d IH]; cbn; [reflexivity |].
  destruct (String.eqb k k') eqn:E; cbn; [reflexivity |].
  rewrite IH. destruct (existsb (String.eqb k) (map fst d)); reflexivity.
Qed.

Lemma existsb_eqb_In k (l : list string) :
  existsb (String.eqb k) l = true <-> In k l.
Proof.
  rewrite existsb_exists. split.
  - intros (x & Hx & E). apply String.eqb_eq in E. subst. exact Hx.
  - intros Hk. exists k. split; [exact Hk | apply String.eqb_refl].
Qed.

Lemma assoc_update k k' (f : V -> V) dflt (d : list (string * V)) :
  assoc k (update k' f dflt d) =
  if String.eqb k k'
  then Some (f (match assoc k d with Some v => v | None => dflt end))
  else assoc k d.
Proof.
  induction d as [| [k0 v] d IH]; cbn.
  - destruct (String.eqb k k'); reflexivity.
  - destruct (String.eqb k' k0) eqn:E0; cbn.
    + apply String.eqb_eq in E0. subst k0.
      destruct (String.eqb k k'); reflexivity.
    + rewrite IH. destruct (String.eqb k k') eqn:E1; [| reflexivity].
      apply String.eqb_eq in E1. subst k'. rewrite E0. reflexivity.
Qed.

Lemma values_update (P : V -> Prop) k (f : V -> V) dflt (d : list (string * V)) :
  (forall v, P (f v)) -> Forall P (values d) -> Forall P (values (update k f dflt d)).
Proof.
  intros Hf. unfold values. induction d as [| [k0 v] d IH]; cbn; intros Hd.
  - constructor; [apply Hf | constructor].
  - inversion Hd; subst. destruct (String.eqb k k0); cbn; constructor; auto.
Qed.

Lemma values_update_inv (P : V -> Prop) k (f : V -> V) dflt (d : list (string * V)) :
  (forall v, P v -> P (f v)) -> P dflt ->
  Forall P (values d) -> Forall P (values (update k f dflt d)).
Proof.
  intros Hf H0. unfold values. induction d as [| [k0 v] d IH]; cbn; intros Hd.
  - constructor; [apply Hf, H0 | constructor].
  - inversion Hd; subst. destruct (String.eqb k k0); cbn; constructor; auto.
Qed.

Lemma assoc_In k (d : list (string * V)) v :
  NoDup (keys d) -> In (k, v) d -> assoc k d = Some v.
Proof.
  unfold keys. induction d as [| [k0 v0] d IH]; cbn; [tauto |].
  intros Hn Hin. apply NoDup_cons_iff in Hn. destruct Hn as [Hk Hn].
  destruct Hin as [E | Hin].
  - inversion E; subst. rewrite String.eqb_refl. reflexivity.
  - destruct (String.eqb k k0) eqn:E; [| apply IH; assumption].
    apply String.eqb_eq in E. subst k0. exfalso. apply Hk.
    apply (in_map fst) in Hin. exact Hin.
Qed.

Lemma In_assoc k (d : list (string * V)) v : assoc k d = Some v -> In (k, v) d.
Proof.
  induction d as [| [k0 v0] d IH]; cbn; [discriminate |].
  destruct (String.eqb k k0) eqn:E.
  - apply String.eqb_eq in E. subst k0. intros E'. inversion E'. auto.
  - auto.
Qed.

Lemma keys_update_NoDup k (f : V -> V) dflt (d : list (string * V)) :
  NoDup (keys d) -> NoDup (keys (update k f dflt d)).
Proof.
  intros Hd. rewrite keys_update.
  destruct (existsb (String.eqb k) (keys d)) eqn:E; [exact Hd |].
  apply NoDup_app; [exact Hd | repeat constructor; cbn; tauto |].
  intros x Hx [<- | []]. apply existsb_eqb_In in Hx. congruence.
Qed.
End AssocFacts.

Section OrderFacts.
Context {A B : Type} (f : A -> B).

Lemma precedes_In {C : Type} (a b : C) l : precedes a b l -> In a l /\ In b l.
Proof.
  induction 1 as [l Hb | x l _ [Ha Hb]]; cbn; auto.
Qed.

Lemma precedes_cons_inv {C : Type} (a b x : C) l :
  precedes a b (x :: l) -> (a = x /\ In b l) \/ precedes a b l.
Proof. inversion 1; subst; auto. Qed.

(** Where [f] tells the items of a list apart, an order between two images
    is an order between the items. *)
Lemma precedes_map_inv (a b : A) l :
  NoDup (map f l) -> In a l -> In b l ->
  precedes (f a) (f b) (map f l) -> precedes a b l.
Proof.
  induction l as [| x l IH]; cbn; intros Hn Ha Hb Hp; [contradiction |].
  apply NoDup_cons_iff in Hn. destruct Hn as [Hx Hn].
  apply precedes_cons_inv in Hp. destruct Hp as [[Hfa Hin] | Hp'].
  - assert (a = x) as ->.
    { destruct Ha as [-> | Ha]; [reflexivity |].
      exfalso. apply Hx. rewrite <- Hfa. apply in_map, Ha. }
    apply precedes_here. destruct Hb as [<- | Hb]; [| exact Hb].
    exfalso. apply Hx. exact Hin.
  - destruct (precedes_In _ _ _ Hp') as [Ia Ib].
    apply precedes_later, IH; try assumption.
    + destruct Ha as [<- | Ha]; [contradiction | exact Ha].
    + destruct Hb as [<- | Hb]; [contradiction | exact Hb].
Qed.
End OrderFacts.

Section SummaryOrder.
Context `{PyRuntime}.

Lemma category_data_keys_from txns d :
  keys (fold_left add_to_category txns d) =
  fold_left (fun seen c => if existsb (String.eqb c) seen then seen else seen ++ [c])
            (map txn_category txns) (keys d).
Proof.
  revert d. induction txns as [| t txns IH]; intros d; cbn [fold_left map];
    [reflexivity |].
  rewrite IH. unfold add_to_category. rewrite keys_update. reflexivity.
Qed.

(** [category_data] lists the categories in the order of their first
    occurrence. *)
Lemma category_data_keys txns : keys (category_data txns) = first_seen txns.
Proof. apply category_data_keys_from. Qed.

Lemma category_data_NoDup_from txns d :
  NoDup (keys d) -> NoDup (keys (fold_left add_to_category txns d)).
Proof.
  revert d. induction txns as [| t txns IH]; intros d Hd; cbn [fold_left];
    [exact Hd |].
  apply IH. unfold add_to_category. apply keys_update_NoDup, Hd.
Qed.

Lemma first_seen_NoDup txns : NoDup (first_seen txns).
Proof.
  rewrite <- category_data_keys. apply category_data_NoDup_from. constructor.
Qed.

Lemma summary_entries_categories txns es :
  summary_entries txns = Ok es -> map cs_category es = first_seen txns.
Proof.
  intros E. destruct (summary_entries_ok txns) as (es' & E' & Hf).
  rewrite E in E'. inversion E'; subst es'. rewrite <- category_data_keys.
  unfold keys. clear E E'.
  induction Hf as [| item e items es' (Hc & _) _ IH]; cbn;
    [reflexivity | congruence].
Qed.

Lemma summarize_shape txns r :
  summarize txns = Ok r ->
  exists summary,
    sorted_summary txns = Ok summary /\
    field "summary" r = Some (JList (map category_summary_json summary)).
Proof.
  unfold summarize. destruct (sorted_summary txns) as [summary |]; cbn; [| discriminate].
  destruct (List.length txns); cbn; intros E; inversion E; subst;
    exists summary; split; reflexivity.
Qed.

(** GET /summary on a store that holds transactions answers 200 with the
    sorted summary of the stored list, from the cache or not. *)
Lemma get_summary_body st :
  reachable st -> transactions st <> [] ->
  exists summary r st',
    sorted_summary (transactions st) = Ok summary /\
    get_summary st = Ok (r, st') /\ status r = 200 /\
    field "summary" (body r) = Some (JList (map category_summary_json summary)).
Proof.
  intros Hr Hne. apply reachable_fresh in Hr. unfold get_summary.
  destruct (cache st !! "summary") as [cached |] eqn:Ec.
  - destruct (summarize_shape _ _ (Hr cached Ec)) as (summary & Es & Ef).
    exists summary, (reply cached 200), st. repeat split; assumption.
  - destruct (transactions st) as [| t l] eqn:Et; [congruence |].
    destruct (summarize_ok (t :: l)) as [r Er]. rewrite Er. cbn.
    destruct (summarize_shape _ _ Er) as (summary & Es & Ef).
    exists summary, (reply r 200). eexists. repeat split; assumption.
Qed.

Definition total_is_number (e : category_summary) : bool :=
  negb (PyFloat.is_nan (cs_total e)).

(** Amounts that satisfy [amount >= 0] add up to totals that do. *)
Lemma category_data_totals_from txns d :
  Forall amount_ok txns ->
  Forall (fun a => PyFloat.ge (acc_total a) 0 = true) (values d) ->
  Forall (fun a => PyFloat.ge (acc_total a) 0 = true)
         (values (fold_left add_to_category txns d)).
Proof.
  revert d. induction txns as [| t txns IH]; intros d Ht Hd; cbn [fold_left];
    [exact Hd |].
  inversion Ht as [| ? ? Hok Ht']; subst. apply IH; [exact Ht' |].
  unfold add_to_category. apply values_update_inv; [| reflexivity | exact Hd].
  intros v Hv. cbn. apply PyFloat.add_nonneg; [exact Hv | exact Hok].
Qed.

(** With such amounts, every total of the summary is a number. *)
Lemma totals_are_numbers txns es :
  Forall amount_ok txns -> summary_entries txns = Ok es ->
  forallb total_is_number es = true.
Proof.
  intros Ht E. destruct (summary_entries_ok txns) as (es' & E' & Hf).
  rewrite E in E'. injection E' as <-.
  pose proof (category_data_totals_from txns [] Ht (Forall_nil _)) as Hd.
  fold (category_data txns) in Hd. unfold values in Hd. clear E.
  induction Hf as [| item e items es' (_ & Hc & _) _ IH]; [reflexivity |].
  cbn in Hd. inversion Hd; subst. cbn. rewrite IH by assumption.
  unfold total_is_number. rewrite Hc, round2_number; [reflexivity |].
  apply PyFloat.ge_zero_number. assumption.
Qed.

Lemma by_total_desc_ordered l :
  forallb total_is_number l = true -> ordered_on by_total_desc l.
Proof.
  intros Hn. rewrite forallb_forall in Hn. unfold by_total_desc. split.
  - intros a b _ _. apply PyFloat.lt_asym.
  - intros a b c _ Hb _ H1 H2. apply (PyFloat.ge_trans _ (cs_total b)); try assumption.
    apply Hn in Hb. unfold total_is_number in Hb. apply negb_true_iff in Hb. exact Hb.
Qed.

Lemma sorted_desc_ge l :
  forallb total_is_number l = true ->
  StronglySorted (fun a b => by_total_desc b a = false) l ->
  StronglySorted (fun a b => PyFloat.ge (cs_total a) (cs_total b) = true) l.
Proof.
  intros Hn Hs. rewrite forallb_forall in Hn.
  induction Hs as [| x l Hl IH Hx]; constructor.
  - apply IH. intros y Hy. apply Hn. right. exact Hy.
  - rewrite Forall_forall in *. intros y Hy.
    assert (Nx : PyFloat.is_nan (cs_total x) = false).
    { apply negb_true_iff. apply (Hn x). left. reflexivity. }
    assert (Ny : PyFloat.is_nan (cs_total y) = false).
    { apply negb_true_iff. apply (Hn y). right. exact Hy. }
    rewrite (PyFloat.ge_lt _ _ Nx Ny). unfold by_total_desc in Hx.
    rewrite (Hx y Hy). reflexivity.
Qed.

Lemma py_sort_In {A : Type} (before : A -> A -> bool) x l :
  In x (py_sort A before l) <-> In x l.
Proof.
  split; apply Permutation_in; [apply Permutation_sym |]; apply py_sort_perm.
Qed.

Lemma py_sort_length {A : Type} (before : A -> A -> bool) l :
  List.length (py_sort A before l) = List.length l.
Proof. symmetry. apply Permutation_length, py_sort_perm. Qed.

(** The order of the [summary] list of GET /summary where the totals are
    numbers.  On a store that holds transactions the handler answers 200
    with one entry per category.  When the stored amounts satisfy
    [amount >= 0], as the data model has it, the totals are numbers (none is
    NaN); and when the totals are numbers, every entry has a total at least
    as large as the totals of the entries after it, and two entries with
    equal totals stand in the order in which their categories first occur
    in the stored list. *)
Theorem summary_sorted st :
  reachable st -> transactions st <> [] ->
  exists summary r st',
    sorted_summary (transactions st) = Ok summary /\
    get_summary st = Ok (r, st') /\ status r = 200 /\
    field "summary" (body r) = Some (JList (map category_summary_json summary)) /\
    Permutation (first_seen (transactions st)) (map cs_category summary) /\
    (Forall amount_ok (transactions st) -> forallb total_is_number summary = true) /\
    (forallb total_is_number summary = true ->
     StronglySorted (fun a b => PyFloat.ge (cs_total a) (cs_total b) = true) summary /\
     forall a b,
       In a summary -> In b summary ->
       PyFloat.eq (cs_total a) (cs_total b) = true ->
       precedes (cs_category a) (cs_category b) (first_seen (transactions st)) ->
       precedes a b summary).
Proof.
  intros Hr Hne.
  destruct (get_summary_body st Hr Hne) as (summary & r & st' & Es & Eg & Hs & Hf).
  exists summary, r, st'. repeat (split; [assumption |]).
  unfold sorted_summary in Es.
  destruct (summary_entries (transactions st)) as [es |] eqn:Ee; [| discriminate].
  cbn in Es. inversion Es; subst summary. clear Es.
  pose proof (summary_entries_categories _ _ Ee) as Hc.
  split; [| split].
  - rewrite <- Hc. apply Permutation_map, py_sort_perm.
  - intros Ht. pose proof (totals_are_numbers _ _ Ht Ee) as Hes.
    rewrite forallb_forall in *. intros x Hx. apply Hes.
    apply py_sort_In in Hx. exact Hx.
  - intros Hn.
    assert (Hes : forallb total_is_number es = true).
    { rewrite forallb_forall in *. intros x Hx. apply Hn, py_sort_In, Hx. }
    rewrite (py_sort_ordered _ _ _ (by_total_desc_ordered es Hes)) in *.
    split.
    + apply sorted_desc_ge; [exact Hn |].
      apply stable_sort_sorted, by_total_desc_ordered, Hes.
    + intros a b Ha Hb Heq Hp. apply stable_sort_In in Ha, Hb.
      apply stable_sort_stable.
      * apply (precedes_map_inv cs_category); try assumption.
        -- rewrite Hc. apply first_seen_NoDup.
        -- rewrite Hc. exact Hp.
      * unfold by_total_desc.
        destruct (PyFloat.eq_is_number _ _ Heq) as [Na Nb].
        rewrite (PyFloat.eq_lt _ _ Na Nb) in Heq.
        apply andb_true_iff in Heq. destruct Heq as [Heq _].
        apply negb_true_iff in Heq. exact Heq.
Qed.

End SummaryOrder.

(* ===================================================================== *)
(** * Dates in the fixed form [YYYY-MM-DD] *)
(* ===================================================================== *)

Section DateFacts.
Context `{PyRuntime}.
Import PyDate.

Lemma is_digit_char c :
  is_digit c = true -> exists n, n < 10 /\ c = digit_char n.
Proof.
  intros Hc. exists (nat_of_ascii c - 48).
  destruct c as [[] [] [] [] [] [] [] []]; vm_compute in Hc; try discriminate Hc;
    (split; [vm_compute; lia | reflexivity]).
Qed.

Lemma two_digits_any a b rest :
  a < 10 -> b < 10 ->
  two_digits 0 9 0 9 (String (digit_char a) (String (digit_char b) rest)) =
  Some (10 * a + b, rest).
Proof.
  intros Ha Hb.
  do 10 (destruct a as [| a]; [do 10 (destruct b as [| b]; [reflexivity |]); lia |]).
  lia.
Qed.

Lemma pad2_digits a b :
  a < 10 -> b < 10 ->
  pad2 (10 * a + b) = String (digit_char a) (String (digit_char b) "").
Proof.
  intros Ha Hb.
  do 10 (destruct a as [| a]; [do 10 (destruct b as [| b]; [reflexivity |]); lia |]).
  lia.
Qed.

Lemma pad2_hundreds hi lo : pad2 (100 * hi + lo) = pad2 lo.
Proof.
  unfold pad2. f_equal; [| f_equal]; f_equal.
  - replace (100 * hi + lo) with (lo + (10 * hi) * 10) by lia.
    rewrite Nat.div_add by lia.
    replace (lo / 10 + 10 * hi) with (lo / 10 + hi * 10) by lia.
    apply Nat.Div0.mod_add.
  - replace (100 * hi + lo) with (lo + (10 * hi) * 10) by lia.
    apply Nat.Div0.mod_add.
Qed.

Lemma pad4_digits a b c d :
  a < 10 -> b < 10 -> c < 10 -> d < 10 ->
  pad4 (100 * (10 * a + b) + (10 * c + d)) =
  String (digit_char a) (String (digit_char b)
    (String (digit_char c) (String (digit_char d) ""))).
Proof.
  intros Ha Hb Hc Hd. unfold pad4.
  rewrite pad2_hundreds, (pad2_digits c d Hc Hd).
  replace ((100 * (10 * a + b) + (10 * c + d)) / 100) with (10 * a + b).
  - rewrite (pad2_digits a b Ha Hb). reflexivity.
  - apply (Nat.div_unique _ 100 _ (10 * c + d)); lia.
Qed.

Lemma first_match_result {A : Type} alts (f : nat -> string -> A) s r :
  first_match alts (fun d rest => Some (f d rest)) s = Some r ->
  exists d rest, r = f d rest.
Proof.
  induction alts as [| a alts IH]; cbn; [discriminate |].
  destruct (a s) as [[n rest] |]; [| exact IH].
  intros E. inversion E. eauto.
Qed.

(** With two digits for the month, the month that is read is the number
    they write. *)
Lemma month_two_digits {R : Type} (k : nat -> string -> option R) m1 m2 rest r :
  m1 < 10 -> m2 < 10 ->
  first_match month_re (fun m s2 => dash (k m) s2)
    (String (digit_char m1) (String (digit_char m2) (String "-" rest))) = Some r ->
  k (10 * m1 + m2) rest = Some r.
Proof.
  intros H1 H2.
  do 10 (destruct m1 as [| m1];
         [do 10 (destruct m2 as [| m2];
                 [cbv;
                  first [discriminate
                        | match goal with
                          | |- context [k ?n rest] =>
                              destruct (k n rest); [tauto | discriminate]
                          end] |]); lia |]).
  lia.
Qed.

(** A date in the fixed form that parses, of a year with four significant
    digits, is printed back by [%Y-%m] as its first seven characters. *)
Lemma month_key_fixed_width s d :
  fixed_width s = true -> strptime s = Ok d -> 1000 <= year d ->
  strftime d = String.substring 0 7 s.
Proof.
  unfold fixed_width.
  destruct s as [| y1 [| y2 [| y3 [| y4 [| c1 [| m1 [| m2 [| c2 [| d1 [| d2 s]]]]]]]]]];
    try discriminate.
  destruct s; [| discriminate].
  intros Hd. repeat (apply andb_true_iff in Hd; destruct Hd as [Hd ?]).
  repeat match goal with
         | E : Ascii.eqb _ _ = true |- _ => apply Ascii.eqb_eq in E; subst
         end.
  destruct (is_digit_char y1) as (a & Ha & ->); [assumption |].
  destruct (is_digit_char y2) as (b & Hb & ->); [assumption |].
  destruct (is_digit_char y3) as (c & Hc & ->); [assumption |].
  destruct (is_digit_char y4) as (e & He & ->); [assumption |].
  destruct (is_digit_char m1) as (p & Hp & ->); [assumption |].
  destruct (is_digit_char m2) as (q & Hq & ->); [assumption |].
  unfold strptime, match_format, year_re.
  rewrite (two_digits_any a b _ Ha Hb), (two_digits_any c e _ Hc He).
  remember (100 * (10 * a + b) + (10 * c + e)) as yy eqn:Hyy.
  cbn [dash].
  match goal with
  | |- context [first_match month_re ?k ?t] =>
      destruct (first_match month_re k t) as [r |] eqn:Em; [| discriminate]
  end.
  apply (month_two_digits
           (fun m => first_match day_re (fun d0 s3 => Some (yy, m, d0, s3))))
    in Em; [| assumption | assumption].
  remember (10 * p + q) as mm eqn:Hmm.
  apply first_match_result in Em. destruct Em as (dd & s3 & ->).
  destruct s3; [| discriminate].
  match goal with
  | |- context [if ?g then _ else _] => destruct g; [| discriminate]
  end.
  intros E. injection E as <-. cbn [year]. intros Hy.
  unfold strftime. cbn [year month].
  rewrite (strftime_year_four_digits yy Hy ltac:(subst yy; lia)). subst yy mm.
  rewrite (pad4_digits a b c e Ha Hb Hc He), (pad2_digits p q Hp Hq).
  reflexivity.
Qed.

End DateFacts.

(* ===================================================================== *)
(** * Properties of GET /trends *)
(* ===================================================================== *)

(** The stored date of [t] is accepted by [strptime]. *)
Definition date_parses (t : txn) : bool :=
  match PyDate.strptime (txn_date t) with
  | Ok _ => true
  | Raise _ => false
  end.

(** The bucket that the loop builds from the transactions [l], taken in
    order. *)
Definition bucket_of (l : list txn) : month_acc :=
  fold_left (fun a t => add_to_bucket t a) l new_month.

Section TrendsFacts.
Context `{PyRuntime}.

(** The bucket key of [t] is [k]. *)
Definition in_month (k : string) (t : txn) : bool :=
  match month_key (txn_date t) with
  | Ok k' => String.eqb k' k
  | Raise _ => false
  end.

Lemma date_parses_key t :
  date_parses t = true -> exists d,
    PyDate.strptime (txn_date t) = Ok d /\ month_key (txn_date t) = Ok (strftime d).
Proof.
  unfold date_parses, month_key.
  destruct (PyDate.strptime (txn_date t)) as [d |]; [| discriminate].
  intros _. exists d. split; reflexivity.
Qed.

Lemma date_parses_not t :
  date_parses t = false -> month_key (txn_date t) = Raise ValueError.
Proof.
  unfold date_parses. intros Ht.
  destruct (month_key (txn_date t)) as [k |] eqn:Ek.
  - unfold month_key in Ek.
    destruct (PyDate.strptime (txn_date t)); [discriminate Ht | discriminate Ek].
  - unfold month_key, PyDate.strptime in Ek. revert Ek.
    destruct (PyDate.match_format (txn_date t)) as [[[[y m] d] [| c rest]] |]; cbn;
      try (intros E; inversion E; reflexivity).
    destruct (_ && _); cbn; intros E; inversion E; reflexivity.
Qed.

Lemma month_key_raises s e : month_key s = Raise e -> e = ValueError.
Proof.
  unfold month_key, PyDate.strptime.
  destruct (PyDate.match_format s) as [[[[y m] d] [| c rest]] |]; cbn;
    try (intros E; inversion E; reflexivity).
  destruct (_ && _); cbn; intros E; inversion E; reflexivity.
Qed.

Definition bucket_step (o : option month_acc) (t : txn) : option month_acc :=
  Some (add_to_bucket t (match o with Some a => a | None => new_month end)).

Lemma monthly_data_from txns d :
  forallb date_parses txns = true ->
  exists d',
    foldM add_to_month txns d = Ok d' /\
    (forall k, assoc k d' = fold_left bucket_step (filter (in_month k) txns) (assoc k d)) /\
    (NoDup (keys d) -> NoDup (keys d')) /\
    (forall P : month_acc -> Prop,
        (forall t a, P (add_to_bucket t a)) -> Forall P (values d) -> Forall P (values d')).
Proof.
  revert d. induction txns as [| t txns IH]; intros d Hp.
  - exists d. cbn. repeat split; auto.
  - cbn in Hp. apply andb_true_iff in Hp. destruct Hp as [Ht Hp].
    destruct (date_parses_key t Ht) as (d0 & _ & Ek).
    cbn [foldM]. unfold add_to_month at 1. rewrite Ek.
    remember (strftime d0) as k0 eqn:Ek0. clear Ek0. cbn.
    destruct (IH (update k0 (add_to_bucket t) new_month d) Hp)
      as (d' & Ed & Ha & Hn & Hg).
    exists d'. split; [exact Ed |]. split; [| split].
    + intros k. rewrite Ha, assoc_update. cbn [filter]. unfold in_month at 2.
      rewrite Ek, (String.eqb_sym k0 k).
      destruct (String.eqb k k0); reflexivity.
    + intros Hd. apply Hn, keys_update_NoDup, Hd.
    + intros P HP Hd. apply (Hg P HP). apply values_update; [apply HP | exact Hd].
Qed.

(** A date that does not parse stops the request with [ValueError]. *)
Lemma monthly_data_raises txns d :
  forallb date_parses txns = false -> foldM add_to_month txns d = Raise ValueError.
Proof.
  revert d. induction txns as [| t txns IH]; intros d; cbn; [discriminate |].
  unfold add_to_month at 1.
  destruct (date_parses t) eqn:Et; cbn.
  - destruct (date_parses_key t Et) as (d0 & _ & Ek). rewrite Ek. cbn. apply IH.
  - intros _. rewrite (date_parses_not t Et). reflexivity.
Qed.

Lemma bucket_step_some l a :
  fold_left bucket_step l (Some a) = Some (fold_left (fun a t => add_to_bucket t a) l a).
Proof. revert a. induction l as [| t l IH]; intros a; cbn; [reflexivity | apply IH]. Qed.

Lemma bucket_step_none l :
  fold_left bucket_step l None =
  match l with
  | [] => None
  | _ => Some (bucket_of l)
  end.
Proof. destruct l as [| t l]; [reflexivity |]. cbn. apply bucket_step_some. Qed.

(** A bucket is never empty: the loop counts and files a transaction each
    time it touches one. *)
Definition filled (a : month_acc) : Prop := 0 < m_count a /\ m_categories a <> [].

Lemma add_to_bucket_filled t a : filled (add_to_bucket t a).
Proof.
  split; cbn; [lia |].
  destruct (m_categories a) as [| [c x] l]; cbn; [discriminate |].
  destruct (String.eqb (txn_category t) c); discriminate.
Qed.

Lemma trend_entry_ok k a :
  filled a ->
  exists j, trend_entry (k, a) = Ok j /\
            field "month" j = Some (JStr k) /\
            field "count" j = Some (JNat (m_count a)).
Proof.
  intros [Hc Hm]. unfold trend_entry.
  destruct (m_count a) as [| n] eqn:En; [lia |]. cbn.
  destruct (m_categories a) as [| x l] eqn:Em; [congruence |]. cbn.
  eexists. split; [reflexivity |]. split; reflexivity.
Qed.

Lemma by_month_ordered l : ordered_on by_month l.
Proof.
  unfold by_month. split.
  - intros a b _ _. apply PyStr.str_lt_asym.
  - intros a b c _ _ _. apply PyStr.str_ge_trans.
Qed.

Lemma sorted_months_strict l :
  NoDup (keys l) ->
  StronglySorted (fun a b => by_month b a = false) l ->
  StronglySorted (fun a b : string * month_acc => PyStr.lt (fst a) (fst b) = true) l.
Proof.
  unfold keys. intros Hn Hs. induction Hs as [| x l Hl IH Hx]; constructor.
  - apply IH. cbn in Hn. apply NoDup_cons_iff in Hn. tauto.
  - cbn in Hn. apply NoDup_cons_iff in Hn. destruct Hn as [Hx' _].
    rewrite Forall_forall in *. intros y Hy. specialize (Hx y Hy).
    unfold by_month in Hx. destruct (PyStr.lt (fst x) (fst y)) eqn:E; [reflexivity |].
    exfalso. apply Hx'. rewrite (PyStr.str_lt_total _ _ E Hx). apply in_map, Hy.
Qed.

(** What the handler computes when every stored date parses. *)
Lemma sorted_months_ok txns :
  forallb date_parses txns = true ->
  exists months,
    sorted_months txns = Ok months /\
    StronglySorted (fun a b : string * month_acc => PyStr.lt (fst a) (fst b) = true)
                   months /\
    Forall filled (values months) /\
    (forall k a, In (k, a) months <->
                 filter (in_month k) txns <> [] /\ a = bucket_of (filter (in_month k) txns)).
Proof.
  intros Hp. destruct (monthly_data_from txns [] Hp) as (d & Ed & Ha & Hn & Hg).
  unfold sorted_months, monthly_data. rewrite Ed. cbn.
  exists (stable_sort by_month d).
  assert (Hnd : NoDup (keys d)) by (apply Hn; constructor).
  assert (Hperm := stable_sort_perm by_month d).
  split; [reflexivity |]. split; [| split].
  - apply sorted_months_strict.
    + unfold keys. eapply Permutation_NoDup; [apply Permutation_map, Hperm | exact Hnd].
    + apply stable_sort_sorted, by_month_ordered.
  - unfold values. eapply Permutation_Forall; [apply Permutation_map, Hperm |].
    apply (Hg filled); [apply add_to_bucket_filled | constructor].
  - intros k a. rewrite stable_sort_In. specialize (Ha k). cbn in Ha.
    rewrite bucket_step_none in Ha. split.
    + intros Hin. apply (assoc_In _ _ _ Hnd) in Hin. rewrite Hin in Ha.
      destruct (filter (in_month k) txns); [discriminate |].
      inversion Ha. split; [discriminate | reflexivity].
    + intros [Hne ->]. apply In_assoc. rewrite Ha.
      destruct (filter (in_month k) txns); [congruence | reflexivity].
Qed.

Lemma trend_entries_ok months :
  Forall filled (values months) ->
  exists entries,
    mapM trend_entry months = Ok entries /\
    Forall2 (fun item j => field "month" j = Some (JStr (fst item)) /\
                           field "count" j = Some (JNat (m_count (snd item))))
            months entries.
Proof.
  intros Hf. apply mapM_ok. intros [k a] Hin. apply trend_entry_ok.
  unfold values in Hf. rewrite Forall_forall in Hf. apply Hf.
  apply (in_map snd) in Hin. exact Hin.
Qed.

End TrendsFacts.

Section TrendsClaims.
Context `{PyRuntime}.

(** The two courses of GET /trends on a store that holds transactions. *)
Lemma get_trends_cases st :
  transactions st <> [] ->
  (forallb date_parses (transactions st) = true ->
   exists months entries,
     sorted_months (transactions st) = Ok months /\
     mapM trend_entry months = Ok entries /\
     get_trends st =
     Ok (reply (JDict [("monthly_trends", JList entries);
                       ("months_count", JNat (List.length entries))]) 200)) /\
  (forallb date_parses (transactions st) = false -> get_trends st = Raise ValueError).
Proof.
  intros Hne. unfold get_trends.
  destruct (transactions st) as [| t l] eqn:Et; [congruence |]. split.
  - intros Hp. destruct (sorted_months_ok (t :: l) Hp) as (months & Em & _ & Hf & _).
    destruct (trend_entries_ok months Hf) as (entries & Ee & _).
    exists months, entries. rewrite Em. cbn [bind]. rewrite Ee. cbn [bind].
    repeat split.
  - intros Hp. unfold sorted_months, monthly_data.
    rewrite (monthly_data_raises (t :: l) [] Hp). reflexivity.
Qed.

(** C1, amended: GET /trends on a store that holds transactions.  When
    every stored date parses, the answer is 200 with a body that has the
    keys [monthly_trends], a list, and [months_count], its length.  When a
    stored date does not parse, the handler raises [ValueError] and the
    client gets a 500. *)
Theorem get_trends_answer st :
  transactions st <> [] ->
  (forallb date_parses (transactions st) = true ->
   exists entries,
     get_trends st =
     Ok (reply (JDict [("monthly_trends", JList entries);
                       ("months_count", JNat (List.length entries))]) 200)) /\
  (forallb date_parses (transactions st) = false ->
   get_trends st = Raise ValueError /\ http_status (get_trends st) = 500).
Proof.
  intros Hne. destruct (get_trends_cases st Hne) as [Hok Hbad]. split.
  - intros Hp. destruct (Hok Hp) as (months & entries & _ & _ & E).
    exists entries. exact E.
  - intros Hp. rewrite (Hbad Hp). split; reflexivity.
Qed.

(** C7, amended: the buckets of GET /trends when every stored date parses.
    The buckets come out in strictly ascending order of their month key, one
    entry of [monthly_trends] per bucket.  The bucket of key [k] is built
    from exactly the transactions whose parsed date prints as [k] under
    [%Y-%m], in their stored order; every transaction is in the bucket of
    its own key.  That key is the first seven characters of the stored date
    when the date is written in the fixed form [YYYY-MM-DD] and its year
    has four significant digits; the text of [%Y] for an earlier year is
    the C library's choice. *)
Theorem trends_buckets st :
  transactions st <> [] ->
  forallb date_parses (transactions st) = true ->
  exists months entries,
    sorted_months (transactions st) = Ok months /\
    get_trends st =
      Ok (reply (JDict [("monthly_trends", JList entries);
                        ("months_count", JNat (List.length entries))]) 200) /\
    Forall2 (fun item j => field "month" j = Some (JStr (fst item)) /\
                           field "count" j = Some (JNat (m_count (snd item))))
            months entries /\
    StronglySorted (fun a b : string * month_acc => PyStr.lt (fst a) (fst b) = true)
                   months /\
    (forall k a, In (k, a) months ->
                 a = bucket_of (filter (in_month k) (transactions st))) /\
    (forall t, In t (transactions st) ->
       exists d,
         PyDate.strptime (txn_date t) = Ok d /\
         In (strftime d,
             bucket_of (filter (in_month (strftime d)) (transactions st)))
            months /\
         In t (filter (in_month (strftime d)) (transactions st)) /\
         (PyDate.fixed_width (txn_date t) = true -> 1000 <= PyDate.year d ->
          strftime d = String.substring 0 7 (txn_date t))).
Proof.
  intros Hne Hp.
  destruct (sorted_months_ok _ Hp) as (months & Em & Hs & Hf & Hb).
  destruct (trend_entries_ok months Hf) as (entries & Ee & He).
  exists months, entries. split; [exact Em |]. split; [| split; [exact He |]].
  - unfold get_trends. destruct (transactions st) as [| t l] eqn:Et; [congruence |].
    rewrite Em. cbn [bind]. rewrite Ee. reflexivity.
  - split; [exact Hs |]. split.
    + intros k a Hin. apply Hb in Hin. tauto.
    + intros t Hin. rewrite forallb_forall in Hp. specialize (Hp t Hin).
      unfold date_parses in Hp.
      destruct (PyDate.strptime (txn_date t)) as [d |] eqn:Ed; [| discriminate].
      exists d. split; [reflexivity |].
      assert (Hin' : In t (filter (in_month (strftime d)) (transactions st))).
      { apply filter_In. split; [exact Hin |]. unfold in_month, month_key.
        rewrite Ed. cbn. apply String.eqb_refl. }
      split; [| split; [exact Hin' |]].
      * apply Hb. split; [| reflexivity]. intros E. rewrite E in Hin'. exact Hin'.
      * intros Hw Hy. apply month_key_fixed_width; assumption.
Qed.

End TrendsClaims.

Module TrendsExamples.
Import Reference.

(** A date that [strptime] reads although its month and day are not
    zero-padded. *)
Definition loose_batch : json :=
  JList [UploadExamples.record 1 (JInt 10) "Food" "2025-1-5"].

Definition loose : store := snd (upload_transactions loose_batch initial).

(** A date that [strptime] rejects. *)
Definition undated_batch : json :=
  JList [UploadExamples.record 1 (JInt 10) "Food" "yesterday"].

Definition undated : store := snd (upload_transactions undated_batch initial).

Example trends_scenario :
  exists january february,
    get_trends UploadExamples.two_months =
    Ok (reply (JDict [("monthly_trends", JList [january; february]);
                      ("months_count", JInt 2)]) 200) /\
    field "month" january = Some (JStr "2025-01") /\
    field "total" january = Some (JFloat 100) /\
    field "month" february = Some (JStr "2025-02") /\
    field "total" february = Some (JFloat 50).
Proof. do 2 eexists. vm_compute. repeat split. Qed.

End TrendsExamples.

(** C1, amended, at the store of the two-transaction scenario. *)
Lemma get_trends_answer_witness :
  exists entries,
    get_trends (H := Reference.runtime) UploadExamples.two_months =
    Ok (reply (JDict [("monthly_trends", JList entries);
                      ("months_count", JNat (List.length entries))]) 200).
Proof.
  refine (proj1 (get_trends_answer (H := Reference.runtime)
                   UploadExamples.two_months _) eq_refl).
  discriminate.
Defined.

(** C1 as stated fails twice.  On the empty store the body has the keys
    [message] and [trends], and neither [monthly_trends] nor
    [months_count].  On a store with a date that does not parse the request
    ends in a 500. *)
Lemma get_trends_answer_counterexample :
  (exists r, get_trends (H := Reference.runtime) initial = Ok r /\
             status r = 200 /\
             has_key "monthly_trends" (body r) = false /\
             has_key "months_count" (body r) = false /\
             field "trends" (body r) = Some (JList [])) /\
  reachable (H := Reference.runtime) TrendsExamples.undated /\
  http_status (get_trends (H := Reference.runtime) TrendsExamples.undated) = 500.
Proof.
  split; [eexists; repeat split | split].
  - exact (reachable_serve _ (Upload TrendsExamples.undated_batch) reachable_initial).
  - reflexivity.
Qed.

(** C7, amended, at the store of the two-transaction scenario. *)
Lemma trends_buckets_witness :
  exists months,
    sorted_months (H := Reference.runtime)
      (transactions UploadExamples.two_months) = Ok months /\
    StronglySorted (fun a b : string * month_acc => PyStr.lt (fst a) (fst b) = true)
                   months /\
    (forall t, In t (transactions UploadExamples.two_months) ->
       exists d,
         PyDate.strptime (txn_date t) = Ok d /\
         strftime (H := Reference.runtime) d = String.substring 0 7 (txn_date t)).
Proof.
  destruct (trends_buckets (H := Reference.runtime) UploadExamples.two_months)
    as (months & entries & Em & _ & _ & Hs & _ & Ht);
    [discriminate | reflexivity |].
  exists months. split; [exact Em |]. split; [exact Hs |].
  intros t Hin. destruct (Ht t Hin) as (d & Ed & _ & _ & Hw).
  exists d. split; [exact Ed |].
  destruct Hin as [<- | [<- | []]];
    (apply Hw; [reflexivity |]; vm_compute in Ed; injection Ed as <-; cbn; lia).
Defined.

(** C7 as stated fails on a date that parses without being zero-padded:
    ["2025-1-5"] is read as the fifth of January 2025, and its transaction
    goes to the bucket ["2025-01"], which is not the prefix ["2025-1-"] of
    the stored text. *)
Lemma trends_buckets_counterexample :
  let st := TrendsExamples.loose in
  reachable (H := Reference.runtime) st /\
  forallb date_parses (transactions st) = true /\
  map txn_date (transactions st) = ["2025-1-5"] /\
  (exists a, sorted_months (H := Reference.runtime) (transactions st) =
             Ok [("2025-01", a)] /\ m_count a = 1) /\
  String.substring 0 7 "2025-1-5" = "2025-1-" /\
  "2025-01" <> String.substring 0 7 "2025-1-5".
Proof.
  split; [exact (reachable_serve _ (Upload TrendsExamples.loose_batch)
                   reachable_initial) |].
  split; [reflexivity |]. split; [reflexivity |].
  split; [eexists; split; reflexivity |]. split; [reflexivity | discriminate].
Qed.

(* ===================================================================== *)
(** * [max] and [min] *)
(* ===================================================================== *)

Section MaxFacts.
Context {A : Type} (lt : A -> A -> bool) (ok : A -> Prop).
Hypothesis lt_asym : forall a b, lt a b = true -> lt b a = false.
Hypothesis lt_ge_trans :
  forall a b c, ok b -> lt a b = false -> lt b c = false -> lt a c = false.

Lemma max_from_In best l : In (max_from lt best l) (best :: l).
Proof.
  revert best. induction l as [| x l IH]; intros best; cbn; [auto |].
  destruct (IH (if lt best x then x else best)) as [E | Hin]; [| auto].
  rewrite <- E. destruct (lt best x); auto.
Qed.

(** No item beats the one that is returned. *)
Lemma max_from_greatest best l :
  Forall ok (best :: l) ->
  forall a, In a (best :: l) -> lt (max_from lt best l) a = false.
Proof.
  revert best. induction l as [| x l IH]; intros best Hok a Ha.
  - cbn in *. destruct Ha as [<- | []].
    destruct (lt best best) eqn:E; [| reflexivity].
    rewrite (lt_asym _ _ E) in E. discriminate.
  - cbn [max_from]. inversion Hok as [| ? ? Hb Hl]; subst.
    inversion Hl as [| ? ? Hx Hl']; subst.
    set (b' := if lt best x then x else best).
    assert (Hb' : ok b') by (unfold b'; destruct (lt best x); assumption).
    assert (Hok' : Forall ok (b' :: l)) by (constructor; assumption).
    assert (IH' := IH b' Hok').
    assert (Hr : lt (max_from lt b' l) b' = false) by (apply IH'; left; reflexivity).
    destruct Ha as [<- | [<- | Ha]].
    + unfold b' in *. destruct (lt best x) eqn:E; [| exact Hr].
      apply (lt_ge_trans _ x); [assumption | exact Hr | apply lt_asym, E].
    + unfold b' in *. destruct (lt best x) eqn:E; [exact Hr |].
      apply (lt_ge_trans _ best); assumption.
    + apply IH'. right. exact Ha.
Qed.
End MaxFacts.

Section FloatMax.

Definition is_number (x : float) : Prop := PyFloat.is_nan x = false.

Lemma float_max amounts m :
  py_max PyFloat.lt amounts = Ok m ->
  In m amounts /\
  (Forall is_number amounts -> forall a, In a amounts -> PyFloat.ge m a = true).
Proof.
  destruct amounts as [| x l]; cbn [py_max]; [discriminate |]. intros E.
  injection E as <-. split.
  - apply max_from_In.
  - intros Hn a Ha.
    assert (Hm : is_number (max_from PyFloat.lt x l)).
    { rewrite Forall_forall in Hn. apply Hn, max_from_In. }
    assert (Na : is_number a) by (rewrite Forall_forall in Hn; apply Hn, Ha).
    rewrite (PyFloat.ge_lt _ _ Hm Na).
    rewrite (max_from_greatest PyFloat.lt is_number PyFloat.lt_asym
               (fun a b c Hb => PyFloat.ge_trans a b c Hb) x l Hn a Ha).
    reflexivity.
Qed.

Lemma float_min amounts m :
  py_min PyFloat.lt amounts = Ok m ->
  In m amounts /\
  (Forall is_number amounts -> forall a, In a amounts -> PyFloat.ge a m = true).
Proof.
  unfold py_min. destruct amounts as [| x l]; cbn [py_max]; [discriminate |].
  intros E. injection E as <-. split.
  - apply max_from_In.
  - intros Hn a Ha.
    assert (Hm : is_number (max_from (fun a b => PyFloat.lt b a) x l)).
    { rewrite Forall_forall in Hn. apply Hn, max_from_In. }
    assert (Na : is_number a) by (rewrite Forall_forall in Hn; apply Hn, Ha).
    rewrite (PyFloat.ge_lt _ _ Na Hm).
    rewrite (max_from_greatest (fun a b => PyFloat.lt b a) is_number
               (fun a b => PyFloat.lt_asym b a)
               (fun a b c Hb H1 H2 => PyFloat.ge_trans c b a Hb H2 H1) x l Hn a Ha).
    reflexivity.
Qed.
End FloatMax.

(* ===================================================================== *)
(** * Properties of GET /category-details *)
(* ===================================================================== *)

Section DetailsFacts.
Context `{PyRuntime}.

Lemma by_date_ordered l : ordered_on by_date l.
Proof.
  unfold by_date. split.
  - intros a b _ _. apply PyStr.str_lt_asym.
  - intros a b c _ _ _. apply PyStr.str_ge_trans.
Qed.

Lemma sorted_by_date l :
  StronglySorted (fun a b => String.leb (txn_date a) (txn_date b) = true)
                 (stable_sort by_date l).
Proof.
  eapply StronglySorted_ind
    with (P := StronglySorted (fun a b => String.leb (txn_date a) (txn_date b) = true));
    [constructor | | apply stable_sort_sorted, by_date_ordered].
  intros a l' _ IH Ha. constructor; [exact IH |].
  rewrite Forall_forall in *. intros x Hx. specialize (Ha x Hx).
  unfold by_date in Ha. rewrite PyStr.str_lt_leb in Ha.
  apply negb_false_iff in Ha. exact Ha.
Qed.

(** GET /category-details/<category> on a store that holds at least one
    transaction whose category is exactly [category].  The answer is 200
    with the matching transactions in ascending order of their date, those
    of one date in their stored order; [total] is the sum of their amounts
    rounded to two decimals and [average] the sum divided by their number,
    rounded to two decimals; [highest] and [lowest] are amounts of the
    matches as stored, not rounded, the greatest and the least of them as
    soon as the amounts are numbers (none is NaN). *)
Theorem category_details st category :
  transactions st <> [] ->
  let found := filter (in_category category) (transactions st) in
  let amounts := map txn_amount found in
  found <> [] ->
  exists highest lowest,
    get_category_details category st =
    Ok (reply
          (JDict [("category", JStr category);
                  ("total", JFloat (round2 (py_sum amounts)));
                  ("count", JNat (List.length found));
                  ("average",
                   JFloat (round2 (py_sum amounts / PyFloat.of_nat (List.length found))));
                  ("highest", JFloat highest);
                  ("lowest", JFloat lowest);
                  ("transactions", JList (map txn_json (stable_sort by_date found)))])
          200) /\
    Permutation found (stable_sort by_date found) /\
    StronglySorted (fun a b => String.leb (txn_date a) (txn_date b) = true)
                   (stable_sort by_date found) /\
    (forall a b, precedes a b found -> txn_date a = txn_date b ->
                 precedes a b (stable_sort by_date found)) /\
    In highest amounts /\ In lowest amounts /\
    (Forall is_number amounts ->
     forall a, In a amounts -> PyFloat.ge highest a = true /\ PyFloat.ge a lowest = true).
Proof.
  intros Hne found amounts Hf. subst amounts. unfold get_category_details.
  destruct (transactions st) as [| t0 l0] eqn:Et; [congruence |].
  change (filter (in_category category) (t0 :: l0)) with found.
  clearbody found. destruct found as [| t l]; [congruence |].
  rewrite stable_sort_length.
  remember (t :: l) as found eqn:Ef.
  destruct (py_max PyFloat.lt (map txn_amount found)) as [hi |] eqn:Eh;
    [| subst found; discriminate].
  destruct (py_min PyFloat.lt (map txn_amount found)) as [lo |] eqn:El;
    [| subst found; discriminate].
  rewrite PyFloat.div_nat_pos by (subst found; cbn; lia). cbn [bind].
  exists hi, lo.
  destruct (float_max _ _ Eh) as [Hhi Hmax], (float_min _ _ El) as [Hlo Hmin].
  split; [subst found; reflexivity |]. split; [apply stable_sort_perm |].
  split; [apply sorted_by_date |]. split; [| split; [exact Hhi | split; [exact Hlo |]]].
  - intros a b Hp Hd. apply stable_sort_stable; [exact Hp |].
    unfold by_date. rewrite Hd. apply PyStr.str_lt_irrefl.
  - intros Hn a Ha. split; [apply Hmax | apply Hmin]; assumption.
Qed.

(** The handler never raises. *)
Lemma get_category_details_ok category st :
  exists r, get_category_details category st = Ok r.
Proof.
  unfold get_category_details. destruct (transactions st) as [| t0 l0] eqn:Et; [eauto |].
  destruct (filter (in_category category) (t0 :: l0)) as [| t l] eqn:Ef; [eauto |].
  rewrite stable_sort_length. cbn. eauto.
Qed.

End DetailsFacts.

(** A store with three transactions, two of them in the category [Food]
    and stored in descending order of date. *)
Module DetailsExamples.
Import Reference.

Definition batch : json :=
  JList [UploadExamples.record 1 (JFloat 30.5) "Food" "2025-03-01";
         UploadExamples.record 2 (JInt 50) "Travel" "2025-02-10";
         UploadExamples.record 3 (JFloat 10.125) "Food" "2025-01-05"].

Definition three : store := snd (upload_transactions batch initial).

End DetailsExamples.

Lemma category_details_witness :
  let st := DetailsExamples.three in
  exists highest lowest total average dated,
    get_category_details (H := Reference.runtime) "Food" st =
    Ok (reply (JDict [("category", JStr "Food");
                      ("total", JFloat total);
                      ("count", JNat 2);
                      ("average", JFloat average);
                      ("highest", JFloat highest);
                      ("lowest", JFloat lowest);
                      ("transactions", JList dated)]) 200) /\
    highest = 30.5%float /\ lowest = 10.125%float /\
    PyFloat.ge highest lowest = true.
Proof.
  intros st.
  destruct (category_details (H := Reference.runtime) st "Food")
    as (hi & lo & Eg & _ & _ & _ & Hhi & Hlo & Hm);
    [discriminate | discriminate |].
  assert (Hn : Forall is_number
                 (map txn_amount (filter (in_category "Food") (transactions st))))
    by (repeat constructor).
  assert (E1 : hi = 30.5%float).
  { pose proof Eg as Eg'. vm_compute in Eg'. injection Eg' as <- _. reflexivity. }
  assert (E2 : lo = 10.125%float).
  { pose proof Eg as Eg'. vm_compute in Eg'. injection Eg' as _ <-. reflexivity. }
  exists hi, lo. do 3 eexists.
  split; [exact Eg | split; [exact E1 | split; [exact E2 |]]].
  exact (proj1 (Hm Hn lo Hlo)).
Defined.

(* ===================================================================== *)
(** * Properties of GET /insight *)
(* ===================================================================== *)

Section FoldFacts.
Context {V : Type} (key : txn -> string) (f : txn -> V -> V) (dflt : V).

Lemma keys_fold_update txns d :
  keys (fold_left (fun d t => update (key t) (f t) dflt d) txns d) =
  fold_left (fun seen c => if existsb (String.eqb c) seen then seen else seen ++ [c])
            (map key txns) (keys d).
Proof.
  revert d. induction txns as [| t txns IH]; intros d; cbn [fold_left map];
    [reflexivity |].
  rewrite IH, keys_update. reflexivity.
Qed.

Lemma fold_update_nonempty txns d :
  (txns <> [] \/ d <> []) ->
  fold_left (fun d t => update (key t) (f t) dflt d) txns d <> [].
Proof.
  revert d. induction txns as [| t txns IH]; intros d Hd; cbn.
  - destruct Hd; [congruence | assumption].
  - apply IH. right. destruct d as [| [k v] d]; cbn; [discriminate |].
    destruct (String.eqb (key t) k); discriminate.
Qed.
End FoldFacts.

Lemma match_filter_existsb {A B : Type} (p : A -> bool) (l : list A) (x y : B) :
  match filter p l with [] => y | _ :: _ => x end = if existsb p l then x else y.
Proof.
  induction l as [| a l IH]; cbn; [reflexivity |].
  destruct (p a); cbn; [reflexivity | exact IH].
Qed.

Section InsightsFacts.
Context `{PyRuntime}.

Lemma category_totals_keys txns : keys (category_totals txns) = first_seen txns.
Proof. unfold category_totals. apply keys_fold_update. Qed.

(** The number of entries of [category_totals] is the number of distinct
    categories. *)
Lemma category_totals_length txns :
  List.length (category_totals txns) = List.length (first_seen txns).
Proof. rewrite <- category_totals_keys. unfold keys. symmetry. apply length_map. Qed.

(** The sum the percentage of the first insight is divided by. *)
Definition spent (txns : list txn) : float := py_sum (values (category_totals txns)).

(** The average of the second insight. *)
Definition average_value (txns : list txn) : float :=
  (py_sum (map txn_amount txns) / PyFloat.of_nat (List.length txns))%float.

(** What the handler builds on a non-empty list: it raises on the
    unguarded division when the sum of the category totals is zero, and
    otherwise returns the three fixed insights, then the lowest-spend one
    when there are two categories or more, then the high-value one when
    some amount is above twice the average. *)
Lemma insights_structure txns :
  txns <> [] ->
  (PyFloat.eq (spent txns) 0 = true -> insights_of txns = Raise ZeroDivisionError) /\
  (PyFloat.eq (spent txns) 0 = false ->
   exists top frequent least,
     py_max by_amount (category_totals txns) = Ok top /\
     py_max by_count (category_counts txns) = Ok frequent /\
     py_min by_amount (category_totals txns) = Ok least /\
     insights_of txns =
     Ok ([HighestSpend (fst top) (snd top) (snd top / spent txns * 100);
          AverageValue (average_value txns) (List.length txns);
          MostFrequent (fst frequent) (snd frequent)]
         ++ (if Nat.ltb 1 (List.length (first_seen txns))
             then [LowestSpend (fst least) (snd least)] else [])
         ++ (if existsb (is_high_value (average_value txns)) txns
             then [HighValue (List.length (filter (is_high_value (average_value txns)) txns))
                             (average_value txns * 2)]
             else []))).
Proof.
  intros Hne. unfold insights_of.
  assert (Ht : category_totals txns <> [])
    by (apply fold_update_nonempty; left; exact Hne).
  assert (Hc : category_counts txns <> [])
    by (apply fold_update_nonempty; left; exact Hne).
  rewrite <- category_totals_length. fold (spent txns).
  destruct (category_totals txns) as [| x l] eqn:Et; [congruence |].
  destruct (category_counts txns) as [| y l'] eqn:Ec; [congruence |].
  cbn [py_max py_min bind].
  split; intros Hs; unfold PyFloat.div; unfold PyFloat.eq in Hs; rewrite Hs;
    [reflexivity |].
  cbn [bind]. rewrite PyFloat.div_nat_pos by (destruct txns; [congruence | cbn; lia]).
  cbn [bind]. fold (average_value txns).
  do 3 eexists. split; [reflexivity |]. split; [reflexivity |].
  split; [reflexivity |].
  rewrite match_filter_existsb.
  destruct (Nat.ltb 1 (List.length (x :: l))); reflexivity.
Qed.

End InsightsFacts.

Section InsightsClaims.
Context `{PyRuntime}.

(** The answer of GET /insight: the fixed message on the empty store;
    otherwise, when the sum of the category totals is not zero, the
    rendering of the insights of [insights_structure]. *)
Lemma get_insights_answer st :
  (transactions st = [] ->
   get_insights st = Ok (reply (JDict [("insights", JList [JStr no_insights])]) 200)) /\
  (transactions st <> [] ->
   PyFloat.eq (spent (transactions st)) 0 = false ->
   exists insights,
     insights_of (transactions st) = Ok insights /\
     get_insights st =
     Ok (reply (JDict [("insights", JList (map (fun i => JStr (render i)) insights))])
               200)).
Proof.
  unfold get_insights. split.
  - intros ->. reflexivity.
  - intros Hne Hs. destruct (insights_structure _ Hne) as [_ Hi].
    destruct (Hi Hs) as (top & frequent & least & _ & _ & _ & E).
    destruct (transactions st) as [| t l]; [congruence |].
    rewrite E. cbn [bind]. eexists. split; reflexivity.
Qed.

(** C10 fails on the code: the percentage of the first insight divides by
    the sum of the category totals without a guard.  On a store whose
    amounts add up to zero, GET /insight raises [ZeroDivisionError] and the
    client gets a 500. *)
Theorem get_insights_divides_by_zero st :
  transactions st <> [] ->
  PyFloat.eq (spent (transactions st)) 0 = true ->
  get_insights st = Raise ZeroDivisionError /\ http_status (get_insights st) = 500.
Proof.
  intros Hne Hs. unfold get_insights.
  destruct (insights_structure _ Hne) as [Hi _]. specialize (Hi Hs).
  destruct (transactions st) as [| t l]; [congruence |].
  rewrite Hi. split; reflexivity.
Qed.

(** GET /trends raises nothing but the [ValueError] of a date that does not
    parse. *)
Lemma get_trends_raises st e : get_trends st = Raise e -> e = ValueError.
Proof.
  destruct (transactions st) as [| t l] eqn:Et.
  - unfold get_trends. rewrite Et. discriminate.
  - assert (Hne : transactions st <> []) by congruence.
    destruct (get_trends_cases st Hne) as [Hok Hbad].
    destruct (forallb date_parses (transactions st)) eqn:Ep.
    + destruct (Hok eq_refl) as (months & entries & _ & _ & ->). discriminate.
    + rewrite (Hbad eq_refl). intros E. inversion E. reflexivity.
Qed.

(** The other views are safe: their divisions are guarded or have a
    positive count as divisor. *)
Lemma other_views_never_divide_by_zero rq st :
  rq <> Insight -> fst (handle rq st) <> Raise ZeroDivisionError.
Proof.
  intros Hrq. destruct rq; cbn; try discriminate; try congruence.
  - destruct (upload_transactions data st). discriminate.
  - destruct (get_summary_ok st) as (r & st' & ->). discriminate.
  - intros E. apply get_trends_raises in E. discriminate.
  - destruct (get_category_details_ok category st) as [r ->]. discriminate.
Qed.

End InsightsClaims.

Module InsightExamples.
Import Reference.

Definition free_batch : json :=
  JList [UploadExamples.record 1 (JInt 0) "Food" "2025-01-01"].

(** One transaction of amount zero. *)
Definition free : store := snd (upload_transactions free_batch initial).

Definition gifts_batch : json :=
  JList [UploadExamples.record 1 (JFloat 0) "Food" "2025-01-01";
         UploadExamples.record 2 (JStr "0.00") "Travel" "2025-01-02"].

(** Two transactions of amount zero in two categories. *)
Definition gifts : store := snd (upload_transactions gifts_batch initial).

Example insights_scenario :
  get_insights UploadExamples.two_months =
  Ok (reply
        (JDict [("insights",
                 JList [JStr "Your highest spend is on Food (₹100.00), which is 66.7% of your total spending";
                        JStr "Your average transaction value is ₹75.00 across 2 transactions";
                        JStr "You make the most transactions in Food (1 transactions)";
                        JStr "You spend the least on Travel with only ₹50.00"])])
        200).
Proof. vm_compute. reflexivity. Qed.

End InsightExamples.

(** C10 at the store that holds one transaction of amount zero. *)
Lemma get_insights_divides_by_zero_witness :
  reachable (H := Reference.runtime) InsightExamples.free /\
  get_insights (H := Reference.runtime) InsightExamples.free = Raise ZeroDivisionError /\
  http_status (get_insights (H := Reference.runtime) InsightExamples.free) = 500.
Proof.
  split.
  - exact (reachable_serve _ (Upload InsightExamples.free_batch) reachable_initial).
  - refine (get_insights_divides_by_zero (H := Reference.runtime)
              InsightExamples.free _ eq_refl).
    discriminate.
Defined.

(** C9 fails on the code: on the accepted batch of two transactions of
    amount zero the store is not empty, yet GET /insight returns no list of
    insights; it raises on the percentage of the first insight. *)
Theorem get_insights_fails_on_zero_amounts :
  let st := InsightExamples.gifts in
  status (fst (upload_transactions (H := Reference.runtime)
                 InsightExamples.gifts_batch initial)) = 200 /\
  reachable (H := Reference.runtime) st /\
  List.length (transactions st) = 2 /\
  insights_of (H := Reference.runtime) (transactions st) = Raise ZeroDivisionError /\
  get_insights (H := Reference.runtime) st = Raise ZeroDivisionError /\
  http_status (get_insights (H := Reference.runtime) st) = 500.
Proof.
  split; [reflexivity |]. split; [| repeat split].
  exact (reachable_serve _ (Upload InsightExamples.gifts_batch) reachable_initial).
Qed.

Module SummaryExamples.
Import Reference.

Definition tied_batch : json :=
  JList [UploadExamples.record 1 (JInt 10) "Rent" "2025-01-01";
         UploadExamples.record 2 (JInt 30) "Food" "2025-01-02";
         UploadExamples.record 3 (JFloat 2.5) "Fun" "2025-01-03";
         UploadExamples.record 4 (JFloat 7.5) "Fun" "2025-01-04"].

(** Three categories, two of them with the same total. *)
Definition tied : store := snd (upload_transactions tied_batch initial).

Example summary_scenario :
  exists food travel,
    get_summary UploadExamples.two_months =
    Ok (reply (JDict [("summary", JList [food; travel]);
                      ("grand_total", JFloat 150);
                      ("categories_count", JInt 2);
                      ("total_transactions", JInt 2);
                      ("overall_average", JFloat 75)]) 200,
        UploadExamples.two_months_cached) /\
    field "category" food = Some (JStr "Food") /\
    field "percentage" food = Some (JFloat (round_2 (100 / 150 * 100))) /\
    (fmt_2f (round_2 (100 / 150 * 100)) = "66.67")%string.
Proof. do 2 eexists. vm_compute. repeat split. Qed.

End SummaryExamples.

(** The sorted order at a store with three categories, the second and the
    third seen with the same total. *)
Lemma summary_sorted_witness :
  let st := SummaryExamples.tied in
  reachable (H := Reference.runtime) st /\
  exists summary,
    sorted_summary (H := Reference.runtime) (transactions st) = Ok summary /\
    map cs_category summary = ["Food"; "Rent"; "Fun"] /\
    map cs_total summary = [30; 10; 10]%float /\
    StronglySorted (fun a b => PyFloat.ge (cs_total a) (cs_total b) = true) summary.
Proof.
  intros st.
  assert (Hr : reachable (H := Reference.runtime) st)
    by exact (reachable_serve _ (Upload SummaryExamples.tied_batch) reachable_initial).
  split; [exact Hr |].
  destruct (summary_sorted (H := Reference.runtime) st Hr)
    as (summary & r & st' & Es & _ & _ & _ & _ & Hnumbers & Hsorted);
    [discriminate |].
  exists summary. split; [exact Es |].
  assert (E : map cs_category summary = ["Food"; "Rent"; "Fun"] /\
              map cs_total summary = [30; 10; 10]%float).
  { pose proof Es as Es'. vm_compute in Es'. injection Es' as <-.
    repeat split. }
  destruct E as (E1 & E2).
  assert (Ht : Forall amount_ok (transactions st)) by (repeat constructor).
  split; [exact E1 | split; [exact E2 | exact (proj1 (Hsorted (Hnumbers Ht)))]].
Defined.

(* ===================================================================== *)
(** * A stored NaN in the summary and in the details *)
(* ===================================================================== *)

(** The upload accepts the amount NaN.  The views that order amounts or
    totals then work on values that [<] does not order. *)
Module NanExamples.
Import Reference.

(** Three categories, the second with the amount NaN. *)
Definition clouded_batch : json :=
  JList [UploadExamples.record 1 (JInt 1) "X" "2025-01-01";
         UploadExamples.record 2 (JStr "nan") "N" "2025-01-02";
         UploadExamples.record 3 (JInt 2) "Y" "2025-01-03"].

Definition clouded : store := snd (upload_transactions clouded_batch initial).

(** One category with the amounts NaN and 5, in this order and in the
    other. *)
Definition nan_first_batch : json :=
  JList [UploadExamples.record 1 (JStr "nan") "Food" "2025-01-01";
         UploadExamples.record 2 (JInt 5) "Food" "2025-01-02"].

Definition nan_last_batch : json :=
  JList [UploadExamples.record 1 (JInt 5) "Food" "2025-01-01";
         UploadExamples.record 2 (JStr "nan") "Food" "2025-01-02"].

Definition nan_first : store := snd (upload_transactions nan_first_batch initial).
Definition nan_last : store := snd (upload_transactions nan_last_batch initial).

End NanExamples.

Lemma sorted_suffix {A : Type} (R : A -> A -> Prop) l1 l2 :
  StronglySorted R (l1 ++ l2) -> StronglySorted R l2.
Proof.
  induction l1 as [| x l1 IH]; cbn; [auto |].
  intros Hs. inversion Hs; subst. auto.
Qed.

(** A list of two entries or more, one of them with the total NaN, is in
    descending order of total in no arrangement: [>=] is false as soon as
    one side is NaN. *)
Lemma nan_total_unsorted (l : list category_summary) e :
  In e l -> PyFloat.is_nan (cs_total e) = true -> 2 <= List.length l ->
  ~ StronglySorted (fun a b => PyFloat.ge (cs_total a) (cs_total b) = true) l.
Proof.
  intros Hin Hnan Hlen Hs.
  apply in_split in Hin. destruct Hin as (l1 & l2 & ->).
  destruct l2 as [| b l2].
  - destruct l1 as [| a l1]; [cbn in Hlen; lia |].
    cbn in Hs. inversion Hs as [| ? ? _ Ha]; subst.
    rewrite Forall_forall in Ha.
    assert (Hge : PyFloat.ge (cs_total a) (cs_total e) = true)
      by (apply Ha, in_or_app; right; left; reflexivity).
    apply PyFloat.ge_is_number in Hge. destruct Hge as [_ Hge]. congruence.
  - apply sorted_suffix in Hs. inversion Hs as [| ? ? _ Hb]; subst.
    inversion Hb as [| ? ? Hge _]; subst.
    apply PyFloat.ge_is_number in Hge. destruct Hge as [Hge _]. congruence.
Qed.

(** C6 fails on the code: the upload accepts the amount NaN (the defect of
    C2), and a total that is NaN is ordered by no comparison.  On the
    accepted batch with the totals 1, NaN and 2 for the categories [X], [N]
    and [Y], GET /summary answers 200 with an entry of total NaN; no
    arrangement of its three entries is in descending order of total, so
    the list that the sort leaves is not. *)
Theorem summary_unsorted_with_nan :
  let st := NanExamples.clouded in
  status (fst (upload_transactions (H := Reference.runtime)
                 NanExamples.clouded_batch initial)) = 200 /\
  reachable (H := Reference.runtime) st /\
  exists summary r st',
    sorted_summary (H := Reference.runtime) (transactions st) = Ok summary /\
    get_summary (H := Reference.runtime) st = Ok (r, st') /\
    status r = 200 /\
    field "summary" (body r) = Some (JList (map category_summary_json summary)) /\
    Permutation ["X"; "N"; "Y"] (map cs_category summary) /\
    (exists e, In e summary /\ cs_category e = "N" /\
               PyFloat.is_nan (cs_total e) = true) /\
    forall arranged,
      Permutation summary arranged ->
      ~ StronglySorted (fun a b => PyFloat.ge (cs_total a) (cs_total b) = true)
                       arranged.
Proof.
  intros st.
  assert (Hr : reachable (H := Reference.runtime) st)
    by exact (reachable_serve _ (Upload NanExamples.clouded_batch) reachable_initial).
  split; [reflexivity |]. split; [exact Hr |].
  destruct (get_summary_body (H := Reference.runtime) st Hr)
    as (summary & r & st' & Es & Eg & Hs & Hf); [discriminate |].
  exists summary, r, st'. repeat (split; [assumption |]).
  assert (Hn : exists e, In e summary /\ cs_category e = "N" /\
                         PyFloat.is_nan (cs_total e) = true).
  { pose proof Es as Es'. vm_compute in Es'. injection Es' as <-.
    eexists. split; [right; left; reflexivity |]. split; reflexivity. }
  assert (Hp : Permutation ["X"; "N"; "Y"] (map cs_category summary)).
  { unfold sorted_summary in Es.
    destruct (summary_entries (H := Reference.runtime) (transactions st))
      as [es |] eqn:Ee; [| discriminate].
    cbn [bind] in Es. injection Es as <-.
    change ["X"; "N"; "Y"] with (first_seen (transactions st)).
    rewrite <- (summary_entries_categories (H := Reference.runtime) _ _ Ee).
    apply Permutation_map, (py_sort_perm (PyRuntime := Reference.runtime)). }
  split; [exact Hp |]. split; [exact Hn |].
  intros arranged Ha. destruct Hn as (e & Hin & _ & Hnan).
  apply (nan_total_unsorted arranged e).
  - eapply Permutation_in; [exact Ha | exact Hin].
  - exact Hnan.
  - rewrite <- (Permutation_length Ha).
    apply Permutation_length in Hp. rewrite length_map in Hp. rewrite <- Hp. cbn. lia.
Qed.

(** C8 fails on the code, by the same defect: on the accepted batch whose
    category [Food] has the amounts NaN and 5, GET /category-details/Food
    answers 200 with [highest] and [lowest] both NaN, a value that is
    neither at least nor at most the amount 5; with the same two amounts
    stored in the other order, [highest] and [lowest] are both 5.  What is
    returned is the first amount, not the maximum and the minimum of the
    matches. *)
Theorem category_details_with_nan :
  let amounts st := map txn_amount (filter (in_category "Food") (transactions st)) in
  let details st := get_category_details (H := Reference.runtime) "Food" st in
  status (fst (upload_transactions (H := Reference.runtime)
                 NanExamples.nan_first_batch initial)) = 200 /\
  reachable (H := Reference.runtime) NanExamples.nan_first /\
  reachable (H := Reference.runtime) NanExamples.nan_last /\
  amounts NanExamples.nan_first = [nan; 5]%float /\
  amounts NanExamples.nan_last = [5; nan]%float /\
  (exists r, details NanExamples.nan_first = Ok r /\ status r = 200 /\
             field "highest" (body r) = Some (JFloat nan) /\
             field "lowest" (body r) = Some (JFloat nan)) /\
  (exists r, details NanExamples.nan_last = Ok r /\ status r = 200 /\
             field "highest" (body r) = Some (JFloat 5) /\
             field "lowest" (body r) = Some (JFloat 5)) /\
  PyFloat.ge nan 5 = false /\ PyFloat.ge 5 nan = false.
Proof.
  cbv zeta. split; [reflexivity |].
  split; [exact (reachable_serve _ (Upload NanExamples.nan_first_batch)
                   reachable_initial) |].
  split; [exact (reachable_serve _ (Upload NanExamples.nan_last_batch)
                   reachable_initial) |].
  split; [reflexivity |]. split; [reflexivity |].
  split; [eexists; split; [vm_compute; reflexivity | repeat split] |].
  split; [eexists; split; [vm_compute; reflexivity | repeat split] |].
  split; reflexivity.
Qed.

(* ===================================================================== *)
(** * [str.strip] is idempotent *)
(* ===================================================================== *)

Section StripFacts.
Import PyStr.

(** The text does not start with white space. *)
Definition starts_clean (s : string) : Prop :=
  match s with
  | EmptyString => True
  | String c _ => isspace c = false
  end.

(** The text neither starts nor ends with white space. *)
Definition stripped (s : string) : Prop := strip s = s.

Fixpoint last_char (s : string) : option ascii :=
  match s with
  | EmptyString => None
  | String c EmptyString => Some c
  | String _ s' => last_char s'
  end.

Definition ends_clean (s : string) : Prop :=
  match last_char s with
  | None => True
  | Some c => isspace c = false
  end.

Lemma rev_app_rev_app s a b :
  String.rev_app (String.rev_app s a) b = String.rev_app a (s ++ b)%string.
Proof.
  revert a b. induction s as [| c s IH]; intros a b; cbn; [reflexivity |].
  rewrite IH. reflexivity.
Qed.

Lemma append_empty s : (s ++ "")%string = s.
Proof.
  induction s as [| c s IH]; [reflexivity |].
  change (String c (s ++ "") = String c s). rewrite IH. reflexivity.
Qed.

Lemma rev_rev s : String.rev (String.rev s) = s.
Proof. unfold String.rev. rewrite rev_app_rev_app. apply append_empty. Qed.

Lemma last_char_some c s : exists x, last_char (String c s) = Some x.
Proof.
  revert c. induction s as [| c' s IH]; intros c; [exists c; reflexivity |].
  destruct (IH c') as [x E]. exists x. exact E.
Qed.

Lemma starts_clean_rev_app s acc :
  starts_clean (String.rev_app s acc) <->
  match last_char s with
  | None => starts_clean acc
  | Some c => isspace c = false
  end.
Proof.
  revert acc. induction s as [| c s IH]; intros acc; cbn [String.rev_app last_char];
    [reflexivity |].
  rewrite IH. destruct s as [| c' s]; [reflexivity |].
  destruct (last_char_some c' s) as [x ->]. reflexivity.
Qed.

Lemma starts_clean_rev s : starts_clean (String.rev s) <-> ends_clean s.
Proof.
  unfold String.rev, ends_clean. rewrite starts_clean_rev_app.
  destruct (last_char s); cbn; tauto.
Qed.

Lemma lstrip_starts_clean s : starts_clean (lstrip s).
Proof.
  induction s as [| c s IH]; cbn; [exact I |].
  destruct (isspace c) eqn:E; [exact IH | exact E].
Qed.

Lemma lstrip_clean s : starts_clean s -> lstrip s = s.
Proof. destruct s as [| c s]; cbn; [reflexivity |]. intros ->. reflexivity. Qed.

Lemma lstrip_ends_clean s : ends_clean s -> ends_clean (lstrip s).
Proof.
  unfold ends_clean. induction s as [| c s IH]; cbn [lstrip]; [tauto |].
  destruct (isspace c) eqn:E; [| tauto].
  destruct s as [| c' s]; [cbn; congruence | exact IH].
Qed.

Lemma strip_clean s : starts_clean s -> ends_clean s -> strip s = s.
Proof.
  intros Hs He. unfold strip, rstrip. rewrite (lstrip_clean s Hs).
  rewrite lstrip_clean by (apply starts_clean_rev, He). apply rev_rev.
Qed.

Lemma strip_starts_clean s : starts_clean (strip s).
Proof.
  unfold strip, rstrip. apply starts_clean_rev, lstrip_ends_clean.
  apply starts_clean_rev. rewrite rev_rev. apply lstrip_starts_clean.
Qed.

Lemma strip_ends_clean s : ends_clean (strip s).
Proof.
  unfold strip, rstrip. apply starts_clean_rev. rewrite rev_rev.
  apply lstrip_starts_clean.
Qed.

Lemma strip_idempotent s : strip (strip s) = strip s.
Proof. apply strip_clean; [apply strip_starts_clean | apply strip_ends_clean]. Qed.

End StripFacts.

(* ===================================================================== *)
(** * More on POST /upload *)
(* ===================================================================== *)

Section UploadRecords.
Context `{PyRuntime}.

(** The transaction that the loop body builds from the record [record]:
    the record is a dictionary with the four keys, [float] accepts its
    amount and the result is not below zero; the identifier is kept as it
    is, the category and the date are turned into text and stripped. *)
Definition stored_from (record : json) (t : txn) : Prop :=
  exists d amount category date,
    record = JDict d /\
    assoc "id" d = Some (txn_id t) /\
    assoc "amount" d = Some amount /\
    py_float amount = Ok (txn_amount t) /\
    PyFloat.lt (txn_amount t) 0 = false /\
    assoc "category" d = Some category /\
    txn_category t = PyStr.strip (py_str category) /\
    assoc "date" d = Some date /\
    txn_date t = PyStr.strip (py_str date).

Lemma assoc_key_found {V : Type} k (d : list (string * V)) :
  existsb (fun kv => String.eqb k (fst kv)) d = true <-> exists v, assoc k d = Some v.
Proof.
  induction d as [| [k' v] d IH]; cbn.
  - split; [discriminate | intros [v E]; discriminate].
  - destruct (String.eqb k k'); cbn; [split; eauto | exact IH].
Qed.

Lemma all_in_dict d :
  py_all_in required_fields (JDict d) = Ok true <->
  (exists i, assoc "id" d = Some i) /\ (exists a, assoc "amount" d = Some a) /\
  (exists c, assoc "category" d = Some c) /\ (exists x, assoc "date" d = Some x).
Proof.
  rewrite <- !assoc_key_found. cbn.
  destruct (existsb _ d); cbn; [| intuition discriminate].
  destruct (existsb _ d); cbn; [| intuition discriminate].
  destruct (existsb _ d); cbn; [| intuition discriminate].
  destruct (existsb _ d); cbn; intuition discriminate.
Qed.

(** The loop body goes on to the next record exactly with such a
    transaction. *)
Lemma validate_next idx record t :
  validate idx record = Next t <-> stored_from record t.
Proof.
  split.
  - unfold validate. intros Hv.
    destruct (py_all_in required_fields record) as [[|] | e] eqn:Ea; try discriminate.
    destruct record as [| b | z | f | s | l | d];
      try (cbn in Hv; discriminate).
    cbn [py_getitem] in Hv.
    destruct (assoc "amount" d) as [a |] eqn:E1; cbn [bind] in Hv; [| discriminate].
    destruct (py_float a) as [x | e] eqn:E2;
      [| destruct e; discriminate].
    destruct (PyFloat.lt x 0) eqn:E3; [discriminate |].
    destruct (assoc "id" d) as [i |] eqn:E4; cbn [bind] in Hv; [| discriminate].
    destruct (assoc "category" d) as [c |] eqn:E5; cbn [bind] in Hv; [| discriminate].
    destruct (assoc "date" d) as [dt |] eqn:E6; cbn [bind] in Hv; [| discriminate].
    inversion Hv; subst t. exists d, a, c, dt. cbn. repeat split; assumption.
  - intros (d & a & c & dt & -> & Ei & Ea & Ef & El & Ec & Hc & Ed & Hd).
    unfold validate.
    assert (Hall : py_all_in required_fields (JDict d) = Ok true)
      by (apply all_in_dict; eauto 10).
    rewrite Hall. cbn [py_getitem]. rewrite Ea, Ei, Ec, Ed. cbn [bind].
    rewrite Ef, El. destruct t as [i x c' d']. cbn in *. subst. reflexivity.
Qed.

Lemma validate_from_next l idx acc v :
  validate_from idx l acc = Next v <->
  exists ts, Forall2 stored_from l ts /\ v = acc ++ ts.
Proof.
  revert idx acc. induction l as [| r l IH]; intros idx acc; cbn [validate_from].
  - split.
    + intros E. inversion E. exists []. rewrite app_nil_r. split; [constructor | reflexivity].
    + intros (ts & Hf & ->). inversion Hf. rewrite app_nil_r. reflexivity.
  - split.
    + destruct (validate idx r) as [t | |] eqn:E; try discriminate.
      intros Hv. apply IH in Hv. destruct Hv as (ts & Hf & ->).
      exists (t :: ts). rewrite <- app_assoc. split; [| reflexivity].
      constructor; [apply (validate_next idx), E | exact Hf].
    + intros (ts & Hf & ->). inversion Hf as [| r' t l' ts' Hr Hl]; subst.
      apply (validate_next idx) in Hr. rewrite Hr. apply IH.
      exists ts'. rewrite <- app_assoc. split; [exact Hl | reflexivity].
Qed.

(** Whatever holds of the empty list and of every list a batch validates
    to holds of the stored list of every reachable store. *)
Lemma reachable_transactions (P : list txn -> Prop) :
  P [] ->
  (forall x l v, validate_from 0 (x :: l) [] = Next v -> P v) ->
  forall st, reachable st -> P (transactions st).
Proof.
  intros H0 Hv st Hr. induction Hr as [| st rq Hr IH]; [exact H0 |].
  unfold serve. destruct rq; cbn; try exact IH.
  - unfold upload_transactions.
    destruct data as [| b | z | f | s | l | d]; try exact IH.
    destruct l as [| x l]; [exact IH |]. cbn [truthy negb List.length Nat.eqb].
    destruct (validate_from 0 (x :: l) []) as [v | r | e] eqn:E; cbn; try exact IH.
    exact (Hv x l v E).
  - unfold get_summary. destruct (cache st !! "summary"); [exact IH |].
    destruct (transactions st) as [| t l] eqn:Et; [cbn; rewrite Et; exact H0 |].
    destruct (summarize (t :: l)); cbn; rewrite ?Et; exact IH.
Qed.

Lemma upload_accepted_records l st :
  status (fst (upload_transactions (JList l) st)) = 200 ->
  exists ts,
    Forall2 stored_from l ts /\
    upload_transactions (JList l) st =
      (uploaded ts, {| transactions := ts; cache := ∅ |}).
Proof.
  unfold upload_transactions. destruct l as [| x l]; [cbn; discriminate |].
  cbn [truthy negb List.length Nat.eqb].
  destruct (validate_from 0 (x :: l) []) as [v | r | e] eqn:E.
  - intros _. apply validate_from_next in E. destruct E as (ts & Hf & ->).
    exists ts. split; [exact Hf | reflexivity].
  - cbn. intros Hs. apply validate_from_return_400 in E. congruence.
  - cbn. discriminate.
Qed.

(** X1: what an accepted upload stores.  The new list has one transaction
    per record of the batch, in the order of the batch, each built from its
    record as [stored_from] says; nothing of the previous list is kept, the
    cache is emptied, and the answer counts the records of the batch. *)
Theorem upload_stores_each_record l st :
  status (fst (upload_transactions (JList l) st)) = 200 ->
  let st' := snd (upload_transactions (JList l) st) in
  Forall2 stored_from l (transactions st') /\
  cache st' = ∅ /\
  fst (upload_transactions (JList l) st) = uploaded (transactions st') /\
  field "count" (body (fst (upload_transactions (JList l) st))) =
    Some (JNat (List.length l)).
Proof.
  intros Hs. destruct (upload_accepted_records l st Hs) as (ts & Hf & ->). cbn.
  repeat split; [exact Hf |].
  apply Forall2_length in Hf. rewrite Hf. reflexivity.
Qed.

(** X2: which batches are accepted.  The upload answers 200 exactly when
    the body is a list with at least one record and every record is a
    dictionary that has the four keys and an amount that [float] accepts
    and that is not below zero. *)
Theorem upload_accepted_iff data st :
  status (fst (upload_transactions data st)) = 200 <->
  exists x l, data = JList (x :: l) /\
              Forall (fun record => exists t, stored_from record t) (x :: l).
Proof.
  split.
  - intros Hs. destruct data as [| b | z | f | s | l | d]; try (cbn in Hs; discriminate).
    destruct l as [| x l]; [cbn in Hs; discriminate |].
    exists x, l. split; [reflexivity |].
    destruct (upload_accepted_records (x :: l) st Hs) as (ts & Hf & _).
    revert Hf. generalize (x :: l). intros rs Hf.
    induction Hf; constructor; eauto.
  - intros (x & l & -> & Hf).
    assert (Hts : exists ts, Forall2 stored_from (x :: l) ts).
    { clear st. induction Hf as [| r rs [t Ht] _ [ts IH]]; [exists []; constructor |].
      exists (t :: ts). constructor; assumption. }
    destruct Hts as [ts Hts].
    unfold upload_transactions. cbn [truthy negb List.length Nat.eqb].
    rewrite (proj2 (validate_from_next (x :: l) 0 [] ts)); [reflexivity |].
    exists ts. split; [exact Hts | reflexivity].
Qed.


Lemma stored_from_stripped record t :
  stored_from record t -> stripped (txn_category t) /\ stripped (txn_date t).
Proof.
  intros (d & a & c & dt & _ & _ & _ & _ & _ & _ & Hc & _ & Hd).
  unfold stripped. rewrite Hc, Hd. split; apply strip_idempotent.
Qed.

Lemma validated_stripped l idx v :
  validate_from idx l [] = Next v ->
  Forall (fun t => stripped (txn_category t) /\ stripped (txn_date t)) v.
Proof.
  intros Hv. apply validate_from_next in Hv. destruct Hv as (ts & Hf & ->). cbn.
  induction Hf as [| r t rs ts Hr _ IH]; constructor; [| exact IH].
  exact (stored_from_stripped r t Hr).
Qed.

(** X3: the stored texts are stripped.  In every store the application can
    reach, the category and the date of every transaction neither start nor
    end with white space: stripping them again changes nothing. *)
Theorem reachable_stripped st :
  reachable st ->
  Forall (fun t => PyStr.strip (txn_category t) = txn_category t /\
                   PyStr.strip (txn_date t) = txn_date t) (transactions st).
Proof.
  intros Hr.
  apply (reachable_transactions
           (Forall (fun t => stripped (txn_category t) /\ stripped (txn_date t))));
    [constructor | | exact Hr].
  intros x l v Hv. exact (validated_stripped _ _ _ Hv).
Qed.

(** A stored transaction, served as JSON, validates to itself. *)
Lemma stored_from_txn_json t :
  PyFloat.lt (txn_amount t) 0 = false ->
  stripped (txn_category t) -> stripped (txn_date t) ->
  stored_from (txn_json t) t.
Proof.
  intros Ha Hc Hd.
  exists [("id", txn_id t); ("amount", JFloat (txn_amount t));
          ("category", JStr (txn_category t)); ("date", JStr (txn_date t))],
    (JFloat (txn_amount t)), (JStr (txn_category t)), (JStr (txn_date t)).
  cbn. repeat split; auto.
Qed.

(** X4: a round trip through GET /transactions.  In a reachable store that
    holds transactions, the list that GET /transactions serves is a batch
    that POST /upload accepts, and uploading it stores the same list
    again. *)
Theorem upload_round_trip st st0 :
  reachable st -> transactions st <> [] ->
  exists data,
    field "transactions" (body (get_transactions st)) = Some data /\
    upload_transactions data st0 =
      (uploaded (transactions st), {| transactions := transactions st; cache := ∅ |}).
Proof.
  intros Hr Hne. exists (JList (map txn_json (transactions st))).
  split; [reflexivity |].
  pose proof (reachable_not_negative st Hr) as Hn.
  assert (Hst : Forall (fun t => stripped (txn_category t) /\ stripped (txn_date t))
                       (transactions st)).
  { apply (reachable_transactions
             (Forall (fun t => stripped (txn_category t) /\ stripped (txn_date t))));
      [constructor | | exact Hr].
    intros x l v Hv. exact (validated_stripped _ _ _ Hv). }
  assert (Hf : Forall2 stored_from (map txn_json (transactions st)) (transactions st)).
  { clear Hne. induction (transactions st) as [| t l IH]; [constructor |].
    inversion Hn as [| ? ? Ha Hn']; inversion Hst as [| ? ? [Hc Hd] Hst']; subst.
    cbn. constructor; [apply stored_from_txn_json; assumption | apply IH; assumption]. }
  unfold upload_transactions.
  destruct (transactions st) as [| t l] eqn:Et; [congruence |].
  cbn [map truthy negb List.length Nat.eqb].
  change (txn_json t :: map txn_json l) with (map txn_json (t :: l)).
  rewrite (proj2 (validate_from_next (map txn_json (t :: l)) 0 [] (t :: l)));
    [reflexivity |].
  exists (t :: l). split; [exact Hf | reflexivity].
Qed.

(** The answers that leave the validation loop all start with the same
    words. *)
Lemma validate_return_message idx record r :
  validate idx record = Return r ->
  exists rest, r = error ("Transaction at index " ++ rest) 400.
Proof.
  unfold validate. intros Hv.
  destruct (py_all_in required_fields record) as [[|] | e]; try discriminate.
  - destruct (let* v := py_getitem record "amount" in py_float v) as [a | e].
    + destruct (PyFloat.lt a 0).
      * inversion Hv. eexists. reflexivity.
      * destruct (let* i := py_getitem record "id" in _); discriminate.
    + destruct e; try discriminate;
        destruct (py_getitem record "amount"); try discriminate;
        inversion Hv; eexists; reflexivity.
  - inversion Hv. eexists. reflexivity.
Qed.

Lemma validate_from_return_message l idx acc r :
  validate_from idx l acc = Return r ->
  exists rest, r = error ("Transaction at index " ++ rest) 400.
Proof.
  revert idx acc. induction l as [| x l IH]; intros idx acc; cbn; [discriminate |].
  destruct (validate idx x) eqn:E; try discriminate.
  - apply IH.
  - intros Hr. inversion Hr; subst. eapply validate_return_message, E.
Qed.

(** X5: the answer for an empty list is never given.  A body that is not a
    list with at least one record, the empty list included, is refused as
    an invalid format with a 400 and the store is left as it is; the
    message about an empty transaction list, which the handler holds for a
    list of length zero, is the answer to no request at all. *)
Theorem upload_empty_list_message_unused data st :
  match data with
  | JList (_ :: _) => True
  | _ => upload_transactions data st =
         (error "Invalid data format. Expected JSON array of transactions" 400, st)
  end /\
  fst (upload_transactions data st) <>
  error "Empty transaction list. Please provide at least one transaction" 400.
Proof.
  split.
  - destruct data as [| b | z | f | s | l | d]; try reflexivity.
    destruct l; [reflexivity | exact I].
  - unfold upload_transactions.
    destruct data as [| b | z | f | s | l | d]; try (cbn; discriminate).
    destruct l as [| x l]; [cbn; discriminate |].
    cbn [truthy negb List.length Nat.eqb].
    destruct (validate_from 0 (x :: l) []) as [v | r | e] eqn:E; cbn.
    + discriminate.
    + apply validate_from_return_message in E. destruct E as [rest ->]. discriminate.
    + discriminate.
Qed.


(** A record that is not a dictionary never passes the loop body. *)
Lemma validate_non_object idx record :
  (forall d, record <> JDict d) ->
  (forall t, validate idx record <> Next t) /\
  (py_all_in required_fields record = Ok true -> validate idx record = Throw TypeError).
Proof.
  intros Hd. split.
  - intros t Hv. apply validate_next in Hv. destruct Hv as (d & _ & _ & _ & -> & _).
    exact (Hd d eq_refl).
  - intros Ha. unfold validate. rewrite Ha.
    destruct record as [| b | z | f | s | l | d]; try reflexivity.
    exfalso. exact (Hd d eq_refl).
Qed.

(** X6: a record that is not a JSON object.  Such a record is never
    stored: the batch is refused and the store is left as it is.  When the
    record is a list or a string in which each of the four key names is
    found, it passes the test for missing fields; reading its amount then
    raises [TypeError], the handler for an invalid amount raises it again
    while it formats its message, and the upload answers 500. *)
Theorem upload_non_object_record st before after record validated :
  validate_from 0 before [] = Next validated ->
  (forall d, record <> JDict d) ->
  let answer := upload_transactions (JList (before ++ record :: after)) st in
  status (fst answer) <> 200 /\
  snd answer = st /\
  (py_all_in required_fields record = Ok true ->
   answer = (server_error TypeError, st) /\ status (fst answer) = 500).
Proof.
  intros Hb Hd answer. subst answer.
  destruct (validate_non_object (List.length before) record Hd) as [Hn Ht].
  destruct (upload_first_failure st before after record validated Hb) as [Hr He].
  destruct (validate (List.length before) record) as [t | r | e] eqn:E.
  - exfalso. exact (Hn t eq_refl).
  - rewrite (Hr r eq_refl). cbn. apply validate_return_400 in E.
    split; [congruence |]. split; [reflexivity |].
    intros Ha. specialize (Ht Ha). discriminate.
  - rewrite (He e eq_refl). cbn. split; [discriminate |]. split; [reflexivity |].
    intros Ha. specialize (Ht Ha). inversion Ht. split; reflexivity.
Qed.

(** X7: the answers to a bad amount.  For the first failing record, a
    dictionary with the four keys: an amount that [float] converts to a
    value below zero is answered 400 as negative; an amount on which
    [float] raises [ValueError] or [TypeError] is answered 400 as invalid,
    with its text; an integer too large for a float makes [float] raise
    [OverflowError], which only the outer handler catches, and is answered
    500.  The store is left as it is each time. *)
Theorem upload_amount_errors st before after d v validated :
  validate_from 0 before [] = Next validated ->
  py_all_in required_fields (JDict d) = Ok true ->
  assoc "amount" d = Some v ->
  let idx := List.length before in
  let answer := upload_transactions (JList (before ++ JDict d :: after)) st in
  match py_float v with
  | Ok amount =>
      PyFloat.lt amount 0 = true -> answer = (negative_amount idx, st)
  | Raise ValueError | Raise TypeError => answer = (invalid_amount idx v, st)
  | Raise e => answer = (server_error e, st)
  end.
Proof.
  intros Hb Ha Hv idx answer. subst idx answer.
  destruct (upload_first_failure st before after (JDict d) validated Hb) as [Hr He].
  assert (Hval : forall x, validate (List.length before) (JDict d) = x ->
                 match py_float v with
                 | Ok amount =>
                     PyFloat.lt amount 0 = true ->
                     x = Return (negative_amount (List.length before))
                 | Raise ValueError | Raise TypeError =>
                     x = Return (invalid_amount (List.length before) v)
                 | Raise e => x = Throw e
                 end).
  { intros x <-. unfold validate. rewrite Ha. cbn [py_getitem]. rewrite Hv.
    cbn [bind]. destruct (py_float v) as [a | e].
    - intros ->. reflexivity.
    - destruct e; reflexivity. }
  specialize (Hval _ eq_refl).
  destruct (py_float v) as [a | e].
  - intros Hlt. apply Hr, Hval, Hlt.
  - destruct e; first [apply Hr, Hval | apply He, Hval].
Qed.

Lemma distinct_from_In c l seen :
  In c (fold_left (fun seen c => if existsb (String.eqb c) seen then seen else seen ++ [c])
                  l seen) <-> In c seen \/ In c l.
Proof.
  revert seen. induction l as [| x l IH]; intros seen; cbn [fold_left].
  - cbn. tauto.
  - rewrite IH. destruct (existsb (String.eqb x) seen) eqn:E.
    + apply existsb_eqb_In in E. cbn. intuition (subst; auto).
    + rewrite in_app_iff. cbn. tauto.
Qed.

Lemma distinct_In c l : In c (distinct l) <-> In c l.
Proof. unfold distinct. rewrite distinct_from_In. cbn. tauto. Qed.

(** X8: the categories of the answer.  The answer to an accepted upload
    lists under [categories] the categories of the stored transactions,
    each of them once (in an order that the set leaves open). *)
Theorem upload_answer_categories l st :
  status (fst (upload_transactions (JList l) st)) = 200 ->
  exists cats,
    field "categories" (body (fst (upload_transactions (JList l) st))) =
      Some (JList (map JStr cats)) /\
    NoDup cats /\
    forall c, In c cats <->
              exists t, In t (transactions (snd (upload_transactions (JList l) st))) /\
                        txn_category t = c.
Proof.
  intros Hs. destruct (upload_accepted_records l st Hs) as (ts & _ & ->). cbn.
  exists (distinct (map txn_category ts)). split; [reflexivity |].
  split; [apply (first_seen_NoDup ts) |].
  intros c. rewrite distinct_In, in_map_iff. split; intros (t & A & B); eauto.
Qed.

End UploadRecords.

(* ===================================================================== *)
(** * The store between requests *)
(* ===================================================================== *)

Section StoreFacts.
Context `{PyRuntime}.

(** The cache of a reachable store is empty, or holds the summary of the
    stored list and nothing else. *)
Lemma reachable_cache_cases st :
  reachable st ->
  cache st = ∅ \/
  (transactions st <> [] /\
   exists r, summarize (transactions st) = Ok r /\ cache st = {["summary" := r]}).
Proof.
  induction 1 as [| st rq Hr IH]; [left; reflexivity |].
  unfold serve. destruct rq; cbn; try exact IH.
  - unfold upload_transactions.
    destruct data as [| b | z | f | s | l | d]; try exact IH.
    destruct l as [| x l]; [exact IH |]. cbn [truthy negb List.length Nat.eqb].
    destruct (validate_from 0 (x :: l) []) as [v | r | e]; cbn; try exact IH.
    left. reflexivity.
  - unfold get_summary. destruct (cache st !! "summary") as [c |] eqn:Ec; [exact IH |].
    destruct (transactions st) as [| t l] eqn:Et; [cbn; rewrite Et; exact IH |].
    destruct (summarize_ok (t :: l)) as [r Er]. rewrite Er. cbn.
    right. split; [discriminate |]. exists r. split; [exact Er |].
    destruct IH as [E | (_ & r' & _ & E)].
    + rewrite E. reflexivity.
    + rewrite E, lookup_singleton_eq in Ec. discriminate.
Qed.

(** X9: what the cache holds.  In every reachable store the cache has no
    key other than [summary], and it is empty as long as no transaction is
    stored. *)
Theorem reachable_cache_keys st :
  reachable st ->
  (forall k, k <> "summary" -> cache st !! k = None) /\
  (transactions st = [] -> cache st = ∅).
Proof.
  intros Hr. destruct (reachable_cache_cases st Hr) as [E | (Hne & r & _ & E)].
  - split; [intros k _; rewrite E; apply lookup_empty | intros _; exact E].
  - split; [| intros Hnil; contradiction].
    intros k Hk. rewrite E. apply lookup_singleton_ne. congruence.
Qed.

Lemma serve_keeps_transactions st rq :
  not_upload rq -> transactions (serve st rq) = transactions st.
Proof.
  intros Hn. unfold serve. destruct rq; cbn in *; try reflexivity; [contradiction |].
  unfold get_summary. destruct (cache st !! "summary"); [reflexivity |].
  destruct (transactions st) as [| t l] eqn:Et; [cbn; exact Et |].
  destruct (summarize (t :: l)); cbn; [reflexivity | exact Et].
Qed.

Lemma serve_keeps_nonempty st rq :
  transactions st <> [] -> transactions (serve st rq) <> [].
Proof.
  intros Hne. destruct rq;
    try (rewrite serve_keeps_transactions; [exact Hne | exact I]).
  unfold serve. cbn. unfold upload_transactions.
  destruct data as [| b | z | f | s | l | d]; try exact Hne.
  destruct l as [| x l]; [exact Hne |]. cbn [truthy negb List.length Nat.eqb].
  destruct (validate_from 0 (x :: l) []) as [v | r | e] eqn:E; cbn; try exact Hne.
  apply validate_from_length in E. cbn in E. intros ->. cbn in E. lia.
Qed.

(** X10: a store is never emptied.  Once transactions are stored, no
    sequence of requests brings the list back to empty: an upload replaces
    the list by one as long as its batch, a batch has at least one record,
    and nothing else writes the list. *)
Theorem store_never_emptied st rqs :
  transactions st <> [] -> transactions (run st rqs) <> [].
Proof.
  revert st. induction rqs as [| rq rqs IH]; intros st Hne; [exact Hne |].
  change (run st (rq :: rqs)) with (run (serve st rq) rqs).
  apply IH, serve_keeps_nonempty, Hne.
Qed.

(** X11: GET /summary before any data.  In a reachable store without
    transactions the handler finds no cached entry, answers 200 with the
    fixed body of zeros and the empty [summary] list, and leaves the cache
    empty. *)
Theorem get_summary_empty_store st :
  reachable st -> transactions st = [] ->
  get_summary st = Ok (reply no_summary 200, st) /\
  cache (serve st Summary) = ∅.
Proof.
  intros Hr Hnil.
  destruct (reachable_cache_cases st Hr) as [E | (Hne & _)]; [| contradiction].
  unfold serve. cbn. unfold get_summary. rewrite E, lookup_empty, Hnil. cbn.
  split; [reflexivity | exact E].
Qed.

End StoreFacts.

(* ===================================================================== *)
(** * Grouping by category *)
(* ===================================================================== *)

(** The running total that [+=] builds from [0]. *)
Definition running_total (amounts : list float) : float :=
  fold_left (fun x a => x + a)%float amounts 0%float.

Section GroupFacts.
Context {V : Type} (f : txn -> V -> V) (dflt : V).

Definition group_step (o : option V) (t : txn) : option V :=
  Some (f t (match o with Some v => v | None => dflt end)).

Lemma group_step_some l v :
  fold_left group_step l (Some v) = Some (fold_left (fun a t => f t a) l v).
Proof. revert v. induction l as [| t l IH]; intros v; cbn; [reflexivity | apply IH]. Qed.

Lemma group_step_none l :
  fold_left group_step l None =
  match l with
  | [] => None
  | _ => Some (fold_left (fun a t => f t a) l dflt)
  end.
Proof. destruct l as [| t l]; [reflexivity |]. cbn. apply group_step_some. Qed.

(** The value under a key after the loop: the updates of the transactions
    of that category, in their order. *)
Lemma grouped_assoc c txns d :
  assoc c (fold_left (fun d t => update (txn_category t) (f t) dflt d) txns d) =
  fold_left group_step (filter (in_category c) txns) (assoc c d).
Proof.
  revert d. induction txns as [| t txns IH]; intros d; cbn [fold_left filter];
    [reflexivity |].
  rewrite IH, assoc_update. unfold in_category. rewrite (String.eqb_sym c).
  destruct (String.eqb (txn_category t) c); reflexivity.
Qed.

Lemma grouped_keys txns :
  keys (fold_left (fun d t => update (txn_category t) (f t) dflt d) txns []) =
  first_seen txns.
Proof. apply (keys_fold_update txn_category f dflt). Qed.

Lemma grouped_In c v txns :
  In (c, v) (fold_left (fun d t => update (txn_category t) (f t) dflt d) txns []) <->
  filter (in_category c) txns <> [] /\
  v = fold_left (fun a t => f t a) (filter (in_category c) txns) dflt.
Proof.
  pose proof (grouped_assoc c txns []) as Ha. cbn [assoc] in Ha.
  rewrite group_step_none in Ha. split.
  - intros Hin. apply assoc_In in Hin;
      [| rewrite grouped_keys; apply first_seen_NoDup].
    rewrite Hin in Ha. destruct (filter (in_category c) txns); [discriminate |].
    inversion Ha. split; [discriminate | reflexivity].
  - intros [Hne ->]. apply In_assoc. rewrite Ha.
    destruct (filter (in_category c) txns); [congruence | reflexivity].
Qed.

End GroupFacts.

(* ===================================================================== *)
(** * More on GET /summary *)
(* ===================================================================== *)

Section SummaryValues.
Context `{PyRuntime}.

(** One pass of the loop that fills [category_data]. *)
Definition add_to_acc (t : txn) (a : category_acc) : category_acc :=
  {| acc_total := acc_total a + txn_amount t;
     acc_count := S (acc_count a);
     acc_transactions := acc_transactions a ++ [(txn_amount t, txn_date t)] |}.

Lemma category_data_grouped txns :
  category_data txns =
  fold_left (fun d t => update (txn_category t) (add_to_acc t) new_category d) txns [].
Proof. reflexivity. Qed.

Lemma acc_of_list l a :
  let a' := fold_left (fun a t => add_to_acc t a) l a in
  acc_count a' = acc_count a + List.length l /\
  map fst (acc_transactions a') = map fst (acc_transactions a) ++ map txn_amount l /\
  acc_total a' = fold_left (fun x y => x + y)%float (map txn_amount l) (acc_total a).
Proof.
  revert a. induction l as [| t l IH]; intros a; cbn.
  - rewrite app_nil_r. repeat split. lia.
  - destruct (IH (add_to_acc t a)) as (Hc & Ht & Hs). cbn in *.
    rewrite Hc, Ht, Hs, map_app, <- app_assoc. cbn. repeat split. lia.
Qed.

(** The accumulator of a category holds its transactions. *)
Lemma category_data_In c a txns :
  In (c, a) (category_data txns) ->
  let found := filter (in_category c) txns in
  found <> [] /\
  acc_count a = List.length found /\
  map fst (acc_transactions a) = map txn_amount found /\
  acc_total a = running_total (map txn_amount found).
Proof.
  rewrite category_data_grouped. intros Hin.
  apply grouped_In in Hin. destruct Hin as [Hne ->]. cbn zeta.
  split; [exact Hne |].
  destruct (acc_of_list (filter (in_category c) txns) new_category) as (Hc & Ht & Hs).
  repeat split; assumption.
Qed.

(** What [summarize_category] puts in the entry of one category. *)
Definition entry_of (txns : list txn) (e : category_summary) : Prop :=
  let found := filter (in_category (cs_category e)) txns in
  let amounts := map txn_amount found in
  let total := running_total amounts in
  found <> [] /\
  cs_count e = List.length found /\
  cs_total e = round2 total /\
  cs_average e = NFloat (round2 (total / PyFloat.of_nat (List.length found))) /\
  cs_percentage e =
    (if PyFloat.gt (grand_total txns) 0
     then NFloat (round2 (total / grand_total txns * 100))
     else NInt 0) /\
  exists highest lowest,
    py_max PyFloat.lt amounts = Ok highest /\
    py_min PyFloat.lt amounts = Ok lowest /\
    cs_highest e = NFloat (round2 highest) /\
    cs_lowest e = NFloat (round2 lowest).

Lemma summarize_category_entry txns c a :
  In (c, a) (category_data txns) ->
  exists e, summarize_category (grand_total txns) (c, a) = Ok e /\ entry_of txns e.
Proof.
  intros Hin. destruct (category_data_In c a txns Hin) as (Hne & Hc & Ht & Hs).
  unfold summarize_category, entry_of.
  assert (Hpos : 0 < List.length (filter (in_category c) txns))
    by (destruct (filter (in_category c) txns); [congruence | cbn; lia]).
  rewrite Hc, Ht, Hs.
  destruct (Nat.ltb_spec 0 (List.length (filter (in_category c) txns))) as [_ | Hle];
    [| lia].
  rewrite PyFloat.div_nat_pos by exact Hpos. cbn [bind].
  destruct (filter (in_category c) txns) as [| t l] eqn:Ef; [congruence |].
  cbn [map py_max py_min bind].
  destruct (PyFloat.gt (grand_total txns) 0) eqn:G.
  - unfold PyFloat.div. pose proof (PyFloat.lt_not_eq _ _ G) as Hz.
    unfold PyFloat.eq in Hz. rewrite Hz. cbn [bind].
    eexists. split; [reflexivity |].
    cbn [cs_category cs_count cs_total cs_average cs_percentage cs_highest
         cs_lowest round2_num].
    rewrite Ef. cbn [map py_max py_min].
    repeat split; try discriminate. do 2 eexists. repeat split.
  - cbn [bind]. eexists. split; [reflexivity |].
    cbn [cs_category cs_count cs_total cs_average cs_percentage cs_highest
         cs_lowest round2_num].
    rewrite Ef. cbn [map py_max py_min].
    repeat split; try discriminate. do 2 eexists. repeat split.
Qed.

Lemma summary_entries_values txns :
  exists es, summary_entries txns = Ok es /\ Forall (entry_of txns) es /\
             map cs_count es = map acc_count (values (category_data txns)).
Proof.
  unfold summary_entries.
  destruct (mapM_ok (summarize_category (grand_total txns))
              (fun item e => entry_of txns e /\ cs_count e = acc_count (snd item))
              (category_data txns)) as (es & Ee & Hf).
  { intros [c a] Hin. destruct (summarize_category_entry txns c a Hin) as (e & Es & He).
    exists e. split; [exact Es |]. split; [exact He |].
    destruct (category_data_In c a txns Hin) as (_ & Hc & _).
    destruct He as (_ & Hc' & _).
    assert (Ec : cs_category e = c).
    { destruct (summarize_category_ok (grand_total txns) (c, a)) as (e' & Es' & Hk & _).
      rewrite Es in Es'. inversion Es'; subst e'. exact Hk. }
    rewrite Ec in Hc'. cbn. congruence. }
  exists es. split; [exact Ee |]. unfold values. clear Ee.
  induction Hf as [| item e items es' [He Hc] _ [IH1 IH2]]; cbn.
  - split; constructor.
  - split; [constructor; assumption | congruence].
Qed.


Lemma list_sum_perm l1 l2 : Permutation l1 l2 -> list_sum l1 = list_sum l2.
Proof. induction 1; unfold list_sum in *; cbn [fold_right] in *; lia. Qed.

Lemma counts_after_update t d :
  list_sum (map acc_count (values (add_to_category d t))) =
  S (list_sum (map acc_count (values d))).
Proof.
  unfold add_to_category, values, list_sum.
  induction d as [| [k a] d IH]; [reflexivity |].
  cbn [update]. destruct (String.eqb (txn_category t) k);
    cbn [map fold_right snd acc_count] in *; lia.
Qed.

Lemma counts_of_category_data txns d :
  list_sum (map acc_count (values (fold_left add_to_category txns d))) =
  list_sum (map acc_count (values d)) + List.length txns.
Proof.
  revert d. induction txns as [| t txns IH]; intros d; cbn [fold_left List.length];
    [lia |].
  rewrite IH, counts_after_update. lia.
Qed.

(** X13: the counts of the summary.  On a reachable store that holds
    transactions, GET /summary reports the number of stored transactions
    under [total_transactions] and the number of distinct categories under
    [categories_count]; the [count]s of the entries add up to the number of
    stored transactions, so every transaction is counted in exactly one
    entry. *)
Theorem summary_counts st :
  reachable st -> transactions st <> [] ->
  exists summary r st',
    get_summary st = Ok (r, st') /\
    field "summary" (body r) = Some (JList (map category_summary_json summary)) /\
    field "total_transactions" (body r) =
      Some (JNat (List.length (transactions st))) /\
    field "categories_count" (body r) =
      Some (JNat (List.length (first_seen (transactions st)))) /\
    List.length summary = List.length (first_seen (transactions st)) /\
    list_sum (map cs_count summary) = List.length (transactions st).
Proof.
  intros Hr Hne.
  destruct (summary_entries_values (transactions st)) as (es & Ee & _ & Hc).
  set (summary := py_sort _ by_total_desc es).
  assert (Hl : List.length summary = List.length (first_seen (transactions st))).
  { unfold summary. rewrite py_sort_length.
    rewrite <- (summary_entries_categories _ _ Ee). symmetry. apply length_map. }
  assert (Es : forall r, summarize (transactions st) = Ok r ->
               field "summary" r = Some (JList (map category_summary_json summary)) /\
               field "total_transactions" r =
                 Some (JNat (List.length (transactions st))) /\
               field "categories_count" r =
                 Some (JNat (List.length (first_seen (transactions st))))).
  { intros r. unfold summarize, sorted_summary. rewrite Ee. cbn [bind].
    fold summary. rewrite Hl.
    destruct (Nat.ltb 0 (List.length (transactions st)));
      [destruct (PyFloat.div_nat _ _); cbn [bind]; [| discriminate] |];
      cbn [bind]; intros E; inversion E; repeat split. }
  assert (Hsum : list_sum (map cs_count summary) = List.length (transactions st)).
  { rewrite (list_sum_perm (map cs_count summary) (map cs_count es))
      by (apply Permutation_map, Permutation_sym, py_sort_perm).
    rewrite Hc. unfold category_data. rewrite counts_of_category_data. reflexivity. }
  apply reachable_fresh in Hr. unfold get_summary.
  destruct (cache st !! "summary") as [cached |] eqn:Ec.
  - destruct (Es cached (Hr cached Ec)) as (E1 & E2 & E3).
    exists summary, (reply cached 200), st. repeat split; assumption.
  - destruct (transactions st) as [| t l] eqn:Et; [congruence |].
    destruct (summarize_ok (t :: l)) as [r Er]. rewrite Er. cbn [bind].
    destruct (Es r Er) as (E1 & E2 & E3).
    exists summary, (reply r 200). eexists. repeat split; assumption.
Qed.

End SummaryValues.

(* ===================================================================== *)
(** * More on GET /trends *)
(* ===================================================================== *)

Section TrendsValues.
Context `{PyRuntime}.

Lemma bucket_from l a :
  let a' := fold_left (fun a t => add_to_bucket t a) l a in
  m_count a' = m_count a + List.length l /\
  m_total a' = fold_left (fun x y => x + y)%float (map txn_amount l) (m_total a) /\
  m_categories a' =
    fold_left (fun d t => update (txn_category t) (fun x => x + txn_amount t)%float
                                 0%float d) l (m_categories a).
Proof.
  revert a. induction l as [| t l IH]; intros a; cbn.
  - repeat split. lia.
  - destruct (IH (add_to_bucket t a)) as (Hc & Ht & Hd). cbn in *.
    rewrite Hc, Ht, Hd. repeat split. lia.
Qed.

(** The bucket of a month holds the count, the running total and the
    totals by category of its transactions. *)
Lemma bucket_of_values l :
  m_count (bucket_of l) = List.length l /\
  m_total (bucket_of l) = running_total (map txn_amount l) /\
  m_categories (bucket_of l) = category_totals l.
Proof. exact (bucket_from l new_month). Qed.

(** The entry of [monthly_trends] for the month [month], computed from the
    transactions [found] of that month. *)
Definition month_entry (month : string) (found : list txn) (j : json) : Prop :=
  let total := running_total (map txn_amount found) in
  exists top,
    py_max by_amount (category_totals found) = Ok top /\
    In (fst top) (first_seen found) /\
    j = JDict [("month", JStr month);
               ("total", JFloat (round2 total));
               ("count", JNat (List.length found));
               ("average",
                JFloat (round2 (total / PyFloat.of_nat (List.length found))));
               ("top_category", JStr (fst top));
               ("categories",
                JDict (map (fun ca => (fst ca, JFloat (round2 (snd ca))))
                           (category_totals found)))].

Lemma trend_entry_values month found :
  found <> [] ->
  exists j, trend_entry (month, bucket_of found) = Ok j /\ month_entry month found j.
Proof.
  intros Hne. destruct (bucket_of_values found) as (Hc & Ht & Hd).
  unfold trend_entry, month_entry. rewrite Hc, Ht, Hd.
  rewrite PyFloat.div_nat_pos by (destruct found; [congruence | cbn; lia]).
  cbn [bind].
  assert (Hk : category_totals found <> [])
    by (apply fold_update_nonempty; left; exact Hne).
  destruct (category_totals found) as [| x l] eqn:Ec; [congruence |].
  cbn [py_max bind]. eexists. split; [reflexivity |].
  exists (max_from by_amount x l). split; [reflexivity |]. split; [| reflexivity].
  rewrite <- category_totals_keys, Ec. unfold keys. apply in_map, max_from_In.
Qed.

Lemma month_counts_after_update k t d :
  list_sum (map m_count (values (update k (add_to_bucket t) new_month d))) =
  S (list_sum (map m_count (values d))).
Proof.
  unfold values, list_sum.
  induction d as [| [k' a] d IH]; [reflexivity |].
  cbn [update]. destruct (String.eqb k k');
    cbn [map fold_right snd m_count add_to_bucket] in *; lia.
Qed.

Lemma month_counts txns d d' :
  foldM add_to_month txns d = Ok d' ->
  list_sum (map m_count (values d')) =
  list_sum (map m_count (values d)) + List.length txns.
Proof.
  revert d. induction txns as [| t txns IH]; intros d; cbn [foldM List.length].
  - intros E. inversion E. lia.
  - unfold add_to_month at 1. destruct (month_key (txn_date t)) as [k |];
      cbn [bind]; [| discriminate].
    intros E. apply IH in E. rewrite E, month_counts_after_update. lia.
Qed.

(** X14: the entry of a month.  When every stored date parses, each entry
    of [monthly_trends] is computed from the stored transactions of its
    month, in their stored order: [count] is their number, [total] the
    running sum of their amounts rounded to two decimals, [average] that sum
    divided by the count and rounded, [categories] the rounded running sums
    by category, and [top_category] one of these categories.  The counts of
    the months add up to the number of stored transactions. *)
Theorem trends_month_values st :
  transactions st <> [] ->
  forallb date_parses (transactions st) = true ->
  exists months entries,
    sorted_months (transactions st) = Ok months /\
    get_trends st =
      Ok (reply (JDict [("monthly_trends", JList entries);
                        ("months_count", JNat (List.length entries))]) 200) /\
    Forall2 (fun item j =>
               month_entry (fst item)
                           (filter (in_month (fst item)) (transactions st)) j)
            months entries /\
    list_sum (map (fun item =>
                     List.length (filter (in_month (fst item)) (transactions st)))
                  months) = List.length (transactions st).
Proof.
  intros Hne Hp.
  destruct (sorted_months_ok _ Hp) as (months & Em & _ & _ & Hb).
  assert (Hsum : list_sum (map (fun item =>
                     List.length (filter (in_month (fst item)) (transactions st)))
                  months) = List.length (transactions st)).
  { unfold sorted_months in Em.
    destruct (monthly_data (transactions st)) as [d |] eqn:Ed; [| discriminate].
    cbn [bind] in Em. apply month_counts in Ed. cbn in Ed.
    rewrite <- Ed.
    rewrite (list_sum_perm (map m_count (values d)) (map m_count (values months))).
    - unfold values. rewrite map_map. f_equal. apply map_ext_in.
      intros [k a] Hin. apply Hb in Hin. destruct Hin as [_ ->]. cbn.
      symmetry. apply bucket_of_values.
    - inversion Em; subst months. unfold values.
      apply Permutation_map, Permutation_map, stable_sort_perm. }
  destruct (mapM_ok trend_entry
              (fun item j =>
                 month_entry (fst item)
                             (filter (in_month (fst item)) (transactions st)) j)
              months) as (entries & Ee & Hf).
  { intros [k a] Hin. apply Hb in Hin. destruct Hin as [Hk ->].
    exact (trend_entry_values k _ Hk). }
  exists months, entries. split; [exact Em |].
  split; [| split; [exact Hf | exact Hsum]].
  unfold get_trends. destruct (transactions st) as [| t l] eqn:Et; [congruence |].
  rewrite Em. cbn [bind]. rewrite Ee. reflexivity.
Qed.

End TrendsValues.

(* ===================================================================== *)
(** * More on GET /category-details *)
(* ===================================================================== *)

Section DetailsStatus.
Context `{PyRuntime}.

Lemma get_category_details_found category st :
  filter (in_category category) (transactions st) <> [] ->
  exists r,
    get_category_details category st = Ok r /\ status r = 200 /\
    field "category" (body r) = Some (JStr category) /\
    field "count" (body r) =
      Some (JNat (List.length (filter (in_category category) (transactions st)))).
Proof.
  intros Hf. unfold get_category_details.
  destruct (transactions st) as [| t0 l0]; [cbn in Hf; congruence |].
  destruct (filter (in_category category) (t0 :: l0)) as [| t l]; [congruence |].
  rewrite stable_sort_length.
  rewrite PyFloat.div_nat_pos by (cbn; lia). cbn [bind map py_max py_min].
  eexists. repeat split.
Qed.

Lemma get_category_details_missing category st :
  filter (in_category category) (transactions st) = [] ->
  exists msg, get_category_details category st = Ok (error msg 404).
Proof.
  intros Hf. unfold get_category_details.
  destruct (transactions st) as [| t0 l0]; [eauto |]. rewrite Hf. eauto.
Qed.

Lemma filter_in_category category txns :
  filter (in_category category) txns <> [] <->
  exists t, In t txns /\ txn_category t = category.
Proof.
  split.
  - intros Hf. destruct (filter (in_category category) txns) as [| t l] eqn:E;
      [congruence |].
    assert (Hin : In t (filter (in_category category) txns)) by (rewrite E; left; auto).
    apply filter_In in Hin. destruct Hin as [Hin Hc].
    exists t. split; [exact Hin | apply String.eqb_eq, Hc].
  - intros (t & Hin & Hc) E.
    assert (Hin' : In t (filter (in_category category) txns)).
    { apply filter_In. split; [exact Hin | apply String.eqb_eq, Hc]. }
    rewrite E in Hin'. exact Hin'.
Qed.

(** X15: found or not found.  GET /category-details never fails: it
    answers 200 exactly when some stored transaction has the requested
    category, compared character by character, and 404 otherwise. *)
Theorem category_details_status st category :
  (http_status (get_category_details category st) = 200 <->
   exists t, In t (transactions st) /\ txn_category t = category) /\
  (http_status (get_category_details category st) = 200 \/
   http_status (get_category_details category st) = 404).
Proof.
  rewrite <- filter_in_category.
  destruct (filter (in_category category) (transactions st)) as [| t l] eqn:E.
  - destruct (get_category_details_missing category st E) as [msg ->]. cbn.
    split; [| right; reflexivity]. split; [discriminate | congruence].
  - destruct (get_category_details_found category st) as (r & -> & Hs & _);
      [rewrite E; discriminate |].
    cbn. rewrite Hs. split; [| left; reflexivity]. split; [discriminate | reflexivity].
Qed.

(** X16: a category with white space around it is never found.  The
    upload stores every category stripped, and the view compares the
    category of the request as it is; so in every reachable store a request
    for a category that starts or ends with white space is answered 404. *)
Theorem category_details_padded st category :
  reachable st -> PyStr.strip category <> category ->
  http_status (get_category_details category st) = 404.
Proof.
  intros Hr Hpad.
  assert (Hst : Forall (fun t => stripped (txn_category t) /\ stripped (txn_date t))
                       (transactions st)).
  { apply (reachable_transactions
             (Forall (fun t => stripped (txn_category t) /\ stripped (txn_date t))));
      [constructor | | exact Hr].
    intros x l v Hv. exact (validated_stripped _ _ _ Hv). }
  destruct (filter (in_category category) (transactions st)) as [| t l] eqn:E.
  - destruct (get_category_details_missing category st E) as [msg ->]. reflexivity.
  - exfalso. assert (Hin : In t (filter (in_category category) (transactions st)))
      by (rewrite E; left; reflexivity).
    apply filter_In in Hin. destruct Hin as [Hin Hc].
    apply String.eqb_eq in Hc. rewrite Forall_forall in Hst.
    destruct (Hst t Hin) as [Hs _]. unfold stripped in Hs. congruence.
Qed.

(** X17: the summary and the details agree.  Every category listed by the
    summary is found by GET /category-details, which reports for it the
    same number of transactions as the [count] of the summary entry. *)
Theorem summary_categories_have_details st :
  exists summary,
    sorted_summary (transactions st) = Ok summary /\
    Forall (fun e =>
              exists r,
                get_category_details (cs_category e) st = Ok r /\
                status r = 200 /\
                field "category" (body r) = Some (JStr (cs_category e)) /\
                field "count" (body r) = Some (JNat (cs_count e)))
           summary.
Proof.
  destruct (summary_entries_values (transactions st)) as (es & Ee & Hf & _).
  unfold sorted_summary. rewrite Ee. cbn [bind]. eexists. split; [reflexivity |].
  rewrite Forall_forall in *. intros e He. apply py_sort_In in He.
  destruct (Hf e He) as (Hne & Hc & _).
  destruct (get_category_details_found (cs_category e) st Hne) as (r & Er & Hs & Hk & Hn).
  exists r. rewrite Hc. repeat split; assumption.
Qed.

End DetailsStatus.

(* ===================================================================== *)
(** * More on GET /insight *)
(* ===================================================================== *)

Section MaxFirst.
Context {A : Type} (key : A -> nat).

(** [max] with a key returns the first of the items whose key is
    greatest. *)
Lemma max_from_first best l :
  exists before after,
    best :: l = before ++ max_from (fun a b => Nat.ltb (key a) (key b)) best l :: after /\
    Forall (fun x => key x < key (max_from (fun a b => Nat.ltb (key a) (key b)) best l))
           before /\
    Forall (fun x => key x <= key (max_from (fun a b => Nat.ltb (key a) (key b)) best l))
           after.
Proof.
  revert best. induction l as [| x l IH]; intros best; cbn [max_from].
  - exists [], []. repeat split; constructor.
  - destruct (Nat.ltb_spec (key best) (key x)) as [Hlt | Hge].
    + destruct (IH x) as (before & after & E & Hb & Ha).
      exists (best :: before), after.
      split; [cbn [app]; f_equal; exact E |]. split; [| exact Ha].
      constructor; [| exact Hb].
      destruct before as [| y before]; cbn [app] in E; injection E as E1 E2.
      * rewrite <- E1. exact Hlt.
      * inversion Hb as [| ? ? Hy _]. rewrite <- E1 in Hy. lia.
    + destruct (IH best) as (before & after & E & Hb & Ha).
      destruct before as [| y before]; cbn [app] in E; injection E as E1 E2.
      * exists [], (x :: l). split; [cbn [app]; f_equal; exact E1 |].
        split; [constructor |]. rewrite <- E2 in Ha.
        constructor; [rewrite <- E1; exact Hge | exact Ha].
      * exists (best :: x :: before), after.
        split; [cbn [app]; do 2 f_equal; exact E2 |]. split; [| exact Ha].
        inversion Hb as [| ? ? Hy Hb']. rewrite <- E1 in Hy.
        constructor; [exact Hy |]. constructor; [lia | exact Hb'].
Qed.

End MaxFirst.

Section InsightsMore.
Context `{PyRuntime}.

Lemma category_counts_In c n txns :
  In (c, n) (category_counts txns) ->
  n = List.length (filter (in_category c) txns).
Proof.
  unfold category_counts. intros Hin.
  apply (grouped_In (fun _ => S) 0) in Hin. destruct Hin as [_ ->].
  generalize (filter (in_category c) txns). intros l.
  assert (Hg : forall n, fold_left (fun a (_ : txn) => S a) l n = n + List.length l).
  { induction l as [| t l IH]; intros n; cbn; [lia |]. rewrite IH. lia. }
  apply Hg.
Qed.

Lemma category_counts_keys txns : keys (category_counts txns) = first_seen txns.
Proof. unfold category_counts. apply keys_fold_update. Qed.

(** X18: when GET /insight fails.  The handler fails in one way only: on a
    store that holds transactions whose category totals add up to zero, the
    division of the first insight raises [ZeroDivisionError] and the client
    gets a 500.  On every other store the answer is a 200. *)
Theorem get_insights_status st :
  (forall e, get_insights st = Raise e -> e = ZeroDivisionError) /\
  http_status (get_insights st) =
    match transactions st with
    | [] => 200
    | txns => if PyFloat.eq (spent txns) 0 then 500 else 200
    end.
Proof.
  unfold get_insights. destruct (transactions st) as [| t l] eqn:Et.
  - split; [discriminate | reflexivity].
  - assert (Hne : t :: l <> []) by discriminate.
    destruct (insights_structure (t :: l) Hne) as [Hz Hnz].
    destruct (PyFloat.eq (spent (t :: l)) 0) eqn:Es.
    + rewrite (Hz eq_refl). cbn. split; [| reflexivity].
      intros e E. inversion E. reflexivity.
    + destruct (Hnz eq_refl) as (top & frequent & least & _ & _ & _ & ->).
      cbn. split; [discriminate | reflexivity].
Qed.

(** X19: the most frequent category.  The category named by the third
    insight is the first, in the order in which the categories first occur
    in the stored list, of the categories with the most transactions, and
    the number reported with it is the number of its transactions. *)
Theorem most_frequent_category txns :
  txns <> [] ->
  exists frequent before after,
    py_max by_count (category_counts txns) = Ok frequent /\
    snd frequent = List.length (filter (in_category (fst frequent)) txns) /\
    first_seen txns = before ++ fst frequent :: after /\
    Forall (fun c => List.length (filter (in_category c) txns) < snd frequent) before /\
    Forall (fun c => List.length (filter (in_category c) txns) <= snd frequent) after /\
    (PyFloat.eq (spent txns) 0 = false ->
     exists insights,
       insights_of txns = Ok insights /\
       nth_error insights 2 = Some (MostFrequent (fst frequent) (snd frequent))).
Proof.
  intros Hne.
  assert (Hc : category_counts txns <> [])
    by (apply fold_update_nonempty; left; exact Hne).
  destruct (category_counts txns) as [| x l] eqn:Ec; [congruence |].
  destruct (max_from_first snd x l) as (bf & af & E & Hb & Ha).
  change (fun a b : string * nat => Nat.ltb (snd a) (snd b)) with by_count in *.
  set (frequent := max_from by_count x l) in *.
  assert (Hcount : forall c n, In (c, n) (x :: l) ->
                   n = List.length (filter (in_category c) txns)).
  { intros c n Hin. rewrite <- Ec in Hin. exact (category_counts_In c n txns Hin). }
  assert (Hall : forall (P : nat -> Prop) part,
             (forall y, In y part -> In y (x :: l)) ->
             Forall (fun y => P (snd y)) part ->
             Forall (fun c => P (List.length (filter (in_category c) txns)))
                    (map fst part)).
  { intros P part Hsub Hp. apply Forall_forall. intros c Hin.
    apply in_map_iff in Hin. destruct Hin as ([c' n] & <- & Hin).
    rewrite Forall_forall in Hp. specialize (Hp _ Hin). cbn in *.
    rewrite <- (Hcount c' n (Hsub _ Hin)). exact Hp. }
  exists frequent, (map fst bf), (map fst af).
  split; [reflexivity |]. split; [| split; [| split; [| split]]].
  - apply Hcount. rewrite E. apply in_or_app. right. left.
    destruct frequent; reflexivity.
  - rewrite <- category_counts_keys, Ec. unfold keys. rewrite E, map_app. reflexivity.
  - apply (Hall (fun n => n < snd frequent)); [| exact Hb].
    intros y Hy. rewrite E. apply in_or_app. left. exact Hy.
  - apply (Hall (fun n => n <= snd frequent)); [| exact Ha].
    intros y Hy. rewrite E. apply in_or_app. right. right. exact Hy.
  - intros Hs. destruct (insights_structure txns Hne) as [_ Hnz].
    destruct (Hnz Hs) as (top & fr & least & _ & Ef & _ & Ei).
    rewrite Ec in Ef. cbn in Ef. inversion Ef; subst fr.
    eexists. split; [exact Ei | reflexivity].
Qed.

Lemma fold_left_amounts (l : list txn) x :
  fold_left (fun a t => a + txn_amount t)%float l x =
  fold_left (fun a y => a + y)%float (map txn_amount l) x.
Proof. revert x. induction l as [| t l IH]; intros x; cbn; [reflexivity | apply IH]. Qed.

Lemma category_totals_In c x txns :
  In (c, x) (category_totals txns) <->
  filter (in_category c) txns <> [] /\
  x = running_total (map txn_amount (filter (in_category c) txns)).
Proof.
  unfold category_totals, running_total.
  rewrite (grouped_In (fun t a => a + txn_amount t)%float 0%float).
  rewrite fold_left_amounts. reflexivity.
Qed.

Lemma running_total_nonneg amounts x :
  PyFloat.ge x 0 = true ->
  Forall (fun a => PyFloat.ge a 0 = true) amounts ->
  PyFloat.ge (fold_left (fun a y => a + y)%float amounts x) 0 = true.
Proof.
  revert x. induction amounts as [| a l IH]; intros x Hx Hl; cbn; [exact Hx |].
  inversion Hl; subst. apply IH; [apply PyFloat.add_nonneg |]; assumption.
Qed.

Lemma category_totals_numbers txns :
  Forall amount_ok txns ->
  Forall (fun p : string * float => is_number (snd p)) (category_totals txns).
Proof.
  intros Hok. apply Forall_forall. intros [c x] Hin.
  apply category_totals_In in Hin. destruct Hin as [_ ->]. cbn.
  apply PyFloat.ge_zero_number, running_total_nonneg; [reflexivity |].
  apply Forall_forall. intros a Ha. apply in_map_iff in Ha.
  destruct Ha as (t & <- & Ht). apply filter_In in Ht. destruct Ht as [Ht _].
  rewrite Forall_forall in Hok. exact (Hok t Ht).
Qed.

(** X20: the categories of the highest and of the lowest spend.  When the
    stored amounts satisfy [amount >= 0], the first insight names a category
    whose running total no other category exceeds, with that total, and the
    fourth insight, when there is one, names a category whose running total
    is below no other. *)
Theorem spend_extremes txns :
  txns <> [] -> Forall amount_ok txns ->
  exists top least,
    py_max by_amount (category_totals txns) = Ok top /\
    py_min by_amount (category_totals txns) = Ok least /\
    snd top = running_total (map txn_amount (filter (in_category (fst top)) txns)) /\
    snd least = running_total (map txn_amount (filter (in_category (fst least)) txns)) /\
    (forall c, In c (first_seen txns) ->
       let total := running_total (map txn_amount (filter (in_category c) txns)) in
       PyFloat.ge (snd top) total = true /\ PyFloat.ge total (snd least) = true) /\
    (PyFloat.eq (spent txns) 0 = false ->
     exists insights,
       insights_of txns = Ok insights /\
       nth_error insights 0 =
         Some (HighestSpend (fst top) (snd top) (snd top / spent txns * 100)) /\
       (1 < List.length (first_seen txns) ->
        nth_error insights 3 = Some (LowestSpend (fst least) (snd least)))).
Proof.
  intros Hne Hok.
  pose proof (category_totals_numbers txns Hok) as Hnum.
  assert (Ht : category_totals txns <> [])
    by (apply fold_update_nonempty; left; exact Hne).
  pose proof (category_totals_keys txns) as Hkeys.
  assert (Hin : forall p, In p (category_totals txns) ->
                snd p = running_total
                          (map txn_amount (filter (in_category (fst p)) txns))).
  { intros [c x] Hp. apply category_totals_In in Hp. apply Hp. }
  destruct (category_totals txns) as [| x l] eqn:Ec; [congruence |].
  set (top := max_from by_amount x l).
  set (least := max_from (fun a b => by_amount b a) x l).
  assert (Htop : forall p, In p (x :: l) -> by_amount top p = false).
  { intros p Hp.
    apply (max_from_greatest by_amount (fun p => is_number (snd p))
             (fun a b => PyFloat.lt_asym (snd a) (snd b))
             (fun a b c Hb => PyFloat.ge_trans (snd a) (snd b) (snd c) Hb)
             x l Hnum p Hp). }
  assert (Hleast : forall p, In p (x :: l) -> by_amount p least = false).
  { intros p Hp.
    apply (max_from_greatest (fun a b => by_amount b a) (fun p => is_number (snd p))
             (fun a b => PyFloat.lt_asym (snd b) (snd a))
             (fun a b c Hb H1 H2 => PyFloat.ge_trans (snd c) (snd b) (snd a) Hb H2 H1)
             x l Hnum p Hp). }
  assert (Itop : In top (x :: l)) by apply max_from_In.
  assert (Ileast : In least (x :: l)) by apply max_from_In.
  rewrite Forall_forall in Hnum.
  exists top, least. split; [reflexivity |]. split; [reflexivity |].
  split; [exact (Hin top Itop) |]. split; [exact (Hin least Ileast) |]. split.
  - intros c Hc total. rewrite <- Hkeys in Hc. unfold keys in Hc.
    apply in_map_iff in Hc. destruct Hc as ([c' v] & <- & Hp).
    pose proof (Hin _ Hp) as Ev. cbn in Ev. subst total. cbn [fst]. rewrite <- Ev.
    pose proof (Hnum _ Hp) as Nv. cbn in Nv. split.
    + rewrite (PyFloat.ge_lt _ _ (Hnum _ Itop) Nv).
      specialize (Htop _ Hp). unfold by_amount in Htop. cbn [snd] in Htop.
      rewrite Htop. reflexivity.
    + rewrite (PyFloat.ge_lt _ _ Nv (Hnum _ Ileast)).
      specialize (Hleast _ Hp). unfold by_amount in Hleast. cbn [snd] in Hleast.
      rewrite Hleast. reflexivity.
  - intros Hs. destruct (insights_structure txns Hne) as [_ Hnz].
    destruct (Hnz Hs) as (top' & fr & least' & Et & _ & El & Ei).
    rewrite Ec in Et, El. cbn in Et, El. inversion Et; subst top'.
    inversion El; subst least'.
    eexists. split; [exact Ei |]. split; [reflexivity |].
    intros Hmany. apply Nat.ltb_lt in Hmany. rewrite Hmany. reflexivity.
Qed.

End InsightsMore.

(* ===================================================================== *)
(** * GET /transactions and GET /health after an upload *)
(* ===================================================================== *)

Section AfterUpload.
Context `{PyRuntime}.

(** X21: the counts after an upload.  After an accepted upload, GET
    /health and GET /transactions both report the number of records of the
    batch, the number the upload answered with, and GET /transactions
    serves one dictionary with the four keys per record. *)
Theorem counts_after_upload l st :
  status (fst (upload_transactions (JList l) st)) = 200 ->
  let st' := serve st (Upload (JList l)) in
  field "count" (body (fst (upload_transactions (JList l) st))) =
    Some (JNat (List.length l)) /\
  fst (handle Health st') =
    Ok (reply (JDict [("status", JStr "healthy");
                      ("transactions_count", JNat (List.length l))]) 200) /\
  exists served,
    fst (handle Transactions st') =
      Ok (reply (JDict [("transactions", JList served);
                        ("count", JNat (List.length l))]) 200) /\
    List.length served = List.length l /\
    Forall (fun j => exists i a c d,
                j = JDict [("id", i); ("amount", JFloat a); ("category", JStr c);
                           ("date", JStr d)]) served.
Proof.
  intros Hs st'. subst st'. unfold serve. cbn [handle].
  destruct (upload_accepted_records l st Hs) as (ts & Hf & ->).
  apply Forall2_length in Hf. cbn. rewrite Hf. split; [reflexivity |].
  split; [reflexivity |].
  exists (map txn_json ts). split; [reflexivity |].
  split; [apply length_map |].
  apply Forall_forall. intros j Hj. apply in_map_iff in Hj.
  destruct Hj as (t & <- & _). unfold txn_json. eauto 10.
Qed.

End AfterUpload.

(* ===================================================================== *)
(** * The further properties on examples *)
(* ===================================================================== *)

Module MoreExamples.
Import Reference.

(** A record whose category and date come with white space around them. *)
Definition padded_batch : json :=
  JList [UploadExamples.record 7 (JStr " 12.50 ") "  Food " " 2025-03-01 "].

Definition padded : store := snd (upload_transactions padded_batch initial).

Example padded_stored :
  transactions padded =
  [{| txn_id := JInt 7; txn_amount := 12.5; txn_category := "Food";
      txn_date := "2025-03-01" |}].
Proof. vm_compute. reflexivity. Qed.

(** A string in which the four key names occur. *)
Definition names_only : json := JStr "id, amount, category, date".

(** Records with the four keys and an amount that is refused. *)
Definition no_amount : json := UploadExamples.record 5 JNull "Food" "2025-01-05".
Definition too_large : json :=
  UploadExamples.record 6 (JInt (2 ^ 1024)) "Food" "2025-01-05".

Definition stored_food : txn :=
  {| txn_id := JInt 1; txn_amount := 100; txn_category := "Food";
     txn_date := "2025-01-05" |}.

End MoreExamples.

Lemma reachable_two_months : reachable (H := Reference.runtime) UploadExamples.two_months.
Proof.
  exact (reachable_serve _ (Upload (JList [UploadExamples.food; UploadExamples.travel]))
           reachable_initial).
Qed.

(** X1 at the two-record batch, sent to a store that holds data and a
    cached summary. *)
Lemma upload_stores_each_record_witness :
  let batch := [UploadExamples.food; UploadExamples.travel] in
  let answer :=
    upload_transactions (H := Reference.runtime) (JList batch)
                        UploadExamples.two_months_cached in
  Forall2 (stored_from (H := Reference.runtime)) batch (transactions (snd answer)) /\
  cache (snd answer) = ∅ /\
  fst answer = uploaded (transactions (snd answer)) /\
  field "count" (body (fst answer)) = Some (JNat 2).
Proof.
  exact (upload_stores_each_record (H := Reference.runtime)
           [UploadExamples.food; UploadExamples.travel]
           UploadExamples.two_months_cached eq_refl).
Defined.

(** X3 at the store of the padded record. *)
Lemma reachable_stripped_witness :
  map txn_category (transactions MoreExamples.padded) = ["Food"] /\
  Forall (fun t => PyStr.strip (txn_category t) = txn_category t /\
                   PyStr.strip (txn_date t) = txn_date t)
         (transactions MoreExamples.padded).
Proof.
  split; [reflexivity |].
  apply (reachable_stripped (H := Reference.runtime)).
  exact (reachable_serve _ (Upload MoreExamples.padded_batch) reachable_initial).
Defined.

(** X4 at the store of the two-transaction scenario: what it serves is
    uploaded to the empty store. *)
Lemma upload_round_trip_witness :
  exists data,
    field "transactions" (body (get_transactions UploadExamples.two_months)) =
      Some data /\
    upload_transactions (H := Reference.runtime) data initial =
      (uploaded (transactions UploadExamples.two_months),
       {| transactions := transactions UploadExamples.two_months; cache := ∅ |}).
Proof.
  refine (upload_round_trip (H := Reference.runtime) UploadExamples.two_months initial
            reachable_two_months _).
  discriminate.
Defined.

(** X6 at a batch whose second record is a string that names the four
    keys. *)
Lemma upload_non_object_record_witness :
  let answer :=
    upload_transactions (H := Reference.runtime)
      (JList ([UploadExamples.food] ++ MoreExamples.names_only :: [])) initial in
  status (fst answer) <> 200 /\
  snd answer = initial /\
  answer = (server_error (H := Reference.runtime) TypeError, initial) /\
  status (fst answer) = 500.
Proof.
  destruct (upload_non_object_record (H := Reference.runtime) initial
              [UploadExamples.food] [] MoreExamples.names_only
              [MoreExamples.stored_food] eq_refl)
    as (Hs & Hst & Ht); [discriminate |].
  split; [exact Hs |]. split; [exact Hst |]. exact (Ht eq_refl).
Defined.

(** X7 at three batches: a negative amount, the amount [None], and an
    integer amount of [2^1024]. *)
Lemma upload_amount_errors_witness :
  upload_transactions (H := Reference.runtime)
    (JList ([UploadExamples.food] ++ UploadExamples.refund :: [])) initial =
    (negative_amount 1, initial) /\
  upload_transactions (H := Reference.runtime)
    (JList ([UploadExamples.food] ++ MoreExamples.no_amount :: [])) initial =
    (invalid_amount (H := Reference.runtime) 1 JNull, initial) /\
  body (invalid_amount (H := Reference.runtime) 1 JNull) =
    JDict [("error", JStr "Transaction at index 1 has invalid amount: None")] /\
  upload_transactions (H := Reference.runtime)
    (JList ([] ++ MoreExamples.too_large :: [])) initial =
    (server_error (H := Reference.runtime) OverflowError, initial).
Proof.
  split; [| split; [| split]].
  - exact (upload_amount_errors (H := Reference.runtime) initial
             [UploadExamples.food] []
             [("id", JInt 3); ("amount", JInt (-5)); ("category", JStr "Food");
              ("date", JStr "2025-01-01")]
             (JInt (-5)) [MoreExamples.stored_food] eq_refl eq_refl eq_refl eq_refl).
  - exact (upload_amount_errors (H := Reference.runtime) initial
             [UploadExamples.food] []
             [("id", JInt 5); ("amount", JNull); ("category", JStr "Food");
              ("date", JStr "2025-01-05")]
             JNull [MoreExamples.stored_food] eq_refl eq_refl eq_refl).
  - reflexivity.
  - exact (upload_amount_errors (H := Reference.runtime) initial [] []
             [("id", JInt 6); ("amount", JInt (2 ^ 1024)); ("category", JStr "Food");
              ("date", JStr "2025-01-05")]
             (JInt (2 ^ 1024)) [] eq_refl eq_refl eq_refl).
Defined.

(** X8 at the two-record batch. *)
Lemma upload_answer_categories_witness :
  let answer :=
    upload_transactions (H := Reference.runtime)
      (JList [UploadExamples.food; UploadExamples.travel]) initial in
  exists cats,
    field "categories" (body (fst answer)) = Some (JList (map JStr cats)) /\
    NoDup cats /\
    forall c, In c cats <->
              exists t, In t (transactions (snd answer)) /\ txn_category t = c.
Proof.
  exact (upload_answer_categories (H := Reference.runtime)
           [UploadExamples.food; UploadExamples.travel] initial eq_refl).
Defined.

Lemma reachable_two_months_cached :
  reachable (H := Reference.runtime) UploadExamples.two_months_cached.
Proof. exact (reachable_serve _ Summary reachable_two_months). Qed.

(** X9 at the store whose summary was read once. *)
Lemma reachable_cache_keys_witness :
  let st := UploadExamples.two_months_cached in
  (exists r, cache st !! "summary" = Some r) /\
  (forall k, k <> "summary" -> cache st !! k = None) /\
  (transactions st = [] -> cache st = ∅).
Proof.
  split; [eexists; reflexivity |].
  exact (reachable_cache_keys (H := Reference.runtime) _ reachable_two_months_cached).
Defined.

(** X10 at the store of the two-transaction scenario, after an empty
    batch, a body that is no list and a reading of the summary. *)
Lemma store_never_emptied_witness :
  transactions
    (run (H := Reference.runtime) UploadExamples.two_months
         [Upload (JList []); Upload (JInt 3); Summary]) <> [].
Proof.
  apply (store_never_emptied (H := Reference.runtime)). discriminate.
Defined.

(** X11 at the initial store after a refused upload. *)
Lemma get_summary_empty_store_witness :
  let st := serve (H := Reference.runtime) initial (Upload (JList [])) in
  get_summary (H := Reference.runtime) st = Ok (reply no_summary 200, st) /\
  cache (serve (H := Reference.runtime) st Summary) = ∅.
Proof.
  refine (get_summary_empty_store (H := Reference.runtime) _
            (reachable_serve _ (Upload (JList [])) reachable_initial) eq_refl).
Defined.

(** X13 at the store with four transactions in three categories. *)
Lemma summary_counts_witness :
  let st := SummaryExamples.tied in
  exists summary r st',
    get_summary (H := Reference.runtime) st = Ok (r, st') /\
    field "summary" (body r) = Some (JList (map category_summary_json summary)) /\
    field "total_transactions" (body r) = Some (JNat 4) /\
    field "categories_count" (body r) = Some (JNat 3) /\
    List.length summary = 3 /\
    list_sum (map cs_count summary) = 4.
Proof.
  refine (summary_counts (H := Reference.runtime) SummaryExamples.tied
            (reachable_serve _ (Upload SummaryExamples.tied_batch) reachable_initial) _).
  discriminate.
Defined.

(** X14 at the store of the two-transaction scenario. *)
Lemma trends_month_values_witness :
  let st := UploadExamples.two_months in
  exists months entries,
    sorted_months (H := Reference.runtime) (transactions st) = Ok months /\
    get_trends (H := Reference.runtime) st =
      Ok (reply (JDict [("monthly_trends", JList entries);
                        ("months_count", JNat (List.length entries))]) 200) /\
    Forall2 (fun item j =>
               month_entry (H := Reference.runtime) (fst item)
                 (filter (in_month (H := Reference.runtime) (fst item))
                         (transactions st)) j)
            months entries /\
    list_sum (map (fun item =>
                     List.length (filter (in_month (H := Reference.runtime) (fst item))
                                         (transactions st)))
                  months) = 2.
Proof.
  refine (trends_month_values (H := Reference.runtime) UploadExamples.two_months
            _ eq_refl).
  discriminate.
Defined.

(** X16 at the store of the two-transaction scenario: [Food] is found,
    [Food] followed by a space is not. *)
Lemma category_details_padded_witness :
  http_status (get_category_details (H := Reference.runtime) "Food"
                 UploadExamples.two_months) = 200 /\
  http_status (get_category_details (H := Reference.runtime) "Food "
                 UploadExamples.two_months) = 404.
Proof.
  split; [reflexivity |].
  apply (category_details_padded (H := Reference.runtime));
    [exact reachable_two_months | discriminate].
Defined.

(** X19 at the four transactions in three categories: [Fun] has two of
    them, [Rent] and [Food], seen before it, one each. *)
Lemma most_frequent_category_witness :
  let txns := transactions SummaryExamples.tied in
  first_seen txns = ["Rent"; "Food"; "Fun"] /\
  exists frequent before after,
    py_max by_count (category_counts txns) = Ok frequent /\
    snd frequent = List.length (filter (in_category (fst frequent)) txns) /\
    first_seen txns = before ++ fst frequent :: after /\
    Forall (fun c => List.length (filter (in_category c) txns) < snd frequent) before /\
    Forall (fun c => List.length (filter (in_category c) txns) <= snd frequent) after /\
    (PyFloat.eq (spent (H := Reference.runtime) txns) 0 = false ->
     exists insights,
       insights_of (H := Reference.runtime) txns = Ok insights /\
       nth_error insights 2 = Some (MostFrequent (fst frequent) (snd frequent))).
Proof.
  split; [reflexivity |].
  apply (most_frequent_category (H := Reference.runtime)). discriminate.
Defined.

(** X20 at the four transactions in three categories: [Food] has the
    highest total, and [Rent], seen before [Fun] with the same total, the
    lowest. *)
Lemma spend_extremes_witness :
  let txns := transactions SummaryExamples.tied in
  exists top least,
    py_max by_amount (category_totals txns) = Ok top /\
    py_min by_amount (category_totals txns) = Ok least /\
    snd top = running_total (map txn_amount (filter (in_category (fst top)) txns)) /\
    snd least = running_total (map txn_amount (filter (in_category (fst least)) txns)) /\
    (forall c, In c (first_seen txns) ->
       let total := running_total (map txn_amount (filter (in_category c) txns)) in
       PyFloat.ge (snd top) total = true /\ PyFloat.ge total (snd least) = true) /\
    (PyFloat.eq (spent (H := Reference.runtime) txns) 0 = false ->
     exists insights,
       insights_of (H := Reference.runtime) txns = Ok insights /\
       nth_error insights 0 =
         Some (HighestSpend (fst top) (snd top)
                            (snd top / spent (H := Reference.runtime) txns * 100)) /\
       (1 < List.length (first_seen txns) ->
        nth_error insights 3 = Some (LowestSpend (fst least) (snd least)))).
Proof.
  apply (spend_extremes (H := Reference.runtime)); [discriminate |].
  repeat constructor.
Defined.

(** X21 at the two-record batch. *)
Lemma counts_after_upload_witness :
  let batch := [UploadExamples.food; UploadExamples.travel] in
  let st' := serve (H := Reference.runtime) initial (Upload (JList batch)) in
  field "count" (body (fst (upload_transactions (H := Reference.runtime)
                              (JList batch) initial))) = Some (JNat 2) /\
  fst (handle (H := Reference.runtime) Health st') =
    Ok (reply (JDict [("status", JStr "healthy");
                      ("transactions_count", JNat 2)]) 200) /\
  exists served,
    fst (handle (H := Reference.runtime) Transactions st') =
      Ok (reply (JDict [("transactions", JList served); ("count", JNat 2)]) 200) /\
    List.length served = 2 /\
    Forall (fun j => exists i a c d,
                j = JDict [("id", i); ("amount", JFloat a); ("category", JStr c);
                           ("date", JStr d)]) served.
Proof.
  exact (counts_after_upload (H := Reference.runtime)
           [UploadExamples.food; UploadExamples.travel] initial eq_refl).
Defined.
